(* ===== verification/_CoqProject ===== *)
-Q . S2P
Prelude.v
PyStr.v
Models.v
Fixtures.v
Serializers.v
Validation.v
Permissions.v
Orders.v
Cart.v
Groups.v
Menu.v
Urls.v
Api.v
