(* ===== verification/Prelude.v ===== *)
(** * LittleLemon ordering API: a verification development

    This library models the Django REST Framework application under
    [src/LittleLemon/LittleLemon/LittleLemonDRF/] (files [models.py],
    [serializers.py], [views.py], [urls.py]) and proves what its
    request handlers do to the database and what they answer.

    ** The program and how its parts interact

    The application is a restaurant ordering backend.  [models.py] declares
    five tables (Category, MenuItem, Cart, Order, OrderItem) over Django's
    User and Group tables.  [serializers.py] declares one ModelSerializer
    per table; the views use them to validate request bodies and to render
    responses.  [views.py] holds 21 function views, each wrapped by
    [@api_view] and most by [@permission_classes]; the permission classes
    [IsManager] and [IsDeliveryCrew] test membership of the caller in the
    groups named "manager" and "delivery-crew".  [urls.py] routes paths to
    the views.  Every request first passes the permission check of its view
    (the access-control gate), then the view reads and writes the tables
    through the ORM and renders its answer through a serializer.

    ** Files, and which part of the code each models

    - [Prelude] (this file): Python values ([PyVal]) and the equality
      that [status in [0, 1]] uses, Python exceptions ([PyExc]), the
      handler monad [Py] (state passing over the database; an uncaught
      exception aborts the handler without undoing the writes made before
      it, as Django does outside [transaction.atomic]), HTTP responses,
      the rewrite database [py_rw], the tactics [py_run], [py_split],
      [concrete], and the shared lemmas on the monad and on [res_map].
    - [PyStr]: Python's [int()] and [str()] on decimal strings, through
      the Standard Library's [Decimal.uint] and its round-trip lemmas
      (used by primary-key lookups and by the [<int:...>] URL
      converter), and [decimal.Decimal] of a string ([py_decimal_of_string],
      giving [as_tuple()]) with the bound of its coefficient.
    - [Models] (models.py): the tables as records ([Cart.t], [Order.t],
      ...), the database [Db] as one stdpp [gmap Z _] per table plus the
      group tables, the foreign-key [schema] with its [on_delete] rules and
      reverse accessors, the ORM queries the views use ([carts_of],
      [orders_of], [users_in_group], [user_get], [order_delete], the
      CASCADE of [menuitem_delete], row creation), the [DecimalField]
      bounds ([model_decimals], [decimals_fit]), the referential invariant
      [wf_db] and its executable check [wf_db_check] with the soundness
      lemma [wf_db_check_sound].
    - [Fixtures]: a four-user database [demo_db] on which the witnesses
      run the views ([wf_db] is checked on it by evaluation), and a cart
      request body [demo_cart_body].
    - [Serializers] (serializers.py): the declarations as data, DRF's
      field binding ([ser_bind], which fails on OrderSerializer's
      redundant [source]), the nested-write assertion of [.create()] and
      [.update()], the rendering of rows, and the validation interface
      [Validator] (a [Class] with the three laws the views rely on, for
      the classes of the module: nested fields are validated to dicts and
      required when not partial, and validated decimals fit their field)
      with a permissive executable instance.
    - [Validation] (serializers.py with models.py, as DRF reads them):
      [is_valid] of a [ModelSerializer] with [fields = '__all__'] over the
      model fields ([model_fields], [writable_fields]), each field's
      [run_validation] ([run_field]: DRF's CharField, DecimalField with
      [validate_precision] and [quantize], BooleanField, IntegerField,
      DateField, PrimaryKeyRelatedField and nested serializers),
      [to_internal] with fuel for the nesting, and [drf_validator], the
      instance of [Validator] the laws are proved for.  The range of a
      [SmallIntegerField] and the parsing of date strings depend on the
      database and Python versions, not on the sources, and are
      parameters.
    - [Permissions] (views.py 10-17 and the decorators): [has_permission]
      of IsAuthenticated, IsManager, IsDeliveryCrew and [api_view], the
      gate every view passes first.
    - [Orders] (views.py 168-267): the seven order views, one body per
      view behind its gate, their theorems, and the order views as steps
      on the database ([run_order_call], [order_step]).
    - [Cart] (views.py 145-166): the three cart views and their theorems.
    - [Groups] (views.py 80-143): the six role-directory views, written
      over the module namespace they run in ([py_global]); the namespace
      of the source, [views_globals], binds neither [User] nor
      [UserSerializer].
    - [Menu] (views.py 19-78): the five catalog views and the catalog as
      steps on the database ([menu_effect]).
    - [Urls] (urls.py): [urlpatterns] as written, Django's segmentation
      of a route ([parse_route]), anchored matching with the [int]
      converter ([match_segs]), first-match [resolve] and [reverse].
    - [Api]: the whole application: [dispatch] resolves the path, runs
      the view's permission classes, then DRF's method check (405), then
      the view body; [api_step] is one request on the database.  The
      views are parameterised by the [Validator], so every theorem holds
      for DRF's validation ([drf_validator]) as for the permissive one.

    How they compose: [Api.dispatch] calls [Urls.resolve] and the view
    bodies of [Menu], [Groups], [Cart] and [Orders]; each view is
    [Permissions.api_view] around its body; bodies read and write [Db]
    through [Models] and render through [Serializers].  The Order views
    and the Cart views share the Cart table; the catalog's deletion
    reaches Cart and OrderItem rows by CASCADE.

    ** What the theorems show (claim ids C1-C32, see PROJECT.json)

    - update_order_status (C1-C4): the assignee's status write is
      committed and then the view raises; every path after the gate
      raises; a non-assignee or a missing order gives UnboundLocalError
      and no change; a status outside [0, 1] gives AttributeError and no
      change.
    - create_order (C5-C7): no request changes the database or is answered
      201; an empty cart answers 400; a non-empty cart raises before any
      write: the code never turns a cart into an order.
    - the other order views (C8-C12): exact results of order_list,
      order_detail (404 before the authorization check), delete_order,
      delivery_crew_orders and update_order.
    - progress of the orders (C13, C14): an order assigned to a member
      of the delivery crew can always be marked delivered by one request
      of that member (the write is committed under a 500), and a manager
      can always empty the orders table by a sequence of requests.
    - the gate (C15): through [dispatch], every view behind IsManager,
      IsDeliveryCrew or IsAuthenticated answers 403 and writes nothing
      for a caller outside its role, whatever the method and body.
    - the cart (C16-C18): cart_list renders exactly the caller's lines on
      a well-formed database; clear_cart deletes exactly the caller's
      lines; add_to_cart never changes the database.
    - the role directory (C19): in the source's namespace, which binds
      neither [User] nor [UserSerializer], every role view raises
      NameError for a manager, answers 403 to anyone else, and writes
      nothing: the specification's assign, revoke and list are not
      available at all.
    - validation (C20, C21): with DRF's field validation, the decimal a
      body gives for a cart line's [unit_price] or [price] is below 1
      (C20), so [POST cart/menu-items/add/] with a price such as 9.50 is
      answered 400 and changes nothing (C21).
    - the catalog (C22-C27): who may read the menu and what the reads
      answer (404 before the role check in the detail view); creation
      never succeeds; the exact effect of a partial update; the
      specification's [POST /menu-items/] is answered 405 to every
      caller (C26); deletion cascades into cart lines and order items.
      Lemmas of Menu.v show that every catalog view keeps [wf_db] and
      the decimal bounds.
    - status codes (C28): whatever the method, path, request and
      database, [dispatch] answers 200, 201, 204, 400, 403, 404, 405 or
      500 and nothing else.
    - routing (C29, C30): [resolve] picks the one entry that matches (no
      path matches two entries, so the order of [urlpatterns] is
      irrelevant, C29), and it inverts [reverse] for every entry (C30).
    - the whole API (C31, C32): every sequence of requests keeps [wf_db]
      and [decimals_fit] in every namespace; in the source's namespace no
      sequence of requests creates any row or hands out an id.

    ** Fuel

    One definition takes fuel: [Validation.to_internal], because a nested
    serializer field names its class and the class is looked up by name.
    [drf_is_valid] runs it with [validation_fuel], the number of classes
    of the module (a chain of nested serializers without repetition is no
    longer); the lemma [is_valid_terminates] shows that depth 3
    (CartSerializer, MenuItemSerializer, CategorySerializer) already
    never runs out and that more fuel gives the same outcome, so the
    bound is enough for every request.  Every
    other function is structural (lists of declared fields,
    [map_to_list] of finite tables, the characters of a route, a path or
    a number), so each view and [dispatch] are total functions and each
    theorem about a result is about the result they return.

    ** Modelling choices

    - Primary keys are [Z]; each table is a [gmap Z row].  Decimal fields
      are integers scaled by 10^decimal_places of their declaration.
    - Request bodies ([request.data]) are [gmap string PyVal].  JSON
      floats and arrays are not modelled: numbers in request bodies are
      integers (decimals come as strings, which DRF reads exactly), and
      a [many=True] nested field, which needs a list, never validates.
    - A raised exception is a value [PyRaise e]; Django turns it into an
      HTTP 500 answer.  Writes made before the exception stay in the
      database (ATOMIC_REQUESTS is off in a default project; the settings
      module is not part of the sources).
    - Views without [@permission_classes] get DRF's default [AllowAny].
    - Library behaviour (DRF field binding and validation, Django's
      foreign-key checks, [int()] of a lookup value, URL resolution) is
      modelled from the library's documented semantics, only as far as the
      views depend on it.  Validation is an interface with laws, so the
      theorems of the views hold for every validator that satisfies them;
      [Validation.drf_validator] is DRF's own, with the version-dependent
      sets of [BooleanField] (DRF 3.15) written out.
    - The role views are parameterised by the module namespace and by the
      rendering of the undefined [UserSerializer]; the claims about them
      are stated in the namespace of the source, [views_globals], and the
      invariant C31 holds in every namespace.

    ** Not modelled

    Authentication (the caller identity is an input), HTTP parsing and
    content negotiation, the OPTIONS metadata response, the project's
    settings and root [urls.py] (paths are those the app sees after its
    [include] prefix; APPEND_SLASH redirects are not modelled), the admin
    site and migrations, throttling, concurrency between requests (each
    request runs to completion; spec section 5 asks for transactions the
    code does not use). *)

From Stdlib Require Import ZArith String List.
From stdpp Require Import base list strings gmap fin_maps.

Set Warnings "-register-all".

Declare Scope py_scope.
Delimit Scope py_scope with py.
Open Scope py_scope.

Create HintDb ll discriminated.
Create Rewrite HintDb py_rw.

(** ** Python values *)

(** The values a request body or a model field carries.  [VDict] is a
    nested JSON object, kept as an association list. *)
Inductive PyVal :=
| VNone
| VBool (b : bool)
| VInt (z : Z)
| VStr (s : string)
| VDate (d : Z)
| VDict (kvs : list (string * PyVal)).

(** Python's [==] between a value and an integer literal: [True == 1] and
    [False == 0] hold, a string never equals an integer. *)
Definition py_eq_int (v : PyVal) (n : Z) : bool :=
  match v with
  | VInt z => Z.eqb z n
  | VBool b => Z.eqb (Z.b2z b) n
  | _ => false
  end.

(** [v in [a; b; ...]] for a list of integer literals. *)
Definition py_in_ints (v : PyVal) (l : list Z) : bool :=
  existsb (py_eq_int v) l.
Arguments py_in_ints : simpl never.

(** Truthiness, as Django's BooleanField coerces 0/1/True/False. *)
Definition py_truthy (v : PyVal) : bool :=
  match v with
  | VNone => false
  | VBool b => b
  | VInt z => negb (Z.eqb z 0)
  | VStr s => negb (String.eqb s "")
  | VDate _ => true
  | VDict kvs => negb (Nat.eqb (length kvs) 0)
  end.

(** [type(v).__name__] *)
Definition py_type_name (v : PyVal) : string :=
  match v with
  | VNone => "NoneType" | VBool _ => "bool" | VInt _ => "int"
  | VStr _ => "str" | VDate _ => "date" | VDict _ => "dict"
  end.

(** A request body ([request.data]). *)
Abbreviation Dict := (gmap string PyVal).

(** [d.get(k)]: [None] when the key is absent. *)
Definition dict_get (d : Dict) (k : string) : PyVal :=
  match d !! k with Some v => v | None => VNone end.

(** ** Exceptions and the handler monad *)

Inductive PyExc :=
| NameError (name : string)
| UnboundLocalError (name : string)
| AttributeError (obj attr : string)
| AssertionError (msg : string)
| ValueError (msg : string)
| DoesNotExist (model : string)
| TypeError (msg : string)
| ValidationError (msg : string).   (** django.core.exceptions *)

Inductive pyres (A : Type) :=
| PyOk (a : A)
| PyRaise (e : PyExc).
Arguments PyOk {A} a.
Arguments PyRaise {A} e.

(** A computation over state [S] that returns an [A] or raises.  The state
    reached when the exception is raised is kept. *)
Definition Py (S A : Type) : Type := S -> S * pyres A.

Definition py_ret {S A} (a : A) : Py S A := fun s => (s, PyOk a).
Definition py_raise {S A} (e : PyExc) : Py S A := fun s => (s, PyRaise e).
Definition py_get {S} : Py S S := fun s => (s, PyOk s).
Definition py_put {S} (s' : S) : Py S unit := fun _ => (s', PyOk tt).
Definition py_bind {S A B} (m : Py S A) (k : A -> Py S B) : Py S B :=
  fun s => match m s with
           | (s', PyOk a) => k a s'
           | (s', PyRaise e) => (s', PyRaise e)
           end.

(** Sequencing of pure computations that may raise. *)
Definition res_bind {A B} (r : pyres A) (k : A -> pyres B) : pyres B :=
  match r with PyOk a => k a | PyRaise e => PyRaise e end.

Notation "x <-- r ;; k" := (res_bind r (fun x => k))
  (at level 100, r at next level, right associativity) : py_scope.

(** [map] over a list with a function that may raise: the first exception
    propagates. *)
Fixpoint res_map {A B} (f : A -> pyres B) (l : list A) : pyres (list B) :=
  match l with
  | [] => PyOk []
  | x :: l' => y <-- f x ;; ys <-- res_map f l' ;; PyOk (y :: ys)
  end.

(** A [for] loop whose body only has effects. *)
Fixpoint py_iter {S A} (f : A -> Py S unit) (l : list A) : Py S unit :=
  match l with
  | [] => py_ret tt
  | x :: l' => py_bind (f x) (fun _ => py_iter f l')
  end.

(** [modify]: apply a function to the state. *)
Definition py_modify {S} (f : S -> S) : Py S unit := fun s => (f s, PyOk tt).

(** Whether a pure computation returns. *)
Definition res_ok {A} (r : pyres A) : bool :=
  match r with PyOk _ => true | PyRaise _ => false end.

(** A pure result lifted into the monad. *)
Definition py_lift {S A} (r : pyres A) : Py S A := fun s => (s, r).

Notation "x <- m ;; k" := (py_bind m (fun x => k))
  (at level 100, m at next level, right associativity) : py_scope.
Notation "m ;;; k" := (py_bind m (fun _ => k))
  (at level 100, right associativity) : py_scope.


(** ** HTTP responses *)

Inductive Json :=
| JNull
| JBool (b : bool)
| JInt (z : Z)
| JStr (s : string)
| JDec (scaled : Z) (places : nat)
| JList (l : list Json)
| JObj (kvs : list (string * Json)).

Inductive Body :=
| BDetail (msg : string)   (** [{'detail': msg}] *)
| BErrors                  (** [serializer.errors] *)
| BData (j : Json)         (** [serializer.data] *)
| BEmpty.                  (** no content *)

Record Response := Resp { status_code : Z; body : Body }.

(** The caller: [request.user], anonymous or a user id. *)
Inductive Caller := Anonymous | Authenticated (uid : Z).

#[export] Instance Caller_eq_dec : EqDecision Caller.
Proof. solve_decision. Defined.

Record Request := { req_user : Caller; req_data : Dict }.

(** The status code the client sees: an uncaught exception is a 500. *)
Definition http_status (r : pyres Response) : Z :=
  match r with PyOk rsp => status_code rsp | PyRaise _ => 500 end.

(** ** Monad laws and running lemmas *)

Section MonadLaws.
Context {S A B C : Type}.

Lemma py_bind_ret_l (a : A) (k : A -> Py S B) s :
  py_bind (py_ret a) k s = k a s.
Proof. reflexivity. Qed.

Lemma py_bind_ret_r (m : Py S A) s : py_bind m py_ret s = m s.
Proof. unfold py_bind. by destruct (m s) as [? []]. Qed.

Lemma py_bind_assoc (m : Py S A) (f : A -> Py S B) (g : B -> Py S C) s :
  py_bind (py_bind m f) g s = py_bind m (fun a => py_bind (f a) g) s.
Proof. unfold py_bind. destruct (m s) as [s' []]; reflexivity. Qed.

Lemma py_bind_raise (e : PyExc) (k : A -> Py S B) s :
  py_bind (py_raise e) k s = (s, PyRaise e).
Proof. reflexivity. Qed.

Lemma py_bind_get (k : S -> Py S B) s : py_bind py_get k s = k s s.
Proof. reflexivity. Qed.

Lemma py_bind_put (s' : S) (k : unit -> Py S B) s :
  py_bind (py_put s') k s = k tt s'.
Proof. reflexivity. Qed.

Lemma py_bind_modify (f : S -> S) (k : unit -> Py S B) s :
  py_bind (py_modify f) k s = k tt (f s).
Proof. reflexivity. Qed.

Lemma py_bind_lift_ok (a : A) (k : A -> Py S B) s :
  py_bind (py_lift (PyOk a)) k s = k a s.
Proof. reflexivity. Qed.

Lemma py_bind_lift_raise (e : PyExc) (k : A -> Py S B) s :
  py_bind (py_lift (PyRaise e)) k s = (s, PyRaise e).
Proof. reflexivity. Qed.
End MonadLaws.

#[export] Hint Rewrite @py_bind_ret_l @py_bind_assoc @py_bind_raise
  @py_bind_get @py_bind_put @py_bind_modify @py_bind_lift_ok @py_bind_lift_raise : py_rw.

(** Running a handler: rewrite the monad away, then simplify. *)
Ltac py_run := repeat (autorewrite with py_rw; cbn -[py_bind]).

(** Split on the next pure result the computation binds. *)
Ltac py_split :=
  match goal with |- context [py_bind (py_lift ?r) _] => destruct r end.

(** ** Shared lemmas on Python values *)

Lemma py_in_ints_01 v :
  py_in_ints v [0; 1]%Z = true <->
  v = VInt 0 \/ v = VInt 1 \/ v = VBool false \/ v = VBool true.
Proof.
  unfold py_in_ints. destruct v as [| [] | z | | |]; simpl;
    try (split; [discriminate | intros [H|[H|[H|H]]]; discriminate]).
  - split; auto.
  - split; auto.
  - rewrite orb_false_r, orb_true_iff, !Z.eqb_eq. split.
    + intros [-> | ->]; auto.
    + intros [H|[H|[H|H]]]; inversion H; auto.
Qed.

Lemma dict_get_absent d k : d !! k = None -> dict_get d k = VNone.
Proof. unfold dict_get. by intros ->. Qed.
#[export] Hint Resolve dict_get_absent : ll.

(** [res_map] returns when [f] returns on every element, with one result
    per element. *)
Lemma res_map_ok {A B} (f : A -> pyres B) (l : list A) :
  (forall x, In x l -> exists y, f x = PyOk y) ->
  exists ys, res_map f l = PyOk ys /\ length ys = length l.
Proof.
  induction l as [|x l IH]; intros Hf; simpl; [eauto|].
  destruct (Hf x (or_introl eq_refl)) as [y ->]; simpl.
  assert (Hl : forall z, In z l -> exists y, f z = PyOk y) by (intros; apply Hf; right; done).
  destruct (IH Hl) as (ys & Hys & Hlen).
  rewrite Hys. exists (y :: ys). simpl. auto.
Qed.

(** Discharge a hypothesis of a theorem at a concrete input. *)
Ltac concrete :=
  first [ reflexivity
        | apply bool_decide_eq_true; vm_compute; reflexivity
        | apply (bool_decide_unpack _); vm_compute; exact I
        | eexists; reflexivity ].
