(* ===== verification/PyStr.v ===== *)
(** * PyStr: Python's [int] and [str] on decimal strings

    The views meet text-to-integer conversion twice: Django's primary-key
    lookups call [int(v)] on a value from the request body, and the
    [<int:...>] URL converter turns a run of ASCII digits into an [int]
    and back ([IntConverter.to_python] is [int(value)], [.to_url] is
    [str(value)]).  Digits are read and printed through the Standard
    Library's [Decimal.uint] ([NilZero.uint_of_string],
    [NilZero.string_of_uint]), so the round trip lemmas of [DecimalString]
    and [DecimalN] carry the proofs.  [py_decimal_of_string] is
    [decimal.Decimal(s)] for the finite numbers, which DRF's
    [DecimalField] reads: sign, digits, point, exponent, as
    [Decimal.as_tuple()] reports them.  Strings are ASCII
    ([String.string]), so the non-ASCII digits and spaces [int] and
    [Decimal] also accept do not occur. *)

From Stdlib Require Import ZArith String List Ascii DecimalString DecimalN.
From stdpp Require Import base list strings.
From S2P Require Import Prelude.
Open Scope py_scope.

(** ** Characters *)

Definition is_digit (c : ascii) : bool :=
  let n := nat_of_ascii c in (48 <=? n) && (n <=? 57).

(** [str.isspace] on ASCII: tab to carriage return, the four separators
    0x1c-0x1f, and space. *)
Definition is_py_space (c : ascii) : bool :=
  let n := nat_of_ascii c in
  ((9 <=? n) && (n <=? 13)) || ((28 <=? n) && (n <=? 32)).

(** [s.strip()] with no argument. *)
Fixpoint lstrip (s : string) : string :=
  match s with
  | String c s' => if is_py_space c then lstrip s' else s
  | EmptyString => EmptyString
  end.

Definition strip (s : string) : string :=
  String.rev (lstrip (String.rev (lstrip s))).

(** The longest prefix of ASCII digits, and what follows it: how the
    regular expression [[0-9]+] of a converter, followed by a literal
    that does not start with a digit, splits a path. *)
Fixpoint span_digits (s : string) : string * string :=
  match s with
  | String c s' =>
    if is_digit c then let '(d, r) := span_digits s' in (String c d, r) else ("", s)
  | EmptyString => ("", "")
  end.

(** ** int() and str() *)

(** The value of a non-empty string of ASCII digits. *)
Definition digits_value (s : string) : option Z :=
  (fun d => Z.of_N (N.of_uint d)) <$> NilZero.uint_of_string s.

(** Underscores between digits, as [int] accepts them: removed when each
    one sits between two digits, [None] otherwise. *)
Fixpoint drop_underscores (prev_digit : bool) (s : string) : option string :=
  match s with
  | EmptyString => Some EmptyString
  | String "_" s' =>
    match s' with
    | String c _ => if prev_digit && is_digit c then drop_underscores false s' else None
    | EmptyString => None
    end
  | String c s' => String c <$> drop_underscores (is_digit c) s'
  end%char.

(** [int(s)] for a [str] in base 10: surrounding whitespace, an optional
    sign, digits with single underscores between them; [None] where
    Python raises ValueError. *)
Definition py_int_of_string (s : string) : option Z :=
  let t := strip s in
  let '(sign, body) :=
    match t with
    | String "-" r => (-1, r)
    | String "+" r => (1, r)
    | _ => (1, t)
    end%char%Z in
  match drop_underscores false body ≫= digits_value with
  | Some n => Some (sign * n)%Z
  | None => None
  end.

(** [str(n)] for [n >= 0]. *)
Definition py_str_of_nat (n : Z) : string :=
  NilZero.string_of_uint (N.to_uint (Z.to_N n)).

(** [str(n)] for any [int]. *)
Definition py_str_of_int (n : Z) : string :=
  if (n <? 0)%Z then String "-" (py_str_of_nat (- n)) else py_str_of_nat n.

(** ** Decimal(str) *)

(** The [Decimal] constructor ignores every underscore of a string
    (CPython's [_decimal]: [numeric_as_ascii(..., ignore_underscores=1)]). *)
Fixpoint remove_underscores (s : string) : string :=
  match s with
  | EmptyString => EmptyString
  | String "_" s' => remove_underscores s'
  | String c s' => String c (remove_underscores s')
  end%char.

Fixpoint all_digits (s : string) : bool :=
  match s with
  | EmptyString => true
  | String c s' => is_digit c && all_digits s'
  end.

(** The value of a string of ASCII digits, read left to right onto [acc]. *)
Fixpoint digits_to_Z (acc : Z) (s : string) : Z :=
  match s with
  | EmptyString => acc
  | String c s' => digits_to_Z (10 * acc + (Z.of_nat (nat_of_ascii c) - 48)) s'
  end.

Fixpoint drop_leading_zeros (s : string) : string :=
  match s with
  | String "0" s' => drop_leading_zeros s'
  | _ => s
  end%char.

(** [Decimal.as_tuple()] of a finite decimal: the sign, the digits of the
    coefficient (without leading zeros, [(0,)] for zero) and the
    exponent. *)
Record PyDecimal := PyDec {
  dec_negative : bool;
  dec_digits : string;
  dec_exp : Z
}.

Definition dec_coeff (x : PyDecimal) : Z := digits_to_Z 0 (dec_digits x).

Definition coeff_digits (ds : string) : string :=
  match drop_leading_zeros ds with EmptyString => "0" | r => r end.

(** An optional exponent part [E[+|-]digits] (either case of [E]), which
    must end the string. *)
Definition exponent_part (s : string) : option Z :=
  match s with
  | EmptyString => Some 0%Z
  | String c r =>
    if (c =? "e")%char || (c =? "E")%char then
      let '(sg, ds) := match r with
                       | String "-" r' => ((-1)%Z, r')
                       | String "+" r' => (1%Z, r')
                       | _ => (1%Z, r)
                       end%char in
      match span_digits ds with
      | ((String _ _) as e, EmptyString) => Some (sg * digits_to_Z 0 e)%Z
      | _ => None
      end
    else None
  end.

(** An optional sign. *)
Definition split_sign (t : string) : bool * string :=
  match t with
  | String "-" r => (true, r)
  | String "+" r => (false, r)
  | _ => (false, t)
  end%char.

(** An optional fractional part [.digits], the digits possibly none. *)
Definition split_fraction (r : string) : string * string :=
  match r with
  | String "." r' => span_digits r'
  | _ => (EmptyString, r)
  end%char.

(** [Decimal(s)] for a finite number: after the underscores and the
    surrounding whitespace are removed, [[+|-]digits[.digits][E...]] with
    at least one digit before or after the point (the regular expression
    of [_pydecimal._parser]).  The infinities and NaNs [Decimal] also
    reads are [None] here, as every string it refuses. *)
Definition py_decimal_of_string (s : string) : option PyDecimal :=
  let '(neg, body) := split_sign (strip (remove_underscores s)) in
  let '(ip, r1) := span_digits body in
  let '(fp, r2) := split_fraction r1 in
  if String.eqb (ip ++ fp) "" then None else
  match exponent_part r2 with
  | Some e => Some (PyDec neg (coeff_digits (ip ++ fp)) (e - Z.of_nat (String.length fp)))
  | None => None
  end.

(** ** Lemmas *)

Lemma string_of_uint_digits d :
  Forall (fun c => is_digit c = true) (list_ascii_of_string (NilEmpty.string_of_uint d)).
Proof. induction d; simpl; constructor; auto. Qed.

Lemma to_uint_not_nil n : N.to_uint n <> Decimal.Nil.
Proof.
  intros H. pose proof (DecimalN.Unsigned.of_to n) as E. rewrite H in E.
  simpl in E. subst n. discriminate H.
Qed.

Lemma py_str_of_nat_eq n :
  py_str_of_nat n = NilEmpty.string_of_uint (N.to_uint (Z.to_N n)).
Proof.
  unfold py_str_of_nat, NilZero.string_of_uint.
  destruct (N.to_uint _) eqn:E; [by apply to_uint_not_nil in E | ..]; reflexivity.
Qed.

(** [int(str(n)) == n] on the digits [str] prints. *)
Lemma digits_value_str n : (0 <= n)%Z -> digits_value (py_str_of_nat n) = Some n.
Proof.
  intros Hn. unfold digits_value, py_str_of_nat.
  rewrite NilZero.usu by apply to_uint_not_nil. simpl.
  rewrite DecimalN.Unsigned.of_to. f_equal. lia.
Qed.

(** [str] prints a non-empty run of digits. *)
Lemma py_str_of_nat_nonempty n : py_str_of_nat n <> EmptyString.
Proof.
  rewrite py_str_of_nat_eq. pose proof (to_uint_not_nil (Z.to_N n)) as H.
  by destruct (N.to_uint _).
Qed.
Lemma string_append_cons c s r : (String c s ++ r = String c (s ++ r))%string.
Proof. reflexivity. Qed.

Lemma string_append_nil_r s : (s ++ "")%string = s.
Proof. induction s as [|c s IH]; [done|]. rewrite string_append_cons. by f_equal. Qed.

Lemma span_digits_app_digits s r :
  Forall (fun c => is_digit c = true) (list_ascii_of_string s) ->
  span_digits (s ++ r) = (s ++ (span_digits r).1, (span_digits r).2)%string.
Proof.
  induction s as [|c s IH]; cbn [list_ascii_of_string]; intros Hall.
  - unfold append. destruct (span_digits r); reflexivity.
  - apply Forall_cons in Hall as [Hc Hs]. rewrite !string_append_cons.
    cbn [span_digits]. rewrite Hc, (IH Hs). reflexivity.
Qed.

(** A printed number followed by a non-digit is split off exactly. *)
Lemma span_digits_str n c r :
  is_digit c = false ->
  span_digits (py_str_of_nat n ++ String c r) = (py_str_of_nat n, String c r).
Proof.
  intros Hc. rewrite py_str_of_nat_eq, span_digits_app_digits by apply string_of_uint_digits.
  cbn [span_digits]. rewrite Hc. f_equal. apply string_append_nil_r.
Qed.

(** The same at the end of the string. *)
Lemma span_digits_str_end n :
  span_digits (py_str_of_nat n) = (py_str_of_nat n, "").
Proof.
  rewrite <- (string_append_nil_r (py_str_of_nat n)) at 1.
  rewrite py_str_of_nat_eq, span_digits_app_digits by apply string_of_uint_digits.
  simpl. by rewrite string_append_nil_r.
Qed.

(** ** Decimal digits *)

Lemma all_digits_app s r : all_digits (s ++ r) = all_digits s && all_digits r.
Proof. induction s as [|c s IH]; [done|]. simpl. rewrite IH. apply andb_assoc. Qed.

Lemma span_digits_fst_digits s : all_digits (span_digits s).1 = true.
Proof.
  induction s as [|c s IH]; [done|]. simpl.
  destruct (is_digit c) eqn:Hc; [|done]. destruct (span_digits s). simpl in *. by rewrite Hc.
Qed.

Lemma drop_leading_zeros_digits s : all_digits s = true -> all_digits (drop_leading_zeros s) = true.
Proof.
  induction s as [|c s IH]; [done|]. intros Hs.
  simpl in Hs. apply andb_true_iff in Hs as [Hc Hs].
  cbn [drop_leading_zeros]. destruct (ascii_dec c "0") as [->|Hne].
  - by apply IH.
  - assert (all_digits (String c s) = true) by (simpl; by rewrite Hc, Hs).
    destruct c as [[] [] [] [] [] [] [] []]; try done; congruence.
Qed.

Lemma coeff_digits_digits ds : all_digits ds = true -> all_digits (coeff_digits ds) = true.
Proof.
  intros Hd. unfold coeff_digits. pose proof (drop_leading_zeros_digits ds Hd).
  by destruct (drop_leading_zeros ds).
Qed.

Lemma coeff_digits_nonempty ds : String.length (coeff_digits ds) <> 0.
Proof. unfold coeff_digits. by destruct (drop_leading_zeros ds). Qed.

Lemma split_fraction_digits r : all_digits (split_fraction r).1 = true.
Proof.
  destruct r as [|c r]; [done|].
  destruct c as [[] [] [] [] [] [] [] []]; first [done | apply span_digits_fst_digits].
Qed.

(** The coefficient [Decimal] reads is made of digits, at least one. *)
Lemma py_decimal_digits s x :
  py_decimal_of_string s = Some x ->
  all_digits (dec_digits x) = true /\ String.length (dec_digits x) <> 0.
Proof.
  unfold py_decimal_of_string.
  destruct (split_sign _) as [neg body].
  destruct (span_digits body) as [ip r1] eqn:Hip.
  destruct (split_fraction r1) as [fp r2] eqn:Hfp.
  destruct (String.eqb _ _); [done|]. destruct (exponent_part r2); [|done].
  intros [= <-]. simpl. split; [|apply coeff_digits_nonempty].
  apply coeff_digits_digits. rewrite all_digits_app.
  pose proof (span_digits_fst_digits body) as H1. rewrite Hip in H1.
  pose proof (split_fraction_digits r1) as H2. rewrite Hfp in H2.
  simpl in *. by rewrite H1, H2.
Qed.

(** [k] digits read onto [acc] give a value in
    [[acc * 10^k, (acc + 1) * 10^k)]. *)
Lemma digits_to_Z_bounds acc s :
  (0 <= acc)%Z -> all_digits s = true ->
  (acc * 10 ^ Z.of_nat (String.length s) <= digits_to_Z acc s
   < (acc + 1) * 10 ^ Z.of_nat (String.length s))%Z.
Proof.
  revert acc. induction s as [|c s IH]; intros acc Hacc Hd; simpl in *; [lia|].
  apply andb_true_iff in Hd as [Hc Hs]. unfold is_digit in Hc.
  apply andb_true_iff in Hc as [H1 H2]. apply Nat.leb_le in H1, H2.
  destruct (IH (10 * acc + (Z.of_nat (nat_of_ascii c) - 48))%Z) as [Hl Hu]; [lia|done|].
  rewrite Nat2Z.inj_succ, Z.pow_succ_r by lia.
  assert (0 < 10 ^ Z.of_nat (String.length s))%Z by (apply Z.pow_pos_nonneg; lia).
  nia.
Qed.

Lemma dec_coeff_bounds s x :
  py_decimal_of_string s = Some x ->
  (0 <= dec_coeff x < 10 ^ Z.of_nat (String.length (dec_digits x)))%Z.
Proof.
  intros Hx. destruct (py_decimal_digits s x Hx) as [Hd _].
  pose proof (digits_to_Z_bounds 0 (dec_digits x) ltac:(lia) Hd). unfold dec_coeff. lia.
Qed.
