(* ===== verification/Models.v ===== *)
(** * Models: the tables of [models.py] and the ORM operations the views use

    Each Django model is a [Module] with its row [Record t]; the field
    names are those of the source.  The database [Db] holds one
    [gmap Z _] per table (primary key to row), Django's User and Group
    tables, the [User.groups] many-to-many relation and the
    auto-increment counter of each table.  The ORM queries the views call
    ([filter], [get], [exists], [delete]) are functions on [Db]; deletion
    follows the [on_delete] rule of every foreign key pointing at the
    deleted row.  [wf_db] is the referential-integrity invariant the
    database keeps. *)

From Stdlib Require Import ZArith String List.
From stdpp Require Import base list strings gmap fin_maps.
From S2P Require Import Prelude PyStr.

(** ** Rows *)

(** Django's [auth.User]: only the name is used by the views
    ([StringRelatedField] renders [str(user)], the username). *)
Module User.
Record t := mk { username : string }.
End User.

Module Category.
Record t := mk { slugfield : string; title : string }.
End Category.

(** [price] has [max_digits=6, decimal_places=2]: hundredths. *)
Module MenuItem.
Record t := mk {
  title : string;
  price : Z;
  featured : bool;
  category : Z   (** ForeignKey(Category, on_delete=PROTECT) *)
}.
End MenuItem.

(** [unit_price] and [price] have [max_digits=6, decimal_places=6]:
    millionths, so a stored value is below 1 (see [decimal_fits]). *)
Module Cart.
Record t := mk {
  user : Z;        (** ForeignKey(User, CASCADE) *)
  menuitem : Z;    (** ForeignKey(MenuItem, CASCADE) *)
  quantity : Z;    (** SmallIntegerField *)
  unit_price : Z;
  price : Z
}.
End Cart.

Module Order.
Record t := mk {
  user : Z;                    (** ForeignKey(User, CASCADE) *)
  delivery_crew : option Z;    (** ForeignKey(User, SET_NULL, null=True) *)
  status : bool;               (** BooleanField(default=0) *)
  total : Z;                   (** decimal_places=6 *)
  date : Z                     (** DateField, days *)
}.
End Order.

(** [order] is declared as [ForeignKey(User, ...)] in the source: it
    holds a user id, not an order id. *)
Module OrderItem.
Record t := mk {
  order : Z;
  menuitem : Z;
  quantity : Z;
  unit_price : Z;
  price : Z
}.
End OrderItem.

(** ** The schema of foreign keys

    Which table each foreign key points to, as [models.py] declares it.
    Django checks on assignment that the object given to a foreign key
    is an instance of that table. *)
Inductive Table := TUser | TCategory | TMenuItem | TCart | TOrder | TOrderItem.

#[export] Instance Table_eq_dec : EqDecision Table.
Proof. solve_decision. Defined.

Inductive OnDelete := CASCADE | PROTECT | SET_NULL.

Record ForeignKey := FK {
  fk_table : Table; fk_field : string; fk_target : Table; fk_on_delete : OnDelete;
  fk_related_name : option string
}.

Definition schema : list ForeignKey := [
  FK TMenuItem "category" TCategory PROTECT None;
  FK TCart "user" TUser CASCADE None;
  FK TCart "menuitem" TMenuItem CASCADE None;
  FK TOrder "user" TUser CASCADE None;
  FK TOrder "delivery_crew" TUser SET_NULL (Some "delivery_crew");
  FK TOrderItem "order" TUser CASCADE None;
  FK TOrderItem "menuitem" TMenuItem CASCADE None
].

(** The model name Django lower-cases into default related names. *)
Definition table_name (t : Table) : string :=
  match t with
  | TUser => "user" | TCategory => "category" | TMenuItem => "menuitem"
  | TCart => "cart" | TOrder => "order" | TOrderItem => "orderitem"
  end.

(** The reverse accessors Django adds to the rows of a table: one per
    foreign key pointing at it, named by [related_name] or [<model>_set]. *)
Definition reverse_accessors (t : Table) : list string :=
  map (fun k => match fk_related_name k with
                | Some n => n
                | None => table_name (fk_table k) +:+ "_set"
                end)
      (filter (fun k => fk_target k = t) schema).

(** The table a field of a table points to, if it is a foreign key. *)
Definition fk_target_of (t : Table) (f : string) : option Table :=
  fk_target <$> find (fun k => bool_decide (fk_table k = t) && String.eqb (fk_field k) f) schema.

(** Assigning an instance of table [src] to the foreign key [f] of a new
    or existing row of table [t]: Django's descriptor raises ValueError
    unless [src] is the table the key points to. *)
Definition fk_assign (t : Table) (f : string) (src : Table) : pyres unit :=
  match fk_target_of t f with
  | Some tgt => if decide (tgt = src) then PyOk tt
                else PyRaise (ValueError "Cannot assign: must be an instance of the target model")
  | None => PyRaise (TypeError "unexpected keyword argument")
  end.

(** [BooleanField.to_python], applied when a row is saved. *)
Definition bool_to_python (v : PyVal) : pyres bool :=
  match v with
  | VBool b => PyOk b
  | VInt 0 => PyOk false
  | VInt 1 => PyOk true
  | VStr s => if String.eqb s "t" || String.eqb s "True" || String.eqb s "1" then PyOk true
              else if String.eqb s "f" || String.eqb s "False" || String.eqb s "0" then PyOk false
              else PyRaise (ValidationError "must be either True or False")
  | _ => PyRaise (ValidationError "must be either True or False")
  end.

(** ** The database *)

Record Db := mkDb {
  auth_user : gmap Z User.t;
  auth_group : gset string;          (** group names (unique in Django) *)
  user_groups : gset (Z * string);   (** User.groups *)
  categories : gmap Z Category.t;
  menuitems : gmap Z MenuItem.t;
  carts : gmap Z Cart.t;
  orders : gmap Z Order.t;
  orderitems : gmap Z OrderItem.t;
  seq_cart : Z;                      (** last id handed out, per table *)
  seq_order : Z;
  seq_orderitem : Z
}.

Definition set_carts (f : gmap Z Cart.t -> gmap Z Cart.t) (db : Db) : Db :=
  {| auth_user := auth_user db; auth_group := auth_group db;
     user_groups := user_groups db; categories := categories db;
     menuitems := menuitems db; carts := f (carts db); orders := orders db;
     orderitems := orderitems db; seq_cart := seq_cart db;
     seq_order := seq_order db; seq_orderitem := seq_orderitem db |}.

Definition set_orders (f : gmap Z Order.t -> gmap Z Order.t) (db : Db) : Db :=
  {| auth_user := auth_user db; auth_group := auth_group db;
     user_groups := user_groups db; categories := categories db;
     menuitems := menuitems db; carts := carts db; orders := f (orders db);
     orderitems := orderitems db; seq_cart := seq_cart db;
     seq_order := seq_order db; seq_orderitem := seq_orderitem db |}.

Definition set_orderitems (f : gmap Z OrderItem.t -> gmap Z OrderItem.t) (db : Db) : Db :=
  {| auth_user := auth_user db; auth_group := auth_group db;
     user_groups := user_groups db; categories := categories db;
     menuitems := menuitems db; carts := carts db; orders := orders db;
     orderitems := f (orderitems db); seq_cart := seq_cart db;
     seq_order := seq_order db; seq_orderitem := seq_orderitem db |}.

Definition set_menuitems (f : gmap Z MenuItem.t -> gmap Z MenuItem.t) (db : Db) : Db :=
  {| auth_user := auth_user db; auth_group := auth_group db;
     user_groups := user_groups db; categories := categories db;
     menuitems := f (menuitems db); carts := carts db; orders := orders db;
     orderitems := orderitems db; seq_cart := seq_cart db;
     seq_order := seq_order db; seq_orderitem := seq_orderitem db |}.

Definition set_user_groups (f : gset (Z * string) -> gset (Z * string)) (db : Db) : Db :=
  {| auth_user := auth_user db; auth_group := auth_group db;
     user_groups := f (user_groups db); categories := categories db;
     menuitems := menuitems db; carts := carts db; orders := orders db;
     orderitems := orderitems db; seq_cart := seq_cart db;
     seq_order := seq_order db; seq_orderitem := seq_orderitem db |}.

(** [Order.objects.create(...)]: the next id of the table's sequence. *)
Definition order_create (o : Order.t) : Py Db Z :=
  fun db => let id := (seq_order db + 1)%Z in
    ({| auth_user := auth_user db; auth_group := auth_group db;
        user_groups := user_groups db; categories := categories db;
        menuitems := menuitems db; carts := carts db; orders := <[id := o]> (orders db);
        orderitems := orderitems db; seq_cart := seq_cart db;
        seq_order := id; seq_orderitem := seq_orderitem db |}, PyOk id).

(** [OrderItem.objects.create(...)] *)
Definition orderitem_create (x : OrderItem.t) : Py Db Z :=
  fun db => let id := (seq_orderitem db + 1)%Z in
    ({| auth_user := auth_user db; auth_group := auth_group db;
        user_groups := user_groups db; categories := categories db;
        menuitems := menuitems db; carts := carts db; orders := orders db;
        orderitems := <[id := x]> (orderitems db); seq_cart := seq_cart db;
        seq_order := seq_order db; seq_orderitem := id |}, PyOk id).

(** ** ORM queries *)

(** [request.user.groups.filter(name=name).exists()]: an anonymous user
    has an empty group manager. *)
Definition in_group (db : Db) (c : Caller) (name : string) : bool :=
  match c with
  | Anonymous => false
  | Authenticated u => bool_decide ((u, name) ∈ user_groups db)
  end.

(** The primary key a query such as [filter(user=request.user)] compares
    with: Django raises a TypeError for an anonymous user. *)
Definition caller_pk (c : Caller) : pyres Z :=
  match c with
  | Authenticated u => PyOk u
  | Anonymous => PyRaise (TypeError "Field 'id' expected a number")
  end.

(** [AutoField.get_prep_value], applied to the value of a lookup
    [get(pk=v)]: [int(v)], whose TypeError or ValueError Django re-raises
    with its own message; [pk=None] is read as [pk__isnull=True], which
    no row matches ([None] here). *)
Definition pk_prep_value (v : PyVal) : pyres (option Z) :=
  match v with
  | VNone => PyOk None
  | VBool b => PyOk (Some (if b then 1 else 0)%Z)
  | VInt z => PyOk (Some z)
  | VStr s => match py_int_of_string s with
              | Some z => PyOk (Some z)
              | None => PyRaise (ValueError "Field 'id' expected a number")
              end
  | VDate _ | VDict _ => PyRaise (TypeError "Field 'id' expected a number")
  end.

(** [User.objects.get(pk=v)] *)
Definition user_get (db : Db) (v : PyVal) : pyres (Z * User.t) :=
  k <-- pk_prep_value v ;;
  match k with
  | Some z => match auth_user db !! z with
              | Some u => PyOk (z, u)
              | None => PyRaise (DoesNotExist "User")
              end
  | None => PyRaise (DoesNotExist "User")
  end.

(** [User.objects.filter(groups__name=g)] *)
Definition users_in_group (g : string) (db : Db) : gmap Z User.t :=
  filter (fun kv => (kv.1, g) ∈ user_groups db) (auth_user db).

(** [Group.objects.get(name=g)] *)
Definition group_get (db : Db) (g : string) : pyres string :=
  if decide (g ∈ auth_group db) then PyOk g else PyRaise (DoesNotExist "Group").

(** [Cart.objects.filter(user=u)] *)
Definition carts_of (u : Z) (m : gmap Z Cart.t) : gmap Z Cart.t :=
  filter (fun kv => Cart.user kv.2 = u) m.

(** [Cart.objects.filter(user=u).delete()]: no foreign key points at Cart,
    so nothing cascades. *)
Definition carts_delete_of (u : Z) (m : gmap Z Cart.t) : gmap Z Cart.t :=
  filter (fun kv => Cart.user kv.2 ≠ u) m.

(** [Order.objects.filter(user=u)] *)
Definition orders_of (u : Z) (m : gmap Z Order.t) : gmap Z Order.t :=
  filter (fun kv => Order.user kv.2 = u) m.

(** [Order.objects.filter(delivery_crew=u)] *)
Definition orders_assigned (u : Z) (m : gmap Z Order.t) : gmap Z Order.t :=
  filter (fun kv => Order.delivery_crew kv.2 = Some u) m.

(** The foreign keys that point at a table: a deletion of one of its rows
    follows their [on_delete] rules. *)
Definition referrers (t : Table) : list ForeignKey :=
  filter (fun k => fk_target k = t) schema.

(** [order.delete()]: [referrers TOrder] is empty (see
    [referrers_order_nil]), so only the row goes. *)
Definition order_delete (pk : Z) (db : Db) : Db := set_orders (delete pk) db.

(** [menu_item.delete()]: Django's collector follows [referrers TMenuItem]
    (see [referrers_menuitem]): both keys are CASCADE, so the cart lines
    and order items of the item go with it; nothing points at Cart or
    OrderItem, so the cascade stops there. *)
Definition menuitem_delete (pk : Z) (db : Db) : Db :=
  set_orderitems (filter (fun kv => OrderItem.menuitem kv.2 ≠ pk))
    (set_carts (filter (fun kv => Cart.menuitem kv.2 ≠ pk))
       (set_menuitems (delete pk) db)).

(** Whether a decimal stored with [places] decimals, given as an integer
    scaled by 10^places, fits a field of [max_digits] digits. *)
Definition decimal_fits (max_digits : Z) (scaled : Z) : bool :=
  Z.ltb (Z.abs scaled) (10 ^ max_digits).

(** The [DecimalField]s of each table with their [max_digits]
    (models.py lines 11, 19-20, 30, 37-39). *)
Definition model_decimals (t : Table) : list (string * Z) :=
  match t with
  | TMenuItem => [("price", 6)]
  | TCart => [("unit_price", 6); ("price", 6)]
  | TOrder => [("total", 6)]
  | TOrderItem => [("quantity", 6); ("unit_price", 6); ("price", 6)]
  | TUser | TCategory => []
  end%Z.

(** Every stored decimal fits the [max_digits] of its field (all of
    them 6, see [model_decimals]).  Django does not check this on
    [save()]; the database column does. *)
Definition decimals_fit (db : Db) : Prop :=
  map_Forall (fun _ m => decimal_fits 6 (MenuItem.price m) = true) (menuitems db) /\
  map_Forall (fun _ c => decimal_fits 6 (Cart.unit_price c) && decimal_fits 6 (Cart.price c) = true)
             (carts db) /\
  map_Forall (fun _ o => decimal_fits 6 (Order.total o) = true) (orders db) /\
  map_Forall (fun _ x => decimal_fits 6 (OrderItem.quantity x) && decimal_fits 6 (OrderItem.unit_price x)
                         && decimal_fits 6 (OrderItem.price x) = true) (orderitems db).

(** ** Referential integrity *)

Record wf_db (db : Db) : Prop := {
  wf_cart_refs : forall i c, carts db !! i = Some c ->
    is_Some (auth_user db !! Cart.user c) /\ is_Some (menuitems db !! Cart.menuitem c);
  wf_cart_unique : forall i j c d, carts db !! i = Some c -> carts db !! j = Some d ->
    Cart.user c = Cart.user d -> Cart.menuitem c = Cart.menuitem d -> i = j;
  wf_cart_seq : forall i, is_Some (carts db !! i) -> (i <= seq_cart db)%Z;
  wf_order_refs : forall i o, orders db !! i = Some o ->
    is_Some (auth_user db !! Order.user o) /\
    (forall d, Order.delivery_crew o = Some d -> is_Some (auth_user db !! d));
  wf_order_seq : forall i, is_Some (orders db !! i) -> (i <= seq_order db)%Z;
  wf_orderitem_refs : forall i x, orderitems db !! i = Some x ->
    is_Some (auth_user db !! OrderItem.order x) /\
    is_Some (menuitems db !! OrderItem.menuitem x);
  wf_orderitem_unique : forall i j x y, orderitems db !! i = Some x ->
    orderitems db !! j = Some y -> OrderItem.order x = OrderItem.order y ->
    OrderItem.menuitem x = OrderItem.menuitem y -> i = j;
  wf_orderitem_seq : forall i, is_Some (orderitems db !! i) -> (i <= seq_orderitem db)%Z;
  wf_menuitem_refs : forall i m, menuitems db !! i = Some m ->
    is_Some (categories db !! MenuItem.category m);
  wf_groups : forall u g, (u, g) ∈ user_groups db ->
    is_Some (auth_user db !! u) /\ g ∈ auth_group db
}.

(** ** Lemmas on the queries *)

Lemma referrers_order_nil : referrers TOrder = [].
Proof. reflexivity. Qed.

(** The keys a menu-item deletion follows, and the end of the cascade. *)
Lemma referrers_menuitem :
  referrers TMenuItem = [FK TCart "menuitem" TMenuItem CASCADE None;
                         FK TOrderItem "menuitem" TMenuItem CASCADE None] /\
  referrers TCart = [] /\ referrers TOrderItem = [].
Proof. repeat split. Qed.

Lemma carts_of_lookup u m i c :
  carts_of u m !! i = Some c <-> m !! i = Some c /\ Cart.user c = u.
Proof. unfold carts_of. by rewrite map_lookup_filter_Some. Qed.

Lemma carts_delete_of_lookup u m i c :
  carts_delete_of u m !! i = Some c <-> m !! i = Some c /\ Cart.user c ≠ u.
Proof. unfold carts_delete_of. by rewrite map_lookup_filter_Some. Qed.

Lemma orders_of_lookup u m i o :
  orders_of u m !! i = Some o <-> m !! i = Some o /\ Order.user o = u.
Proof. unfold orders_of. by rewrite map_lookup_filter_Some. Qed.

Lemma orders_assigned_lookup u m i o :
  orders_assigned u m !! i = Some o <-> m !! i = Some o /\ Order.delivery_crew o = Some u.
Proof. unfold orders_assigned. by rewrite map_lookup_filter_Some. Qed.

Lemma carts_of_empty_iff u m :
  carts_of u m = ∅ <-> forall i c, m !! i = Some c -> Cart.user c ≠ u.
Proof.
  unfold carts_of. rewrite map_empty. split.
  - intros H i c Hi Hu. specialize (H i).
    rewrite map_lookup_filter_None in H. destruct H as [H|H]; [congruence|].
    by apply (H c).
  - intros H i. apply map_lookup_filter_None. right. intros c Hi. by apply (H i).
Qed.

#[export] Hint Rewrite carts_of_lookup carts_delete_of_lookup orders_of_lookup
  orders_assigned_lookup : py_rw.

(** On the values [status in [0, 1]] admits, BooleanField's conversion
    is Python truthiness. *)
Lemma bool_to_python_01 v :
  py_in_ints v [0; 1]%Z = true -> bool_to_python v = PyOk (py_truthy v).
Proof. intros [-> | [-> | [-> | ->]]]%py_in_ints_01; reflexivity. Qed.

Lemma set_orders_lookup f db : orders (set_orders f db) = f (orders db).
Proof. reflexivity. Qed.

#[export] Hint Rewrite set_orders_lookup : py_rw.

(** A change of the Cart table that only removes rows keeps [wf_db]. *)
Lemma wf_set_carts_sub db f :
  (forall i c, f (carts db) !! i = Some c -> carts db !! i = Some c) ->
  wf_db db -> wf_db (set_carts f db).
Proof.
  intros Hsub [Hr Hu Hs Or Os Ir Iu Is Mr G]; split; simpl; eauto.
  - intros i [c Hc]. apply Hs. eauto.
Qed.

(** A change of the Order table that only removes rows or rewrites fields
    other than the two user references keeps [wf_db]. *)
Lemma wf_set_orders_sub db f :
  (forall i o, f (orders db) !! i = Some o -> exists o', orders db !! i = Some o' /\
     Order.user o = Order.user o' /\ Order.delivery_crew o = Order.delivery_crew o') ->
  wf_db db -> wf_db (set_orders f db).
Proof.
  intros Hsub [Hr Hu Hs Or Os Ir Iu Is Mr G]; split; simpl; eauto.
  - intros i o Hi. destruct (Hsub i o Hi) as (o' & Ho' & -> & ->). eauto.
  - intros i [o Ho]. destruct (Hsub i o Ho) as (o' & Ho' & _). eauto.
Qed.

(** A change of the group relation that only adds memberships of
    existing users in existing groups keeps [wf_db]. *)
Lemma wf_set_user_groups db f :
  (forall u g, (u, g) ∈ f (user_groups db) ->
     (u, g) ∈ user_groups db \/ (is_Some (auth_user db !! u) /\ g ∈ auth_group db)) ->
  wf_db db -> wf_db (set_user_groups f db).
Proof.
  intros Hsub [Hr Hu Hs Or Os Ir Iu Is Mr G]; split; simpl; eauto.
  intros u g Hg. destruct (Hsub u g Hg); eauto.
Qed.

(** The cascade of a menu-item deletion keeps [wf_db]. *)
Lemma wf_menuitem_delete db pk : wf_db db -> wf_db (menuitem_delete pk db).
Proof.
  intros [Hr Hu Hs Or Os Ir Iu Is Mr G]; split; simpl; eauto.
  - intros i c (Hc & Hne)%map_lookup_filter_Some. destruct (Hr i c Hc) as [H1 H2].
    rewrite lookup_delete_ne; auto.
  - intros i j c d (Hi & _)%map_lookup_filter_Some (Hj & _)%map_lookup_filter_Some. eauto.
  - intros i [c (Hc & _)%map_lookup_filter_Some]. eauto.
  - intros i x (Hx & Hne)%map_lookup_filter_Some. destruct (Ir i x Hx) as [H1 H2].
    rewrite lookup_delete_ne; auto.
  - intros i j x y (Hi & _)%map_lookup_filter_Some (Hj & _)%map_lookup_filter_Some. eauto.
  - intros i [x (Hx & _)%map_lookup_filter_Some]. eauto.
  - intros i m (_ & Hm)%lookup_delete_Some. eauto.
Qed.

#[export] Hint Resolve wf_set_carts_sub wf_set_orders_sub : ll.
#[export] Hint Resolve wf_menuitem_delete : ll.

(** ** An executable check of [wf_db] *)

Definition crew_ok (db : Db) (o : Order.t) : bool :=
  match Order.delivery_crew o with
  | Some d => bool_decide (is_Some (auth_user db !! d))
  | None => true
  end.

Definition wf_db_check (db : Db) : bool :=
  let cs := map_to_list (carts db) in
  let os := map_to_list (orders db) in
  let xs := map_to_list (orderitems db) in
  forallb (fun ic => let '(i, c) := ic in
    bool_decide (is_Some (auth_user db !! Cart.user c)) &&
    bool_decide (is_Some (menuitems db !! Cart.menuitem c)) &&
    Z.leb i (seq_cart db) &&
    forallb (fun jd => let '(j, d) := jd in
      negb (Z.eqb (Cart.user c) (Cart.user d) && Z.eqb (Cart.menuitem c) (Cart.menuitem d))
      || Z.eqb i j) cs) cs &&
  forallb (fun io => let '(i, o) := io in
    bool_decide (is_Some (auth_user db !! Order.user o)) && crew_ok db o &&
    Z.leb i (seq_order db)) os &&
  forallb (fun ix => let '(i, x) := ix in
    bool_decide (is_Some (auth_user db !! OrderItem.order x)) &&
    bool_decide (is_Some (menuitems db !! OrderItem.menuitem x)) &&
    Z.leb i (seq_orderitem db) &&
    forallb (fun jy => let '(j, y) := jy in
      negb (Z.eqb (OrderItem.order x) (OrderItem.order y) &&
            Z.eqb (OrderItem.menuitem x) (OrderItem.menuitem y)) || Z.eqb i j) xs) xs &&
  forallb (fun im => bool_decide (is_Some (categories db !! MenuItem.category im.2)))
          (map_to_list (menuitems db)) &&
  forallb (fun ug => bool_decide (is_Some (auth_user db !! ug.1)) && bool_decide (ug.2 ∈ auth_group db))
          (elements (user_groups db)).

(** [forallb] over the rows of a map, read as a statement on lookups. *)
Lemma forallb_map_to_list {A} (f : Z * A -> bool) (m : gmap Z A) i a :
  forallb f (map_to_list m) = true -> m !! i = Some a -> f (i, a) = true.
Proof.
  intros Hall Hi. rewrite forallb_forall in Hall. apply Hall.
  apply list_elem_of_In, elem_of_map_to_list, Hi.
Qed.

(** Split a row of the check into its facts. *)
Ltac wf_facts H :=
  repeat match type of H with
         | _ && _ = true => let H' := fresh "Hb" in apply andb_true_iff in H as [H H']
         end;
  repeat match goal with
         | Hb : bool_decide _ = true |- _ => apply bool_decide_eq_true in Hb
         | Hb : Z.leb _ _ = true |- _ => apply Z.leb_le in Hb
         end.

(** The check is sound: a database it accepts is well formed. *)
Lemma wf_db_check_sound db : wf_db_check db = true -> wf_db db.
Proof.
  unfold wf_db_check. intros H.
  apply andb_true_iff in H as [H Hug]. apply andb_true_iff in H as [H Hmi].
  apply andb_true_iff in H as [H Hoi]. apply andb_true_iff in H as [Hc Ho].
  split.
  - intros i c Hi. pose proof (forallb_map_to_list _ _ _ _ Hc Hi) as R; simpl in R.
    apply andb_true_iff in R as [R _]. wf_facts R. auto.
  - intros i j c d Hi Hj Hu Hm. pose proof (forallb_map_to_list _ _ _ _ Hc Hi) as R; simpl in R.
    apply andb_true_iff in R as [_ U].
    pose proof (forallb_map_to_list _ _ _ _ U Hj) as Hp. simpl in Hp.
    rewrite Hu, Hm, !Z.eqb_refl in Hp. simpl in Hp. by apply Z.eqb_eq.
  - intros i [c Hi]. pose proof (forallb_map_to_list _ _ _ _ Hc Hi) as R; simpl in R.
    apply andb_true_iff in R as [R _]. wf_facts R. done.
  - intros i o Hi. pose proof (forallb_map_to_list _ _ _ _ Ho Hi) as R; simpl in R.
    wf_facts R. split; [done|]. intros d Hd.
    unfold crew_ok in *. rewrite Hd in *. wf_facts R. done.
  - intros i [o Hi]. pose proof (forallb_map_to_list _ _ _ _ Ho Hi) as R; simpl in R.
    wf_facts R. done.
  - intros i x Hi. pose proof (forallb_map_to_list _ _ _ _ Hoi Hi) as R; simpl in R.
    apply andb_true_iff in R as [R _]. wf_facts R. auto.
  - intros i j x y Hi Hj Hu Hm. pose proof (forallb_map_to_list _ _ _ _ Hoi Hi) as R; simpl in R.
    apply andb_true_iff in R as [_ U].
    pose proof (forallb_map_to_list _ _ _ _ U Hj) as Hp. simpl in Hp.
    rewrite Hu, Hm, !Z.eqb_refl in Hp. simpl in Hp. by apply Z.eqb_eq.
  - intros i [x Hi]. pose proof (forallb_map_to_list _ _ _ _ Hoi Hi) as R; simpl in R.
    apply andb_true_iff in R as [R _]. wf_facts R. done.
  - intros i m Hi. pose proof (forallb_map_to_list _ _ _ _ Hmi Hi) as R; simpl in R.
    wf_facts R. done.
  - intros u g Hin. rewrite forallb_forall in Hug.
    specialize (Hug (u, g)). rewrite <- list_elem_of_In, elem_of_elements in Hug.
    specialize (Hug Hin). simpl in Hug. wf_facts Hug. auto.
Qed.
