(* ===== verification/Fixtures.v ===== *)
(** * Fixtures: a small concrete database for running the views

    Four users: 1 is a manager, 2 and 4 are in the delivery crew, 3 is a
    customer.  One category, two menu items, one cart line of user 3,
    one order of user 3 assigned to user 2.  [demo_db_wf] checks the
    invariant [wf_db] on it by evaluation. *)

From Stdlib Require Import ZArith String List.
From stdpp Require Import base list strings gmap fin_maps.
From S2P Require Import Prelude Models.
Open Scope Z_scope.

Definition demo_db : Db := {|
  auth_user := <[1 := User.mk "mgr"]> (<[2 := User.mk "dan"]>
               (<[3 := User.mk "cat"]> {[4 := User.mk "eve"]}));
  auth_group := {[ "manager"; "delivery-crew" ]};
  user_groups := {[ (1, "manager"); (2, "delivery-crew"); (4, "delivery-crew") ]};
  categories := {[ 1 := Category.mk "mains" "Mains" ]};
  menuitems := <[1 := MenuItem.mk "Pasta" 950 false 1]> {[ 2 := MenuItem.mk "Soup" 300 false 1 ]};
  carts := {[ 1 := Cart.mk 3 1 2 0 0 ]};
  orders := {[ 1 := Order.mk 3 (Some 2) false 0 100 ]};
  orderitems := ∅;
  seq_cart := 1; seq_order := 1; seq_orderitem := 0 |}.

(** A request from user [u] with body [d]. *)
Definition demo_req (u : Z) (d : Dict) : Request :=
  {| req_user := Authenticated u; req_data := d |}.

(** A body for [POST cart/menu-items/add/] from the customer: menu item
    "Pasta" (price 9.50) with its category, quantity 2, the given unit
    price and a line price of 0.19, and [user] 3.  DRF reads decimals
    from strings. *)
Definition demo_cart_body (unit_price : string) : Dict :=
  <["menuitem" := VDict [("title", VStr "Pasta"); ("price", VStr "9.50"); ("featured", VBool false);
                         ("category", VDict [("slugfield", VStr "mains"); ("title", VStr "Mains")])]]>
  (<["quantity" := VInt 2]> (<["unit_price" := VStr unit_price]>
  (<["price" := VStr "0.19"]> {["user" := VInt 3]}))).

Lemma demo_db_wf : wf_db demo_db.
Proof. apply wf_db_check_sound. vm_compute. reflexivity. Qed.
