(* ===== verification/Serializers.v ===== *)
(** * Serializers: [serializers.py] and the parts of DRF the views rely on

    Each serializer class of [serializers.py] is a value of
    [SerializerDecl]: its model and its explicitly declared fields (all of
    them use [fields = '__all__']).  Three pieces of DRF's behaviour are
    modelled, as far as the views depend on them:
    - [ser_bind]: when a serializer's fields are first used, DRF binds
      each declared field and asserts that its [source] argument is not
      the field's own name (rest_framework/fields.py, [Field.bind]);
    - [nested_write_check]: [ModelSerializer.create] and [.update] assert
      that no nested serializer field carries data
      ([raise_errors_on_nested_writes]);
    - rendering ([.data]) of rows into JSON, with the nested serializers.
    Validation ([is_valid]) is an interface, [Validator], with the laws
    the views depend on (nested fields validate to dicts and are present
    when not partial; validated decimals fit their field); Validation.v
    implements it with DRF's field validation. *)

From Stdlib Require Import ZArith String List.
From stdpp Require Import base list strings gmap fin_maps.
From S2P Require Import Prelude Models.
Open Scope py_scope.

(** ** Declarations *)

Inductive FieldKind :=
| Nested (serializer : string)   (** a nested ModelSerializer *)
| StringRelated.                 (** serializers.StringRelatedField() *)

Record DeclaredField := DF {
  df_name : string;
  df_kind : FieldKind;
  df_many : bool;
  df_source : option string
}.

Record SerializerDecl := SD {
  sd_name : string;
  sd_model : Table;
  sd_declared : list DeclaredField
}.

Definition CategorySerializer : SerializerDecl :=
  SD "CategorySerializer" TCategory [].

Definition MenuItemSerializer : SerializerDecl :=
  SD "MenuItemSerializer" TMenuItem
     [DF "category" (Nested "CategorySerializer") false None].

Definition CartSerializer : SerializerDecl :=
  SD "CartSerializer" TCart
     [DF "menuitem" (Nested "MenuItemSerializer") false None].

Definition OrderItemSerializer : SerializerDecl :=
  SD "OrderItemSerializer" TOrderItem
     [DF "menuitem" (Nested "MenuItemSerializer") false None].

Definition OrderSerializer : SerializerDecl :=
  SD "OrderSerializer" TOrder
     [DF "delivery_crew" StringRelated false None;
      DF "orderitem_set" (Nested "OrderItemSerializer") true (Some "orderitem_set")].

(** The classes of the module, in the order it declares them. *)
Definition serializer_classes : list SerializerDecl :=
  [CategorySerializer; MenuItemSerializer; CartSerializer; OrderItemSerializer; OrderSerializer].

(** ** Binding *)

(** The AssertionError of [Field.bind]. *)
Definition bind_assertion : PyExc := AssertionError "It is redundant to specify `source`".

(** [Field.bind]: [assert self.source != field_name]. *)
Definition bind_field (f : DeclaredField) : pyres unit :=
  match df_source f with
  | Some s => if String.eqb s (df_name f)
              then PyRaise bind_assertion
              else PyOk tt
  | None => PyOk tt
  end.

(** Accessing [serializer.fields] binds every declared field in order. *)
Fixpoint bind_all (l : list DeclaredField) : pyres unit :=
  match l with
  | [] => PyOk tt
  | f :: l' => _ <-- bind_field f ;; bind_all l'
  end.

Definition ser_bind (sd : SerializerDecl) : pyres unit := bind_all (sd_declared sd).

(** The attribute a declared field reads: its [source], else its name. *)
Definition df_attr (f : DeclaredField) : string :=
  match df_source f with Some s => s | None => df_name f end.

Definition is_nested (f : DeclaredField) : bool :=
  match df_kind f with Nested _ => true | StringRelated => false end.

(** ** Validation, as an interface *)

(** [serializer.is_valid()] on a request body, with the serializer's
    [partial] flag: [Some vd] with the validated data, or [None] when
    [serializer.errors] is not empty.  The laws the views rely on, for
    the serializer classes of the module: a declared nested serializer is
    a required writable field, so after a successful non-partial
    validation its attribute holds a dict; a nested field that is
    validated (partial or not) yields a dict
    ([Serializer.to_internal_value] rejects anything else); a
    [DecimalField] rejects a value with more than [max_digits] digits, so
    a validated decimal fits its field.  Validation.v implements the
    interface with DRF's field validation. *)
Class Validator := {
  validate : SerializerDecl -> bool -> Db -> Dict -> option Dict;
  validate_nested_present : forall sd db d vd f,
    In sd serializer_classes ->
    validate sd false db d = Some vd -> In f (sd_declared sd) -> is_nested f = true ->
    exists kvs, vd !! df_attr f = Some (VDict kvs);
  validate_nested_dict : forall sd p db d vd f v,
    In sd serializer_classes ->
    validate sd p db d = Some vd -> In f (sd_declared sd) -> is_nested f = true ->
    vd !! df_attr f = Some v -> exists kvs, v = VDict kvs;
  validate_decimal_fits : forall sd p db d vd f md x,
    In sd serializer_classes ->
    validate sd p db d = Some vd -> In (f, md) (model_decimals (sd_model sd)) ->
    vd !! f = Some (VInt x) -> decimal_fits md x = true
}.

(** [raise_errors_on_nested_writes(method, ...)]: [.save()], through
    [.create()] or [.update()], asserts that no nested serializer field
    is present as a dict in the validated data. *)
(** The message names the method ([create] or [update]) that saves. *)
Definition nested_write_error (method : string) : PyExc :=
  AssertionError ("The `." +:+ method +:+ "()` method does not support writable nested fields by default.").

Definition nested_write_check (method : string) (sd : SerializerDecl) (vd : Dict) : pyres unit :=
  if existsb (fun f => is_nested f &&
                match vd !! df_attr f with Some (VDict _) => true | _ => false end)
             (sd_declared sd)
  then PyRaise (nested_write_error method)
  else PyOk tt.

(** ** Rendering *)

Definition fetch {A} (name : string) (m : gmap Z A) (k : Z) : pyres A :=
  match m !! k with Some a => PyOk a | None => PyRaise (DoesNotExist name) end.

Definition category_repr (id : Z) (c : Category.t) : Json :=
  JObj [("id", JInt id); ("slugfield", JStr (Category.slugfield c));
        ("title", JStr (Category.title c))].

(** [MenuItemSerializer]: id, the nested category, then the model fields. *)
Definition menuitem_repr (db : Db) (id : Z) (mi : MenuItem.t) : pyres Json :=
  _ <-- ser_bind CategorySerializer ;;
  c <-- fetch "Category" (categories db) (MenuItem.category mi) ;;
  PyOk (JObj [("id", JInt id); ("category", category_repr (MenuItem.category mi) c);
              ("title", JStr (MenuItem.title mi)); ("price", JDec (MenuItem.price mi) 2);
              ("featured", JBool (MenuItem.featured mi))]).

(** [CartSerializer]: id, the nested menu item, the model fields, user. *)
Definition cart_repr (db : Db) (id : Z) (c : Cart.t) : pyres Json :=
  _ <-- ser_bind MenuItemSerializer ;;
  mi <-- fetch "MenuItem" (menuitems db) (Cart.menuitem c) ;;
  mj <-- menuitem_repr db (Cart.menuitem c) mi ;;
  PyOk (JObj [("id", JInt id); ("menuitem", mj); ("quantity", JInt (Cart.quantity c));
              ("unit_price", JDec (Cart.unit_price c) 6); ("price", JDec (Cart.price c) 6);
              ("user", JInt (Cart.user c))]).

(** [OrderSerializer] on one order, after binding: [delivery_crew]
    renders [str(user)]; [orderitem_set] reads the attribute of that name,
    which exists only if a foreign key to Order declares it. *)
Definition order_repr (db : Db) (id : Z) (o : Order.t) : pyres Json :=
  crew <-- (match Order.delivery_crew o with
            | None => PyOk JNull
            | Some u => usr <-- fetch "User" (auth_user db) u ;; PyOk (JStr (User.username usr))
            end) ;;
  if bool_decide ("orderitem_set" ∈ reverse_accessors TOrder)
  then PyOk (JObj [("id", JInt id); ("delivery_crew", crew);
                   ("status", JBool (Order.status o)); ("total", JDec (Order.total o) 6);
                   ("date", JInt (Order.date o)); ("user", JInt (Order.user o))])
  else PyRaise (AttributeError "Order" "orderitem_set").

(** [Serializer(instance).data] *)
Definition ser_data {A} (sd : SerializerDecl) (repr : Db -> Z -> A -> pyres Json)
    (db : Db) (id : Z) (a : A) : pyres Json :=
  _ <-- ser_bind sd ;; repr db id a.

(** [Serializer(queryset, many=True).data]: a [ListSerializer] renders
    each row with its child serializer, whose fields are bound on the
    first row; an empty queryset renders [[]] without binding. *)
Definition ser_data_many {A} (sd : SerializerDecl) (repr : Db -> Z -> A -> pyres Json)
    (db : Db) (rows : list (Z * A)) : pyres Json :=
  match rows with
  | [] => PyOk (JList [])
  | _ => _ <-- ser_bind sd ;; js <-- res_map (fun r => repr db r.1 r.2) rows ;; PyOk (JList js)
  end.

(** ** Facts about the declarations *)

(** The declaration of [OrderSerializer] never binds. *)
Lemma order_serializer_bind_fails :
  ser_bind OrderSerializer = PyRaise bind_assertion.
Proof. reflexivity. Qed.

Lemma ser_data_order db id (o : Order.t) :
  ser_data OrderSerializer order_repr db id o = PyRaise bind_assertion.
Proof. reflexivity. Qed.

(** Rendering a list of orders: [[]] for no rows, the assertion else. *)
Lemma ser_data_many_order db rows :
  ser_data_many OrderSerializer order_repr db rows =
  match rows with [] => PyOk (JList []) | _ => PyRaise bind_assertion end.
Proof. by destruct rows. Qed.

#[export] Hint Rewrite ser_data_order : py_rw.

Lemma menuitem_serializer_class : In MenuItemSerializer serializer_classes.
Proof. simpl. tauto. Qed.

Lemma cart_serializer_class : In CartSerializer serializer_classes.
Proof. simpl. tauto. Qed.

Lemma order_serializer_class : In OrderSerializer serializer_classes.
Proof. simpl. tauto. Qed.

(** Validated cart data always trips the nested-write assertion. *)
Lemma cart_nested_write `{Validator} db d vd :
  validate CartSerializer false db d = Some vd ->
  exists e, nested_write_check "create" CartSerializer vd = PyRaise e.
Proof.
  intros Hv.
  destruct (validate_nested_present _ _ _ _ (DF "menuitem" (Nested "MenuItemSerializer") false None)
              cart_serializer_class Hv (or_introl eq_refl) eq_refl) as [kvs Hk].
  unfold nested_write_check. simpl in *. rewrite Hk. eexists. reflexivity.
Qed.

(** The nested-write assertion fires exactly when a declared nested
    field of the serializer holds a dict in the validated data. *)
Lemma nested_write_check_raise m sd vd f kvs :
  In f (sd_declared sd) -> is_nested f = true -> vd !! df_attr f = Some (VDict kvs) ->
  nested_write_check m sd vd = PyRaise (nested_write_error m).
Proof.
  intros Hin Hn Hv. unfold nested_write_check.
  replace (existsb _ _) with true; [done|]. symmetry. apply existsb_exists.
  exists f. by rewrite Hn, Hv.
Qed.

Lemma nested_write_check_ok m sd vd :
  (forall f, In f (sd_declared sd) -> is_nested f = true -> vd !! df_attr f = None) ->
  nested_write_check m sd vd = PyOk tt.
Proof.
  intros Hnone. unfold nested_write_check.
  replace (existsb _ _) with false; [done|]. symmetry. apply not_true_is_false.
  intros (f & Hin & Hf)%existsb_exists. apply andb_true_iff in Hf as [Hn Hv].
  by rewrite (Hnone f Hin Hn) in Hv.
Qed.

(** [ListSerializer.data] returns when the child binds and renders every
    row, with one entry per row. *)
Lemma ser_data_many_ok {A} sd (repr : Db -> Z -> A -> pyres Json) db rows :
  ser_bind sd = PyOk tt ->
  (forall r, In r rows -> exists j, repr db r.1 r.2 = PyOk j) ->
  exists js, ser_data_many sd repr db rows = PyOk (JList js) /\ length js = length rows.
Proof.
  intros Hb Hr. destruct (res_map_ok (fun r => repr db r.1 r.2) rows Hr) as (js & Hjs & Hlen).
  destruct rows as [|r rows'].
  - by exists [].
  - exists js. unfold ser_data_many. rewrite Hb, Hjs. auto.
Qed.

(** ** A validator for running the views on concrete requests *)

(** It accepts a body when every declared nested field it holds is a
    dict, every nested field is present unless the validation is
    partial, and every decimal it holds fits its field; it validates
    the body to itself. *)
Definition nested_ok (partial : bool) (d : Dict) (f : DeclaredField) : bool :=
  negb (is_nested f) ||
  match d !! df_attr f with Some (VDict _) => true | None => partial | Some _ => false end.

Definition decimal_ok (d : Dict) (fm : string * Z) : bool :=
  match d !! fm.1 with Some (VInt x) => decimal_fits fm.2 x | _ => true end.

Definition presence_validate (sd : SerializerDecl) (partial : bool) (db : Db) (d : Dict) : option Dict :=
  if forallb (nested_ok partial d) (sd_declared sd) && forallb (decimal_ok d) (model_decimals (sd_model sd))
  then Some d else None.

#[export] Program Instance presence_validator : Validator := {|
  validate := presence_validate
|}.
Next Obligation.
  intros sd db d vd f _ Hv Hin Hn. unfold presence_validate in Hv.
  destruct (_ && _) eqn:Hall; [|discriminate]. injection Hv as <-.
  apply andb_true_iff in Hall as [Hall _]. rewrite forallb_forall in Hall.
  specialize (Hall f Hin). unfold nested_ok in Hall. rewrite Hn in Hall. simpl in Hall.
  destruct (d !! df_attr f) as [[]|]; try discriminate. eauto.
Qed.
Next Obligation.
  intros sd p db d vd f v _ Hv Hin Hn Hf. unfold presence_validate in Hv.
  destruct (_ && _) eqn:Hall; [|discriminate]. injection Hv as <-.
  apply andb_true_iff in Hall as [Hall _]. rewrite forallb_forall in Hall.
  specialize (Hall f Hin). unfold nested_ok in Hall. rewrite Hn, Hf in Hall. simpl in Hall.
  destruct v; try discriminate. eauto.
Qed.
Next Obligation.
  intros sd p db d vd f md x _ Hv Hin Hf. unfold presence_validate in Hv.
  destruct (_ && _) eqn:Hall; [|discriminate]. injection Hv as <-.
  apply andb_true_iff in Hall as [_ Hall]. rewrite forallb_forall in Hall.
  specialize (Hall _ Hin). unfold decimal_ok in Hall. simpl in Hall. by rewrite Hf in Hall.
Qed.
