(* ===== verification/Validation.v ===== *)
(** * Validation: DRF's [is_valid] for the serializers of [serializers.py]

    Every serializer of the module is a [ModelSerializer] with
    [fields = '__all__'], so the fields it validates are those
    [ModelSerializer.get_fields] builds from the model of [models.py]
    ([model_fields]): a [CharField] or [SlugField] becomes a DRF
    [CharField] with [max_length], a [DecimalField] a DRF [DecimalField]
    with the same [max_digits] and [decimal_places], a [BooleanField] a
    [BooleanField], a [SmallIntegerField] an [IntegerField] bounded by the
    database's range, a [ForeignKey] a [PrimaryKeyRelatedField] over the
    target table; the declared nested serializers replace the model
    field of their name, and [StringRelatedField] and the primary key
    are read-only.  [to_internal] is [Serializer.to_internal_value] with
    [Field.run_validation] for each writable field; nested serializers
    are looked up by name and validated recursively, with fuel, and
    [is_valid_terminates] shows that fuel 3 is enough for every class of
    the module and that more fuel changes nothing.  [drf_validator]
    implements the [Validator] interface of Serializers.v.

    Two values depend on the deployment, not on the sources, and are
    parameters: the range [connection.ops.integer_field_range] gives a
    [SmallIntegerField] ((-32768, 32767) on PostgreSQL and MySQL, 64 bits
    on SQLite), and the reading of a date string (Django's [parse_date],
    which calls Python's [date.fromisoformat]).

    The theorem: the decimal bound DRF enforces on a cart line's prices
    (the decimal a body gives is below 1). *)

From Stdlib Require Import ZArith String List Ascii.
From stdpp Require Import base list strings gmap fin_maps.
From S2P Require Import Prelude PyStr Models Fixtures Serializers.
Open Scope py_scope.

(** ** The model fields of [models.py] *)

Inductive ModelField :=
| MChar (max_length : Z)                    (** CharField(max_length=...) *)
| MSlug (max_length : Z)                    (** SlugField(): max_length=50 *)
| MDecimal (max_digits decimal_places : Z)  (** DecimalField(...) *)
| MBool (has_default : bool)                (** BooleanField(default=...) *)
| MSmallInt                                 (** SmallIntegerField() *)
| MDate                                     (** DateField() *)
| MFk (target : Table) (null : bool).       (** ForeignKey(target, null=...) *)

(** The concrete fields of each model, in declaration order (the
    [User] model of [django.contrib.auth] is not validated by any
    serializer of the module). *)
Definition model_fields (t : Table) : list (string * ModelField) :=
  match t with
  | TCategory => [("slugfield", MSlug 50); ("title", MChar 255)]
  | TMenuItem => [("title", MChar 255); ("price", MDecimal 6 2);
                  ("featured", MBool false); ("category", MFk TCategory false)]
  | TCart => [("user", MFk TUser false); ("menuitem", MFk TMenuItem false);
              ("quantity", MSmallInt); ("unit_price", MDecimal 6 6); ("price", MDecimal 6 6)]
  | TOrder => [("user", MFk TUser false); ("delivery_crew", MFk TUser true);
               ("status", MBool true); ("total", MDecimal 6 6); ("date", MDate)]
  | TOrderItem => [("order", MFk TUser false); ("menuitem", MFk TMenuItem false);
                   ("quantity", MDecimal 6 0); ("unit_price", MDecimal 6 6);
                   ("price", MDecimal 6 6)]
  | TUser => []
  end%Z.

(** ** DRF's writable fields *)

Inductive DrfField :=
| DChar (max_length : Z) (slug : bool)
| DDecimal (max_digits decimal_places : Z)
| DBool
| DInt (min_value max_value : Z)
| DDate
| DPk (queryset : Table)
| DNested (serializer : string) (many : bool).

(** A writable field: the key it reads ([field_name]), the attribute it
    writes ([source]), its kind, [required] and [allow_null]. *)
Record Writable := WF {
  w_name : string;
  w_source : string;
  w_field : DrfField;
  w_required : bool;
  w_allow_null : bool
}.

Section Fields.

(** [connection.ops.integer_field_range('SmallIntegerField')]. *)
Variable small_int_range : Z * Z.

(** [parse_date] of a string, as a day number. *)
Variable parse_date : string -> option Z.

(** [ModelSerializer.build_field]: a model field with a default, [blank]
    or [null] is not required; [null=True] allows [None]. *)
Definition build_field (name : string) (mf : ModelField) : Writable :=
  match mf with
  | MChar ml => WF name name (DChar ml false) true false
  | MSlug ml => WF name name (DChar ml true) true false
  | MDecimal md dp => WF name name (DDecimal md dp) true false
  | MBool has_default => WF name name DBool (negb has_default) false
  | MSmallInt => WF name name (DInt small_int_range.1 small_int_range.2) true false
  | MDate => WF name name DDate true false
  | MFk t null => WF name name (DPk t) (negb null) null
  end.

(** A declared field: a nested serializer is required and not nullable
    (the defaults of [Serializer()]); [StringRelatedField] is read-only. *)
Definition declared_writable (f : DeclaredField) : option Writable :=
  match df_kind f with
  | Nested s => Some (WF (df_name f) (df_attr f) (DNested s (df_many f)) true false)
  | StringRelated => None
  end.

Definition is_fk (mf : ModelField) : bool :=
  match mf with MFk _ _ => true | _ => false end.

(** [ModelSerializer.get_fields] with [fields = '__all__']: the declared
    fields, then the model's plain fields, then its forward relations,
    a declared name hiding the model field of that name. *)
Definition writable_fields (sd : SerializerDecl) : list Writable :=
  let declared := map df_name (sd_declared sd) in
  let undeclared := filter (fun p => negb (bool_decide (p.1 ∈ declared)))
                           (model_fields (sd_model sd)) in
  omap declared_writable (sd_declared sd) ++
  map (fun p => build_field p.1 p.2)
      (filter (fun p => negb (is_fk p.2)) undeclared ++ filter (fun p => is_fk p.2) undeclared).

(** *** Field.to_internal_value *)

(** [str(data)] where a field accepts it as text: a string or an int
    ([str] of a bool, a date or a dict is neither a number nor accepted
    as text by [CharField]). *)
Definition py_text (v : PyVal) : option string :=
  match v with VStr s => Some s | VInt z => Some (py_str_of_int z) | _ => None end.

(** [CharField.run_validation]: a blank value fails ([allow_blank] is
    false for every model field here); bools and composite values fail;
    the value is [str(data).strip()]; then [MaxLengthValidator],
    [ProhibitNullCharactersValidator] and, for a slug, [validate_slug]
    ([^[-a-zA-Z0-9_]+\Z]). *)
Definition is_slug_char (c : ascii) : bool :=
  let n := nat_of_ascii c in
  (is_digit c || ((65 <=? n) && (n <=? 90)) || ((97 <=? n) && (n <=? 122)) ||
   (n =? 45) || (n =? 95))%nat.

Fixpoint string_forall (p : ascii -> bool) (s : string) : bool :=
  match s with EmptyString => true | String c s' => p c && string_forall p s' end.

Definition char_to_internal (max_length : Z) (slug : bool) (v : PyVal) : option PyVal :=
  match py_text v with
  | None => None
  | Some s =>
    let t := strip s in
    if String.eqb t "" then None
    else if (max_length <? Z.of_nat (String.length t))%Z then None
    else if negb (string_forall (fun c => negb (nat_of_ascii c =? 0)%nat) t) then None
    else if slug && negb (string_forall is_slug_char t) then None
    else Some (VStr t)
  end.

(** [DecimalField.validate_precision] on [value.as_tuple()]. *)
Definition precision_ok (max_digits decimal_places : Z) (x : PyDecimal) : bool :=
  (let n := Z.of_nat (String.length (dec_digits x)) in
  let e := dec_exp x in
  let '(total, whole, places) :=
    if (0 <=? e)%Z then (n + e, n + e, 0)
    else if (- e <? n)%Z then (n, n + e, - e)
    else (- e, 0, - e) in
  (total <=? max_digits) && (places <=? decimal_places) &&
  (whole <=? max_digits - decimal_places))%Z.

(** [DecimalField.quantize]: the value to [decimal_places] places, as an
    integer scaled by [10^decimal_places]. *)
Definition quantize (decimal_places : Z) (x : PyDecimal) : Z :=
  ((if dec_negative x then -1 else 1) * dec_coeff x * 10 ^ (dec_exp x + decimal_places))%Z.

(** [DecimalField.to_internal_value]: [smart_str(data).strip()], at most 1000
    characters, [decimal.Decimal] of it, finite, then the precision
    check and quantization. *)
Definition decimal_to_internal (max_digits decimal_places : Z) (v : PyVal) : option Z :=
  match py_text v with
  | None => None
  | Some s =>
    let t := strip s in
    if (1000 <? Z.of_nat (String.length t))%Z then None
    else match py_decimal_of_string t with
         | Some x => if precision_ok max_digits decimal_places x
                     then Some (quantize decimal_places x) else None
         | None => None
         end
  end.

(** [BooleanField.TRUE_VALUES] and [FALSE_VALUES]. *)
Definition true_strings : list string :=
  ["t"; "T"; "y"; "Y"; "yes"; "Yes"; "YES"; "true"; "True"; "TRUE"; "on"; "On"; "ON"; "1"].

Definition false_strings : list string :=
  ["f"; "F"; "n"; "N"; "no"; "No"; "NO"; "false"; "False"; "FALSE"; "off"; "Off"; "OFF"; "0"].

(** [BooleanField.to_internal_value]: membership in the two sets, where
    [1 == True] and [0 == False]; a dict is unhashable and fails. *)
Definition bool_to_internal (v : PyVal) : option bool :=
  match v with
  | VBool b => Some b
  | VInt z => if (z =? 1)%Z then Some true else if (z =? 0)%Z then Some false else None
  | VStr s => if bool_decide (s ∈ true_strings) then Some true
              else if bool_decide (s ∈ false_strings) then Some false else None
  | _ => None
  end.

Fixpoint drop_while (p : ascii -> bool) (s : string) : string :=
  match s with String c s' => if p c then drop_while p s' else s | EmptyString => EmptyString end.

(** [re.sub(r'\.0*\s*$', '', s)]: a final point followed by zeros and
    whitespace is removed (read from the end of the string). *)
Definition strip_re_decimal (s : string) : string :=
  match drop_while (fun c => (nat_of_ascii c =? 48)%nat) (drop_while is_py_space (String.rev s)) with
  | String "." r => String.rev r
  | _ => s
  end%char.

(** [IntegerField.to_internal_value]: [int(re_decimal.sub('', str(data)))],
    at most 1000 characters for a string; then [MinValueValidator] and
    [MaxValueValidator]. *)
Definition int_to_internal (lo hi : Z) (v : PyVal) : option Z :=
  let z := match v with
           | VStr s => if (1000 <? Z.of_nat (String.length s))%Z then None
                       else py_int_of_string (strip_re_decimal s)
           | VInt z => Some z
           | _ => None
           end in
  match z with
  | Some z => if (lo <=? z)%Z && (z <=? hi)%Z then Some z else None
  | None => None
  end.

(** [DateField.to_internal_value]: a date is kept, a string parsed. *)
Definition date_to_internal (v : PyVal) : option Z :=
  match v with VDate d => Some d | VStr s => parse_date s | _ => None end.

(** Whether [queryset.get(pk=z)] finds a row. *)
Definition table_has (db : Db) (t : Table) (z : Z) : bool :=
  match t with
  | TUser => bool_decide (is_Some (auth_user db !! z))
  | TCategory => bool_decide (is_Some (categories db !! z))
  | TMenuItem => bool_decide (is_Some (menuitems db !! z))
  | TCart => bool_decide (is_Some (carts db !! z))
  | TOrder => bool_decide (is_Some (orders db !! z))
  | TOrderItem => bool_decide (is_Some (orderitems db !! z))
  end.

(** [PrimaryKeyRelatedField.to_internal_value]: a bool is an incorrect
    type; otherwise [queryset.get(pk=data)], whose DoesNotExist,
    TypeError and ValueError are validation errors.  The validated value
    stands for the row by its key. *)
Definition pk_to_internal (db : Db) (t : Table) (v : PyVal) : option Z :=
  match v with
  | VBool _ => None
  | _ => match pk_prep_value v with
         | PyOk (Some z) => if table_has db t z then Some z else None
         | _ => None
         end
  end.

(** A field that is not a nested serializer. *)
Definition scalar_to_internal (db : Db) (f : DrfField) (v : PyVal) : option PyVal :=
  match f with
  | DChar ml slug => char_to_internal ml slug v
  | DDecimal md dp => VInt <$> decimal_to_internal md dp v
  | DBool => VBool <$> bool_to_internal v
  | DInt lo hi => VInt <$> int_to_internal lo hi v
  | DDate => VDate <$> date_to_internal v
  | DPk t => VInt <$> pk_to_internal db t v
  | DNested _ _ => None
  end.

(** ** Serializer.to_internal_value *)

(** What [Field.run_validation] of one field gives: [SkipField], a
    validated value, a validation error, or (in the model only) fuel
    exhausted in a nested serializer. *)
Inductive FieldOutcome := FSkip | FValue (v : PyVal) | FError | FNoFuel.

Inductive Outcome := Valid (kvs : list (string * PyVal)) | Invalid | NoFuel.

(** The class a nested field instantiates, by name. *)
Definition serializer_named (n : string) : option SerializerDecl :=
  find (fun sd => String.eqb (sd_name sd) n) serializer_classes.

(** A JSON object as a dict: a later key overrides an earlier one. *)
Definition dict_of_kvs (kvs : list (string * PyVal)) : Dict :=
  foldl (fun m kv => <[kv.1 := kv.2]> m) ∅ kvs.

(** [Field.run_validation] of the writable field [w] on the data [d]
    ([field.get_value(data)] is [data.get(field_name, empty)]), with
    [rec] validating a nested serializer: [validate_empty_values] skips
    a missing field in a partial update or when it is not required,
    fails when it is required, and lets [None] through only when the
    field allows null; a nested serializer takes a dict
    ([to_internal_value] rejects any other value), a [many=True] one a
    list, which a request body of this model never holds. *)
Definition run_field (rec : SerializerDecl -> Dict -> Outcome) (db : Db) (partial : bool)
    (d : Dict) (w : Writable) : FieldOutcome :=
  match d !! w_name w with
  | None => if partial then FSkip else if w_required w then FError else FSkip
  | Some VNone => if w_allow_null w then FValue VNone else FError
  | Some v =>
    match w_field w with
    | DNested n many =>
      match many, v, serializer_named n with
      | false, VDict kvs, Some sd' =>
        match rec sd' (dict_of_kvs kvs) with
        | Valid l => FValue (VDict l)
        | Invalid => FError
        | NoFuel => FNoFuel
        end
      | _, _, _ => FError
      end
    | f => match scalar_to_internal db f v with Some x => FValue x | None => FError end
    end
  end.

(** The errors of all fields are gathered into [serializer.errors], so
    one error makes the data invalid; otherwise each validated value is
    set at the field's source, in field order. *)
Fixpoint collect (l : list (string * FieldOutcome)) : Outcome :=
  match l with
  | [] => Valid []
  | (a, o) :: l' =>
    match o, collect l' with
    | FNoFuel, _ | _, NoFuel => NoFuel
    | FError, _ | _, Invalid => Invalid
    | FSkip, Valid kvs => Valid kvs
    | FValue v, Valid kvs => Valid ((a, v) :: kvs)
    end
  end.

(** [Serializer.to_internal_value] over the writable fields, with
    [fuel] bounding the depth of nested serializers.  A nested
    serializer validates with the root's [partial] flag.  The
    serializer-level validators add nothing: [validate()] is not
    overridden, and the [UniqueTogetherValidator]s of [Cart] and
    [OrderItem] filter on a nested dict, a TypeError that [qs_filter]
    turns into an empty queryset, so they always pass. *)
Fixpoint to_internal (fuel : nat) (sd : SerializerDecl) (partial : bool) (db : Db) (d : Dict)
    : Outcome :=
  match fuel with
  | O => NoFuel
  | S fuel' =>
    collect (map (fun w => (w_source w,
                            run_field (fun sd' d' => to_internal fuel' sd' partial db d')
                                      db partial d w))
                 (writable_fields sd))
  end.

(** The outcomes of the writable fields, nested serializers validated
    with [fuel]. *)
Definition field_results (fuel : nat) (sd : SerializerDecl) (partial : bool) (db : Db) (d : Dict)
    : list (string * FieldOutcome) :=
  map (fun w => (w_source w,
                 run_field (fun sd' d' => to_internal fuel sd' partial db d') db partial d w))
      (writable_fields sd).

(** A chain of nested serializers visits each class at most once. *)
Definition validation_fuel : nat := length serializer_classes.

(** [serializer.is_valid()], with [serializer.validated_data]. *)
Definition drf_is_valid (sd : SerializerDecl) (partial : bool) (db : Db) (d : Dict) : option Dict :=
  match to_internal validation_fuel sd partial db d with
  | Valid kvs => Some (dict_of_kvs kvs)
  | _ => None
  end.

(** ** Lemmas *)

(** *** Collecting field outcomes *)

Lemma collect_no_fuel l : Forall (fun p => p.2 <> FNoFuel) l -> collect l <> NoFuel.
Proof.
  induction 1 as [|[a o] l Ho Hl IH]; [done|]. simpl in *.
  destruct o; destruct (collect l) eqn:E; congruence.
Qed.

(** In valid data, every field was skipped or gave a value that is kept. *)
Lemma collect_valid_in l kvs a o :
  collect l = Valid kvs -> In (a, o) l ->
  o = FSkip \/ exists v, o = FValue v /\ In (a, v) kvs.
Proof.
  revert kvs. induction l as [|[b o'] l IH]; intros kvs Hc Hin; [done|].
  simpl in Hc. destruct Hin as [[= <- <-]|Hin].
  - destruct o'; destruct (collect l); cbn in Hc; simplify_eq; eauto with datatypes.
  - destruct (collect l) as [kvs'| |] eqn:E; destruct o'; cbn in Hc; simplify_eq;
      destruct (IH _ eq_refl Hin) as [|(v' & -> & Hv)]; eauto with datatypes.
Qed.

(** Each kept value comes from a field of its source. *)
Lemma collect_valid_inv l kvs a v :
  collect l = Valid kvs -> In (a, v) kvs -> In (a, FValue v) l.
Proof.
  revert kvs. induction l as [|[b o] l IH]; intros kvs Hc Hin; simpl in Hc.
  - by simplify_eq.
  - destruct (collect l) as [kvs'| |] eqn:E; destruct o; cbn in Hc; simplify_eq;
      simpl in *; [eauto|]. destruct Hin as [[= <- <-]|]; eauto.
Qed.

Lemma collect_valid_keys l kvs :
  collect l = Valid kvs -> sublist (map fst kvs) (map fst l).
Proof.
  revert kvs. induction l as [|[b o] l IH]; intros kvs Hc; simpl in Hc.
  - simplify_eq. constructor.
  - destruct (collect l) as [kvs'| |] eqn:E; destruct o; cbn in Hc; simplify_eq; simpl;
      constructor; by apply IH.
Qed.

(** *** Dicts built from key-value lists *)

Lemma foldl_insert_lookup (m : Dict) kvs a v :
  foldl (fun m kv => <[kv.1 := kv.2]> m) m kvs !! a = Some v ->
  In (a, v) kvs \/ m !! a = Some v.
Proof.
  revert m. induction kvs as [|[b w] kvs IH]; intros m H; simpl in *; [by right|].
  destruct (IH _ H) as [|Hm]; [by left; right|].
  apply lookup_insert_Some in Hm as [[-> ->]|[_ Hm]]; auto.
Qed.

Lemma foldl_insert_notin (m : Dict) kvs a :
  a ∉ map fst kvs -> foldl (fun m kv => <[kv.1 := kv.2]> m) m kvs !! a = m !! a.
Proof.
  revert m. induction kvs as [|[b w] kvs IH]; intros m Ha; simpl in *; [done|].
  rewrite IH by set_solver. apply lookup_insert_ne. set_solver.
Qed.

Lemma dict_of_kvs_in kvs a v : dict_of_kvs kvs !! a = Some v -> In (a, v) kvs.
Proof. intros H. by destruct (foldl_insert_lookup _ _ _ _ H). Qed.

Lemma dict_of_kvs_nodup kvs a v :
  NoDup (map fst kvs) -> In (a, v) kvs -> dict_of_kvs kvs !! a = Some v.
Proof.
  unfold dict_of_kvs. generalize (∅ : Dict). induction kvs as [|[b w] kvs IH]; intros m Hnd Hin; [done|].
  simpl in *. apply NoDup_cons in Hnd as [Hb Hnd].
  destruct Hin as [[= -> ->]|Hin]; [|by apply IH].
  rewrite foldl_insert_notin by done. apply lookup_insert_eq.
Qed.

Lemma NoDup_map_eq {A B} (f : A -> B) l x y :
  NoDup (map f l) -> In x l -> In y l -> f x = f y -> x = y.
Proof.
  induction l as [|z l IH]; intros Hnd Hx Hy Hf; [done|].
  simpl in Hnd. apply NoDup_cons in Hnd as [Hz Hnd].
  destruct Hx as [<-|Hx], Hy as [<-|Hy]; auto;
    exfalso; apply Hz; [rewrite Hf|rewrite <- Hf]; apply list_elem_of_In, in_map; done.
Qed.

(** *** One field *)

Lemma run_field_ext rec1 rec2 db p d w :
  (forall n sd', w_field w = DNested n false -> serializer_named n = Some sd' ->
     forall d', rec1 sd' d' = rec2 sd' d') ->
  run_field rec1 db p d w = run_field rec2 db p d w.
Proof.
  intros Hrec. unfold run_field.
  destruct (d !! w_name w) as [v|]; [|done].
  destruct v; try done; destruct (w_field w) as [| | | | | |n []] eqn:Hw; try done;
    destruct (serializer_named n) as [sd'|] eqn:Hn; try done; by rewrite (Hrec n sd' eq_refl Hn).
Qed.

Lemma run_field_no_fuel rec db p d w :
  (forall n sd', w_field w = DNested n false -> serializer_named n = Some sd' ->
     forall d', rec sd' d' <> NoFuel) ->
  run_field rec db p d w <> FNoFuel.
Proof.
  intros Hrec. unfold run_field.
  destruct (d !! w_name w) as [v|]; [|by repeat case_match].
  destruct v; [by case_match| ..]; destruct (w_field w) as [| | | | | |n []] eqn:Hw;
    try (case_match; done); destruct (serializer_named n) as [sd'|] eqn:Hn; try done;
    specialize (Hrec n sd' eq_refl Hn);
    destruct (rec sd' _) eqn:E; [done|done|by apply Hrec in E].
Qed.

(** A required field is never skipped outside a partial update. *)
Lemma run_field_required rec db d w :
  w_required w = true -> run_field rec db false d w <> FSkip.
Proof.
  intros Hr. unfold run_field. rewrite Hr.
  destruct (d !! w_name w) as [v|]; [|done]. by repeat case_match.
Qed.

(** A nested serializer that does not allow [None] validates to a dict. *)
Lemma run_field_nested rec db p d w n many v :
  w_field w = DNested n many -> w_allow_null w = false ->
  run_field rec db p d w = FValue v -> exists l, v = VDict l.
Proof.
  intros Hw Hn. unfold run_field. rewrite Hn.
  destruct (d !! w_name w) as [v'|]; [|by repeat case_match].
  destruct v'; [done| ..]; rewrite Hw; repeat case_match; intros; simplify_eq; eauto.
Qed.

(** [DecimalField.to_internal_value] stays within [max_digits]: the
    precision check keeps [digits + exponent + decimal_places] at most
    [max_digits], so quantizing never overflows the field. *)
Lemma decimal_to_internal_bound md dp v x :
  (0 <= dp <= md)%Z -> decimal_to_internal md dp v = Some x -> (Z.abs x < 10 ^ md)%Z.
Proof.
  intros Hdp. unfold decimal_to_internal.
  destruct (py_text v) as [s|]; [|done]. destruct (1000 <? _)%Z; [done|].
  destruct (py_decimal_of_string (strip s)) as [y|] eqn:Hy; [|done].
  destruct (precision_ok md dp y) eqn:Hp; [|done]. intros [= <-].
  apply dec_coeff_bounds in Hy. unfold quantize.
  set (n := Z.of_nat (String.length (dec_digits y))) in *.
  assert (Hk : (0 <= dec_exp y + dp /\ n + (dec_exp y + dp) <= md)%Z).
  { unfold precision_ok in Hp. fold n in Hp.
    destruct (0 <=? dec_exp y)%Z eqn:He; [|destruct (- dec_exp y <? n)%Z eqn:Hl];
      apply andb_true_iff in Hp as [Hp H3]; apply andb_true_iff in Hp as [H1 H2];
      apply Z.leb_le in H1, H2, H3;
      rewrite ?Z.leb_le, ?Z.leb_gt, ?Z.ltb_lt, ?Z.ltb_ge in *; lia. }
  set (c := dec_coeff y) in *. set (k := (dec_exp y + dp)%Z) in *.
  assert (10 ^ (n + k) <= 10 ^ md)%Z by (apply Z.pow_le_mono_r; lia).
  rewrite Z.pow_add_r in H by lia.
  assert (0 < 10 ^ k)%Z by (apply Z.pow_pos_nonneg; lia).
  assert (c * 10 ^ k < 10 ^ n * 10 ^ k)%Z by nia.
  assert (0 <= c * 10 ^ k)%Z by nia.
  destruct (dec_negative y); lia.
Qed.

Lemma run_field_decimal rec db p d w md dp x :
  w_field w = DDecimal md dp -> (0 <= dp <= md)%Z ->
  run_field rec db p d w = FValue (VInt x) -> (Z.abs x < 10 ^ md)%Z.
Proof.
  intros Hw Hdp. unfold run_field.
  destruct (d !! w_name w) as [v|]; [|by repeat case_match].
  destruct v; [by case_match| ..]; rewrite Hw; cbn [scalar_to_internal];
    destruct (decimal_to_internal md dp _) eqn:E; simpl; intros; simplify_eq;
    eauto using decimal_to_internal_bound.
Qed.

Lemma to_internal_S n sd p db d :
  to_internal (S n) sd p db d = collect (field_results n sd p db d).
Proof. reflexivity. Qed.

Lemma field_results_in n sd p db d w :
  In w (writable_fields sd) ->
  In (w_source w, run_field (fun sd' d' => to_internal n sd' p db d') db p d w)
     (field_results n sd p db d).
Proof.
  intros Hw. unfold field_results.
  exact (in_map (fun w => (w_source w,
    run_field (fun sd' d' => to_internal n sd' p db d') db p d w)) _ _ Hw).
Qed.

Lemma field_results_inv n sd p db d a o :
  In (a, o) (field_results n sd p db d) ->
  exists w, In w (writable_fields sd) /\ w_source w = a /\
    o = run_field (fun sd' d' => to_internal n sd' p db d') db p d w.
Proof. unfold field_results. intros (w & [= <- <-] & Hw)%in_map_iff. eauto. Qed.

Lemma field_results_keys n sd p db d :
  map fst (field_results n sd p db d) = map w_source (writable_fields sd).
Proof. unfold field_results. by rewrite map_map. Qed.

(** *** Termination of nested validation *)

(** Validation of [sd] with fuel [m] does not run out of fuel, and more
    fuel gives the same outcome. *)
Definition fuel_stable (m : nat) (sd : SerializerDecl) : Prop :=
  forall n p db d, (m <= n)%nat ->
  to_internal n sd p db d = to_internal m sd p db d /\ to_internal m sd p db d <> NoFuel.

Lemma fuel_stable_step m sd :
  (forall w n sd', In w (writable_fields sd) -> w_field w = DNested n false ->
     serializer_named n = Some sd' -> fuel_stable m sd') ->
  fuel_stable (S m) sd.
Proof.
  intros Hn n p db d Hle. destruct n as [|n]; [lia|]. rewrite !to_internal_S. split.
  - f_equal. unfold field_results. apply map_ext_in. intros w Hw. f_equal. apply run_field_ext.
    intros k sd' Hk Hs d'. exact (proj1 (Hn w k sd' Hw Hk Hs n p db d' ltac:(lia))).
  - apply collect_no_fuel, Forall_forall. intros [a o] Hin%list_elem_of_In.
    destruct (field_results_inv _ _ _ _ _ _ _ Hin) as (w & Hw & _ & ->). apply run_field_no_fuel.
    intros k sd' Hk Hs d'. exact (proj2 (Hn w k sd' Hw Hk Hs m p db d' (le_n m))).
Qed.

Lemma fuel_stable_mono m m' sd : fuel_stable m sd -> (m <= m')%nat -> fuel_stable m' sd.
Proof.
  intros H Hle n p db d Hn.
  destruct (H n p db d) as [E1 Hnf]; [lia|]. destruct (H m' p db d Hle) as [E2 _].
  by rewrite E1, E2.
Qed.

Ltac writable_cases H :=
  vm_compute in H; repeat destruct H as [H|H]; try contradiction; subst; simplify_eq/=.

Lemma category_fuel_stable : fuel_stable 1 CategorySerializer.
Proof. apply fuel_stable_step. intros w n sd' Hw Hf Hs. writable_cases Hw. Qed.

Lemma order_fuel_stable : fuel_stable 1 OrderSerializer.
Proof. apply fuel_stable_step. intros w n sd' Hw Hf Hs. writable_cases Hw. Qed.

Lemma menuitem_fuel_stable : fuel_stable 2 MenuItemSerializer.
Proof.
  apply fuel_stable_step. intros w n sd' Hw Hf Hs. writable_cases Hw.
  vm_compute in Hs. injection Hs as <-. exact category_fuel_stable.
Qed.

Lemma cart_fuel_stable : fuel_stable 3 CartSerializer.
Proof.
  apply fuel_stable_step. intros w n sd' Hw Hf Hs. writable_cases Hw.
  vm_compute in Hs. injection Hs as <-. exact menuitem_fuel_stable.
Qed.

Lemma orderitem_fuel_stable : fuel_stable 3 OrderItemSerializer.
Proof.
  apply fuel_stable_step. intros w n sd' Hw Hf Hs. writable_cases Hw.
  vm_compute in Hs. injection Hs as <-. exact menuitem_fuel_stable.
Qed.

Lemma serializer_classes_fuel_stable sd : In sd serializer_classes -> fuel_stable 3 sd.
Proof.
  intros Hsd. simpl in Hsd. repeat destruct Hsd as [<-|Hsd]; try contradiction;
    eauto using fuel_stable_mono, category_fuel_stable, menuitem_fuel_stable,
      cart_fuel_stable, orderitem_fuel_stable, order_fuel_stable.
Qed.

(** *** The validated data *)

Lemma writable_sources_nodup sd :
  In sd serializer_classes -> NoDup (map w_source (writable_fields sd)).
Proof.
  intros Hsd. simpl in Hsd. repeat destruct Hsd as [<-|Hsd]; try contradiction;
    apply (bool_decide_unpack _); vm_compute; exact I.
Qed.

Lemma drf_is_valid_unfold sd p db d :
  drf_is_valid sd p db d =
  match collect (field_results 4 sd p db d) with
  | Valid kvs => Some (dict_of_kvs kvs)
  | _ => None
  end.
Proof. reflexivity. Qed.

(** Each validated key comes from the writable field of that source. *)
Lemma drf_is_valid_field sd p db d vd a v :
  drf_is_valid sd p db d = Some vd -> vd !! a = Some v ->
  exists w, In w (writable_fields sd) /\ w_source w = a /\
    run_field (fun sd' d' => to_internal 4 sd' p db d') db p d w = FValue v.
Proof.
  rewrite drf_is_valid_unfold. destruct (collect _) as [kvs| |] eqn:Hc; [|done..].
  intros [= <-] Hv. apply dict_of_kvs_in, (collect_valid_inv _ _ _ _ Hc) in Hv.
  destruct (field_results_inv _ _ _ _ _ _ _ Hv) as (w & Hw & Hs & Hr). eauto.
Qed.

(** Every writable field of valid data was skipped or is in the data. *)
Lemma drf_is_valid_outcome sd p db d vd w :
  In sd serializer_classes -> drf_is_valid sd p db d = Some vd -> In w (writable_fields sd) ->
  run_field (fun sd' d' => to_internal 4 sd' p db d') db p d w = FSkip \/
  exists v, run_field (fun sd' d' => to_internal 4 sd' p db d') db p d w = FValue v /\
            vd !! w_source w = Some v.
Proof.
  intros Hsd. rewrite drf_is_valid_unfold. destruct (collect _) as [kvs| |] eqn:Hc; [|done..].
  intros [= <-] Hw.
  destruct (collect_valid_in _ _ _ _ Hc (field_results_in 4 sd p db d w Hw))
    as [|(v & Hv & Hin)]; [by left|right].
  exists v. split; [done|]. apply dict_of_kvs_nodup; [|done].
  eapply sublist_NoDup; [apply writable_sources_nodup, Hsd|].
  rewrite <- (field_results_keys 4 sd p db d). by apply collect_valid_keys.
Qed.

(** The two fields of one source are the same field. *)
Lemma writable_source_unique sd w w' :
  In sd serializer_classes -> In w (writable_fields sd) -> In w' (writable_fields sd) ->
  w_source w = w_source w' -> w = w'.
Proof. intros Hsd. apply NoDup_map_eq, writable_sources_nodup, Hsd. Qed.

(** A declared nested serializer is a writable field of its attribute. *)
Lemma declared_nested_writable sd f :
  In f (sd_declared sd) -> is_nested f = true ->
  exists n, In (WF (df_name f) (df_attr f) (DNested n (df_many f)) true false) (writable_fields sd).
Proof.
  intros Hf Hn. unfold is_nested in Hn. destruct (df_kind f) as [n|] eqn:Hk; [|done].
  exists n. unfold writable_fields. apply in_or_app. left.
  apply list_elem_of_In, list_elem_of_omap. exists f. split; [by apply list_elem_of_In|].
  unfold declared_writable. by rewrite Hk.
Qed.

(** Each decimal field of a model is the DRF [DecimalField] of its name,
    with [0 <= decimal_places <= max_digits]. *)
Lemma model_decimal_writable sd f md :
  In sd serializer_classes -> In (f, md) (model_decimals (sd_model sd)) ->
  exists dp, In (WF f f (DDecimal md dp) true false) (writable_fields sd) /\ (0 <= dp <= md)%Z.
Proof.
  intros Hsd. simpl in Hsd. repeat destruct Hsd as [<-|Hsd]; try contradiction;
    intros Hin; vm_compute in Hin; repeat destruct Hin as [Hin|Hin]; try contradiction;
    simplify_eq; eexists; (split; [vm_compute; tauto|lia]).
Qed.

(** A validated decimal of a [DecimalField(max_digits=md)] is below
    [10^md] in absolute value (as an integer scaled by its places). *)
Lemma validated_decimal sd p db d vd f md dp x :
  In sd serializer_classes -> In (WF f f (DDecimal md dp) true false) (writable_fields sd) ->
  (0 <= dp <= md)%Z -> drf_is_valid sd p db d = Some vd -> vd !! f = Some (VInt x) ->
  (Z.abs x < 10 ^ md)%Z.
Proof.
  intros Hsd Hw Hdp Hv Hx.
  destruct (drf_is_valid_field _ _ _ _ _ _ _ Hv Hx) as (w & Hw' & Hs & Hr).
  rewrite <- (writable_source_unique sd _ _ Hsd Hw Hw' (eq_sym Hs)) in Hr.
  exact (run_field_decimal _ _ _ _ (WF f f (DDecimal md dp) true false) md dp x eq_refl Hdp Hr).
Qed.

(** One refused field makes the whole body invalid. *)
Lemma drf_field_error_invalid sd p db d w :
  In w (writable_fields sd) ->
  run_field (fun sd' d' => to_internal 4 sd' p db d') db p d w = FError ->
  drf_is_valid sd p db d = None.
Proof.
  intros Hw He. rewrite drf_is_valid_unfold. destruct (collect _) as [kvs| |] eqn:Hc; [|done..].
  destruct (collect_valid_in _ _ _ _ Hc (field_results_in 4 sd p db d w Hw)) as [|(v & Hv & _)];
    congruence.
Qed.

(** A decimal the field refuses, or [None], is an error of the field. *)
Lemma run_field_decimal_error rec db p d w md dp v :
  w_field w = DDecimal md dp -> w_allow_null w = false -> d !! w_name w = Some v ->
  decimal_to_internal md dp v = None -> run_field rec db p d w = FError.
Proof.
  intros Hw Hn Hd Hv. unfold run_field. rewrite Hd.
  destruct v; [by rewrite Hn| ..]; rewrite Hw; cbn [scalar_to_internal]; by rewrite Hv.
Qed.

(** A decimal that passes [validate_precision] has at most
    [max_digits - decimal_places] digits before the point: its
    coefficient is below [10 ^ (max_digits - decimal_places - exponent)]. *)
Lemma precision_ok_coeff t y md dp :
  py_decimal_of_string t = Some y -> (0 <= dp <= md)%Z -> precision_ok md dp y = true ->
  (dec_coeff y < 10 ^ (md - dp - dec_exp y))%Z.
Proof.
  intros Hy Hdp Hp. pose proof (dec_coeff_bounds _ _ Hy) as Hc.
  pose proof (proj2 (py_decimal_digits _ _ Hy)) as Hn.
  set (n := Z.of_nat (String.length (dec_digits y))) in *.
  assert (n <= md - dp - dec_exp y)%Z.
  { unfold precision_ok in Hp. fold n in Hp.
    destruct (0 <=? dec_exp y)%Z eqn:He; [|destruct (- dec_exp y <? n)%Z eqn:Hl];
      apply andb_true_iff in Hp as [Hp H3]; apply andb_true_iff in Hp as [H1 H2];
      apply Z.leb_le in H1, H2, H3;
      rewrite ?Z.leb_le, ?Z.leb_gt, ?Z.ltb_lt, ?Z.ltb_ge in *; lia. }
  assert (10 ^ n <= 10 ^ (md - dp - dec_exp y))%Z by (apply Z.pow_le_mono_r; lia). lia.
Qed.

(** What [DecimalField] accepts from a string passed the precision check. *)
Lemma decimal_to_internal_str md dp s x y :
  decimal_to_internal md dp (VStr s) = Some x -> py_decimal_of_string (strip s) = Some y ->
  precision_ok md dp y = true.
Proof.
  unfold decimal_to_internal. cbn [py_text]. destruct (1000 <? _)%Z; [done|].
  intros Hx Hy. rewrite Hy in Hx. by destruct (precision_ok md dp y).
Qed.

(** A decimal field holding a value that is not [None] and not refused
    was accepted by [DecimalField.to_internal_value]. *)
Lemma run_field_decimal_accepted rec db p d w md dp v :
  w_field w = DDecimal md dp -> d !! w_name w = Some v -> v <> VNone ->
  run_field rec db p d w <> FError -> exists x, decimal_to_internal md dp v = Some x.
Proof.
  intros Hw Hd Hv He. unfold run_field in He. rewrite Hd in He.
  destruct v; [done| ..]; rewrite Hw in He; cbn [scalar_to_internal] in He;
    destruct (decimal_to_internal md dp _); simpl in He; eauto; done.
Qed.

(** *** The laws of [Validator] *)

Lemma drf_nested_present sd db d vd f :
  In sd serializer_classes -> drf_is_valid sd false db d = Some vd ->
  In f (sd_declared sd) -> is_nested f = true ->
  exists kvs, vd !! df_attr f = Some (VDict kvs).
Proof.
  intros Hsd Hv Hf Hn. destruct (declared_nested_writable sd f Hf Hn) as [n Hw].
  destruct (drf_is_valid_outcome _ _ _ _ _ _ Hsd Hv Hw) as [Hs|(v & Hr & Hl)].
  - by apply run_field_required in Hs.
  - destruct (run_field_nested _ _ _ _ (WF (df_name f) (df_attr f) (DNested n (df_many f)) true false)
      n (df_many f) v eq_refl eq_refl Hr) as [l ->]. eauto.
Qed.

Lemma drf_nested_dict sd p db d vd f v :
  In sd serializer_classes -> drf_is_valid sd p db d = Some vd ->
  In f (sd_declared sd) -> is_nested f = true -> vd !! df_attr f = Some v ->
  exists kvs, v = VDict kvs.
Proof.
  intros Hsd Hv Hf Hn Hl. destruct (declared_nested_writable sd f Hf Hn) as [n Hw].
  destruct (drf_is_valid_field _ _ _ _ _ _ _ Hv Hl) as (w & Hw' & Hs & Hr).
  rewrite <- (writable_source_unique sd _ _ Hsd Hw Hw' (eq_sym Hs)) in Hr.
  exact (run_field_nested _ _ _ _ (WF (df_name f) (df_attr f) (DNested n (df_many f)) true false)
           n (df_many f) v eq_refl eq_refl Hr).
Qed.

Lemma drf_decimal_fits sd p db d vd f md x :
  In sd serializer_classes -> drf_is_valid sd p db d = Some vd ->
  In (f, md) (model_decimals (sd_model sd)) -> vd !! f = Some (VInt x) ->
  decimal_fits md x = true.
Proof.
  intros Hsd Hv Hin Hx. destruct (model_decimal_writable sd f md Hsd Hin) as (dp & Hw & Hdp).
  apply Z.ltb_lt. exact (validated_decimal _ _ _ _ _ _ _ _ _ Hsd Hw Hdp Hv Hx).
Qed.

End Fields.

(** DRF's validation, for a deployment's [SmallIntegerField] range and
    date parsing. *)
Definition drf_validator (small_int_range : Z * Z) (parse_date : string -> option Z) : Validator := {|
  validate := drf_is_valid small_int_range parse_date;
  validate_nested_present := drf_nested_present small_int_range parse_date;
  validate_nested_dict := drf_nested_dict small_int_range parse_date;
  validate_decimal_fits := drf_decimal_fits small_int_range parse_date
|}.

(** The cart's [quantity] is an [IntegerField] bounded only by the
    database's range: with PostgreSQL's range, a body asking for -3 of
    an item validates. *)
Lemma cart_negative_quantity_valid :
  drf_is_valid (-32768, 32767)%Z (fun _ => None) CartSerializer false demo_db
    (<["quantity" := VInt (-3)]> (demo_cart_body "0.95")) ≫= (fun vd => vd !! "quantity") =
  Some (VInt (-3)).
Proof. vm_compute. reflexivity. Qed.

(** ** Theorems *)

(** Nested validation terminates.  For every serializer class of
    serializers.py, [Serializer.to_internal_value] with nested
    serializers validated to depth 3 never runs out of fuel, and any
    larger depth (such as [validation_fuel], the number of classes) gives
    the same outcome, whatever the request body, database and [partial]
    flag. *)
Theorem is_valid_terminates r pd sd p db d n :
  In sd serializer_classes -> (3 <= n)%nat ->
  to_internal r pd n sd p db d = to_internal r pd 3 sd p db d /\
  to_internal r pd 3 sd p db d <> NoFuel.
Proof. intros Hsd Hn. exact (serializer_classes_fuel_stable r pd sd Hsd n p db d Hn). Qed.



(** C20: DRF bounds the prices of a cart line.  [unit_price] and
    [price] are [DecimalField(max_digits=6, decimal_places=6)]: when
    [CartSerializer] validates a body, the decimal the body gives for
    either of them (its coefficient times [10 ^ exponent]) is below 1,
    so a menu price such as 9.50 cannot be captured. *)
Theorem cart_prices_below_one r pd p db d vd f s y :
  drf_is_valid r pd CartSerializer p db d = Some vd -> f = "unit_price" \/ f = "price" ->
  d !! f = Some (VStr s) -> py_decimal_of_string (strip s) = Some y ->
  (dec_coeff y < 10 ^ (- dec_exp y))%Z.
Proof.
  intros Hv Hf Hd Hy.
  set (w := WF f f (DDecimal 6 6) true false).
  assert (Hw : In w (writable_fields r CartSerializer))
    by (destruct Hf as [-> | ->]; vm_compute; tauto).
  destruct (run_field_decimal_accepted pd (fun sd' d' => to_internal r pd 4 sd' p db d') db p d w 6 6
              (VStr s) eq_refl Hd ltac:(done)) as [x Hx].
  { intros He. by rewrite (drf_field_error_invalid r pd _ _ _ _ w Hw He) in Hv. }
  pose proof (precision_ok_coeff _ _ 6 6 Hy ltac:(lia) (decimal_to_internal_str _ _ _ _ _ Hx Hy)).
  by replace (- dec_exp y)%Z with (6 - 6 - dec_exp y)%Z by lia.
Qed.

Lemma cart_prices_below_one_witness : (95 < 10 ^ 2)%Z.
Proof.
  apply (cart_prices_below_one (-32768, 32767)%Z (fun _ => None) false demo_db (demo_cart_body "0.95")
           (default ∅ (drf_is_valid (-32768, 32767)%Z (fun _ => None) CartSerializer false demo_db
                         (demo_cart_body "0.95"))) "unit_price" "0.95" (PyDec false "95" (-2)));
    [vm_compute; reflexivity | by left | reflexivity | vm_compute; reflexivity].
Defined.
