(* ===== verification/Permissions.v ===== *)
(** * Permissions: the access-control gate of [views.py]

    [IsManager] and [IsDeliveryCrew] (views.py lines 11-17) and DRF's
    [IsAuthenticated] are the permission classes of the views; [api_view]
    with [permission_classes] runs [APIView.check_permissions] before the
    view body.  A denial answers 403 and leaves the database untouched;
    with DRF's default authentication classes (session first) an
    anonymous caller is also answered 403 ([NotAuthenticated] without a
    [WWW-Authenticate] header). *)

From Stdlib Require Import ZArith String List.
From stdpp Require Import base list strings gmap fin_maps.
From S2P Require Import Prelude Models Fixtures.
Open Scope py_scope.

Inductive Permission := IsAuthenticated | IsManager | IsDeliveryCrew.

(** [has_permission] of each class. *)
Definition has_permission (p : Permission) (db : Db) (req : Request) : bool :=
  match p with
  | IsAuthenticated => match req_user req with Authenticated _ => true | Anonymous => false end
  | IsManager => in_group db (req_user req) "manager"
  | IsDeliveryCrew => in_group db (req_user req) "delivery-crew"
  end.

(** A view body: the request, then the database in and out. *)
Abbreviation Handler := (Request -> Py Db Response).

(** [APIView.permission_denied] *)
Definition permission_denied (req : Request) : Response :=
  match req_user req with
  | Anonymous => Resp 403 (BDetail "Authentication credentials were not provided.")
  | Authenticated _ => Resp 403 (BDetail "You do not have permission to perform this action.")
  end.

(** [APIView.check_permissions]: the first class that refuses denies. *)
Fixpoint check_permissions (perms : list Permission) (db : Db) (req : Request) : option Response :=
  match perms with
  | [] => None
  | p :: ps => if has_permission p db req then check_permissions ps db req
               else Some (permission_denied req)
  end.

(** [@api_view(...)] with [@permission_classes(perms)] around a view. *)
Definition api_view (perms : list Permission) (h : Handler) : Handler :=
  fun req => db <- py_get ;;
    match check_permissions perms db req with
    | Some denial => py_ret denial
    | None => h req
    end.

(** ** Lemmas *)

Lemma check_permissions_none perms db req :
  check_permissions perms db req = None <-> Forall (fun p => has_permission p db req = true) perms.
Proof.
  induction perms as [|p ps IH]; simpl; [split; auto|].
  destruct (has_permission p db req) eqn:E; rewrite Forall_cons, <- IH; intuition congruence.
Qed.

Lemma check_permissions_some perms db req r :
  check_permissions perms db req = Some r -> r = permission_denied req.
Proof.
  induction perms as [|p ps IH]; simpl; [discriminate|].
  destruct (has_permission p db req); [exact IH | congruence].
Qed.

Lemma permission_denied_403 req : status_code (permission_denied req) = 403%Z.
Proof. by destruct req as [[] ?]. Qed.

Lemma api_view_pass perms h req db :
  check_permissions perms db req = None -> api_view perms h req db = h req db.
Proof. intros H. unfold api_view. py_run. by rewrite H. Qed.

Lemma api_view_deny perms h req db r :
  check_permissions perms db req = Some r -> api_view perms h req db = (db, PyOk r).
Proof. intros H. unfold api_view. py_run. by rewrite H. Qed.

#[export] Hint Resolve api_view_pass api_view_deny : ll.

(** A view behind one permission class runs its body exactly when the
    class grants the request. *)
Lemma api_view_single p h req db :
  api_view [p] h req db =
  if has_permission p db req then h req db else (db, PyOk (permission_denied req)).
Proof. unfold api_view. rewrite py_bind_get. simpl. by destruct (has_permission p db req). Qed.

(** Split a goal on the gate of the view in it: the denied case and the
    case where the body runs. *)
Ltac gate :=
  lazymatch goal with |- context [api_view ?p ?h ?r ?d] =>
    let Hperm := fresh "Hperm" in
    destruct (check_permissions p d r) eqn:Hperm;
    [rewrite (api_view_deny p h r d _ Hperm) | rewrite (api_view_pass p h r d Hperm)]
  end.

Lemma in_group_auth db req u g :
  req_user req = Authenticated u -> (u, g) ∈ user_groups db -> in_group db (req_user req) g = true.
Proof. intros -> H. by apply bool_decide_eq_true_2. Qed.

(** Prove that the permissions of a view hold, from the hypotheses. *)
Ltac perm_solve :=
  apply check_permissions_none; repeat constructor; simpl;
  first [ assumption
        | eapply in_group_auth; eassumption
        | match goal with H : req_user ?r = Authenticated _ |- context [req_user ?r] =>
            rewrite H; reflexivity end ].

(** Pass the gate of a view whose permissions hold. *)
Ltac pass_gate :=
  lazymatch goal with |- context [api_view ?p ?h ?r ?d] =>
    rewrite (api_view_pass p h r d); [| perm_solve]
  end.

Lemma has_permission_manager db req :
  has_permission IsManager db req = true <->
  exists u, req_user req = Authenticated u /\ (u, "manager") ∈ user_groups db.
Proof.
  destruct req as [[|u] d]; simpl; split.
  - discriminate.
  - by intros (? & ? & _).
  - intros H%bool_decide_eq_true. eauto.
  - intros (? & [= <-] & H). by apply bool_decide_eq_true.
Qed.

(** * Witnesses *)

