(* ===== verification/Orders.v ===== *)
(** * Orders: the order views of [views.py] (lines 168-267)

    One definition per view body ([*_body]) and the view itself, the body
    behind its [api_view]/[permission_classes] gate.  The bodies follow
    the source statement by statement: the ORM reads and writes go
    through [Db], [OrderSerializer] through the DRF model of
    [Serializers], and the Python-level failures of the source are raised
    as they are raised at run time:
    - every use of [OrderSerializer] binds its fields, which fails (see
      [order_serializer_bind_fails]);
    - [update_order_status] assigns a local [status], so its reads of the
      module [status] on the 404 and 403 paths raise UnboundLocalError
      and the 400 path reads an attribute of the request value;
    - [update_order] names [User], which [views.py] never imports;
    - [OrderItem.order] is a foreign key to User, so creating an item
      with [order=order] raises ValueError. *)

From Stdlib Require Import ZArith String List.
From stdpp Require Import base list strings gmap fin_maps.
From S2P Require Import Prelude Models Fixtures Serializers Permissions.
Open Scope py_scope.

Definition with_status (b : bool) (o : Order.t) : Order.t :=
  Order.mk (Order.user o) (Order.delivery_crew o) b (Order.total o) (Order.date o).

(** [order.delivery_crew] loads the assigned user, if any. *)
Definition load_crew (db : Db) (o : Order.t) : pyres unit :=
  match Order.delivery_crew o with
  | Some d => _ <-- fetch "User" (auth_user db) d ;; PyOk tt
  | None => PyOk tt
  end.

(** ** order_list (views.py 169-177) *)

Definition order_list_body (req : Request) : Py Db Response :=
  db <- py_get ;;
  rows <- (if in_group db (req_user req) "manager"
           then py_ret (map_to_list (orders db))
           else u <- py_lift (caller_pk (req_user req)) ;;
                py_ret (map_to_list (orders_of u (orders db)))) ;;
  j <- py_lift (ser_data_many OrderSerializer order_repr db rows) ;;
  py_ret (Resp 200 (BData j)).

Definition order_list : Handler := api_view [IsAuthenticated] order_list_body.

(** ** create_order (views.py 179-199) *)

(** [serializer.save(user=request.user)] on validated data. *)
Definition order_from_validated (u : Z) (vd : Dict) : pyres Order.t :=
  st <-- (match vd !! "status" with Some v => bool_to_python v | None => PyOk false end) ;;
  match dict_get vd "total", dict_get vd "date" with
  | VInt total, VDate d => PyOk (Order.mk u None st total d)
  | _, _ => PyRaise (TypeError "invalid field value")
  end.

(** One iteration of the loop: [OrderItem.objects.create(order=order,
    menuitem=..., quantity=..., unit_price=..., price=...)]. *)
Definition orderitem_from_cart (oid : Z) (c : Cart.t) : Py Db unit :=
  _ <- py_lift (fk_assign TOrderItem "order" TOrder) ;;
  _ <- orderitem_create (OrderItem.mk oid (Cart.menuitem c) (Cart.quantity c)
                                       (Cart.unit_price c) (Cart.price c)) ;;
  py_ret tt.

Section WithValidator.
Context `{Validator}.

Definition create_order_body (req : Request) : Py Db Response :=
  db <- py_get ;;
  u <- py_lift (caller_pk (req_user req)) ;;
  let cart_items := carts_of u (carts db) in
  if bool_decide (cart_items = ∅) then py_ret (Resp 400 (BDetail "Cart is empty")) else
  _ <- py_lift (ser_bind OrderSerializer) ;;
  match validate OrderSerializer false db (req_data req) with
  | None => py_ret (Resp 400 BErrors)
  | Some vd =>
    _ <- py_lift (nested_write_check "create" OrderSerializer vd) ;;
    o <- py_lift (order_from_validated u vd) ;;
    oid <- order_create o ;;
    _ <- py_iter (fun kv => orderitem_from_cart oid kv.2) (map_to_list cart_items) ;;
    _ <- py_modify (set_carts (carts_delete_of u)) ;;
    db' <- py_get ;;
    j <- py_lift (order_repr db' oid o) ;;
    py_ret (Resp 201 (BData j))
  end.

Definition create_order : Handler := api_view [IsAuthenticated] create_order_body.

(** ** update_order (views.py 214-231) *)

(** [serializer.save()] with [partial=True]: the validated model
    fields are set on the instance. *)
Definition order_update_validated (o : Order.t) (vd : Dict) : pyres Order.t :=
  st <-- (match vd !! "status" with Some v => bool_to_python v | None => PyOk (Order.status o) end) ;;
  let total := match dict_get vd "total" with VInt t => t | _ => Order.total o end in
  let date := match dict_get vd "date" with VDate d => d | _ => Order.date o end in
  let user := match dict_get vd "user" with VInt u => u | _ => Order.user o end in
  PyOk (Order.mk user (Order.delivery_crew o) st total date).

Definition update_order_body (pk : Z) (req : Request) : Py Db Response :=
  db <- py_get ;;
  match orders db !! pk with
  | None => py_ret (Resp 404 (BDetail "Not found"))
  | Some o =>
    _ <- py_lift (ser_bind OrderSerializer) ;;
    match validate OrderSerializer true db (req_data req) with
    | None => py_ret (Resp 400 BErrors)
    | Some vd =>
      _ <- py_lift (nested_write_check "update" OrderSerializer vd) ;;
      o1 <- py_lift (order_update_validated o vd) ;;
      _ <- py_modify (set_orders (<[pk := o1]>)) ;;
      _ <- (if bool_decide (is_Some (req_data req !! "delivery_crew"))
            then py_raise (NameError "User") else py_ret tt) ;;
      o2 <- (match req_data req !! "status" with
             | Some v => b <- py_lift (bool_to_python v) ;; py_ret (with_status b o1)
             | None => py_ret o1
             end) ;;
      _ <- py_modify (set_orders (<[pk := o2]>)) ;;
      db' <- py_get ;;
      j <- py_lift (order_repr db' pk o2) ;;
      py_ret (Resp 200 (BData j))
    end
  end.

Definition update_order (pk : Z) : Handler := api_view [IsManager] (update_order_body pk).
End WithValidator.

(** ** order_detail (views.py 201-212) *)

Definition order_detail_body (pk : Z) (req : Request) : Py Db Response :=
  db <- py_get ;;
  match orders db !! pk with
  | None => py_ret (Resp 404 (BDetail "Not found"))
  | Some o =>
    if in_group db (req_user req) "manager" || bool_decide (req_user req = Authenticated (Order.user o))
    then j <- py_lift (ser_data OrderSerializer order_repr db pk o) ;; py_ret (Resp 200 (BData j))
    else py_ret (Resp 403 (BDetail "Not authorized"))
  end.

Definition order_detail (pk : Z) : Handler := api_view [IsAuthenticated] (order_detail_body pk).

(** ** delete_order (views.py 233-242) *)

Definition delete_order_body (pk : Z) (req : Request) : Py Db Response :=
  db <- py_get ;;
  match orders db !! pk with
  | None => py_ret (Resp 404 (BDetail "Not found"))
  | Some _ => _ <- py_modify (order_delete pk) ;; py_ret (Resp 204 BEmpty)
  end.

Definition delete_order (pk : Z) : Handler := api_view [IsManager] (delete_order_body pk).

(** ** delivery_crew_orders (views.py 244-249) *)

Definition delivery_crew_orders_body (req : Request) : Py Db Response :=
  db <- py_get ;;
  u <- py_lift (caller_pk (req_user req)) ;;
  j <- py_lift (ser_data_many OrderSerializer order_repr db (map_to_list (orders_assigned u (orders db)))) ;;
  py_ret (Resp 200 (BData j)).

Definition delivery_crew_orders : Handler := api_view [IsDeliveryCrew] delivery_crew_orders_body.

(** ** update_order_status (views.py 251-267) *)

Definition update_order_status_body (pk : Z) (req : Request) : Py Db Response :=
  db <- py_get ;;
  match orders db !! pk with
  | None => py_raise (UnboundLocalError "status")
  | Some o =>
    _ <- py_lift (load_crew db o) ;;
    if bool_decide (option_map Authenticated (Order.delivery_crew o) ≠ Some (req_user req))
    then py_raise (UnboundLocalError "status")
    else
      let st := dict_get (req_data req) "status" in
      if py_in_ints st [0; 1]%Z
      then b <- py_lift (bool_to_python st) ;;
           _ <- py_modify (set_orders (<[pk := with_status b o]>)) ;;
           db' <- py_get ;;
           j <- py_lift (ser_data OrderSerializer order_repr db' pk (with_status b o)) ;;
           py_ret (Resp 200 (BData j))
      else py_raise (AttributeError (py_type_name st) "HTTP_400_BAD_REQUEST")
  end.

Definition update_order_status (pk : Z) : Handler :=
  api_view [IsDeliveryCrew] (update_order_status_body pk).

(** * Theorems *)

(** ** update_order_status *)

(** The conditions under which [update_order_status] writes: the caller
    is in the delivery crew, the assigned user loads, the caller is the
    assignee, and the status is one of 0, 1, False, True. *)
Definition status_guard (db : Db) (req : Request) (o : Order.t) : bool :=
  in_group db (req_user req) "delivery-crew" && res_ok (load_crew db o) &&
  bool_decide (option_map Authenticated (Order.delivery_crew o) = Some (req_user req)) &&
  py_in_ints (dict_get (req_data req) "status") [0; 1]%Z.

(** The effect of the view on the database, in closed form. *)
Lemma update_order_status_db pk req db :
  fst (update_order_status pk req db) =
  match orders db !! pk with
  | Some o => if status_guard db req o
              then set_orders (<[pk := with_status (py_truthy (dict_get (req_data req) "status")) o]>) db
              else db
  | None => db
  end.
Proof.
  unfold update_order_status, status_guard.
  destruct (in_group db (req_user req) "delivery-crew") eqn:Hg.
  - pass_gate. unfold update_order_status_body. py_run.
    destruct (orders db !! pk) as [o|]; py_run; [|reflexivity].
    destruct (load_crew db o); py_run; [|reflexivity].
    destruct (decide (option_map Authenticated (Order.delivery_crew o) = Some (req_user req)))
      as [Heq|Hne].
    + rewrite bool_decide_eq_false_2, bool_decide_eq_true_2 by tauto. simpl.
      destruct (py_in_ints _ _) eqn:Hin; [|reflexivity].
      rewrite (bool_to_python_01 _ Hin). reflexivity.
    + rewrite bool_decide_eq_true_2, bool_decide_eq_false_2 by tauto. reflexivity.
  - rewrite (api_view_deny _ _ _ _ (permission_denied req)) by (simpl; by rewrite Hg).
    by destruct (orders db !! pk).
Qed.

(** C1: a delivery-crew member who is the assignee of an existing order
    and sends a status in [0, 1] has the new status written to the
    database, and yet the view raises: rendering the answer through
    [OrderSerializer] fails, so the client sees a 500 for a write that
    happened. *)
Theorem update_order_status_commits_then_raises pk req db u o :
  req_user req = Authenticated u -> (u, "delivery-crew") ∈ user_groups db ->
  orders db !! pk = Some o -> Order.delivery_crew o = Some u -> is_Some (auth_user db !! u) ->
  py_in_ints (dict_get (req_data req) "status") [0; 1]%Z = true ->
  update_order_status pk req db =
    (set_orders (<[pk := with_status (py_truthy (dict_get (req_data req) "status")) o]>) db,
     PyRaise bind_assertion).
Proof.
  intros Hu Hg Ho Hc [usr Husr] Hst.
  unfold update_order_status. pass_gate. unfold update_order_status_body. py_run.
  rewrite Ho. py_run. unfold load_crew. rewrite Hc. unfold fetch. rewrite Husr. py_run.
  rewrite Hu, bool_decide_eq_false_2 by congruence.
  rewrite Hst, (bool_to_python_01 _ Hst). reflexivity.
Qed.

(** C2: once the delivery-crew gate is passed, [update_order_status]
    never returns a response: every path raises (404 and 403 read the
    shadowed [status], 400 reads an attribute of the request value, 200
    renders through [OrderSerializer]). *)
Theorem update_order_status_always_raises pk req db :
  in_group db (req_user req) "delivery-crew" = true ->
  exists e, snd (update_order_status pk req db) = PyRaise e.
Proof.
  intros Hg. unfold update_order_status. pass_gate. unfold update_order_status_body. py_run.
  destruct (orders db !! pk) as [o|]; py_run; [|eauto].
  destruct (load_crew db o); py_run; [|eauto].
  case_bool_decide; [eauto|].
  destruct (py_in_ints _ _) eqn:Hin; [|eauto].
  rewrite (bool_to_python_01 _ Hin). simpl. eauto.
Qed.

(** C3: a delivery-crew member who is not the assignee of the order (or
    asks for a missing order) changes nothing, and the view raises
    UnboundLocalError instead of answering 403 (or 404). *)
Theorem update_order_status_refuses_non_assignee pk req db u :
  wf_db db -> req_user req = Authenticated u -> (u, "delivery-crew") ∈ user_groups db ->
  (forall o, orders db !! pk = Some o -> Order.delivery_crew o ≠ Some u) ->
  update_order_status pk req db = (db, PyRaise (UnboundLocalError "status")).
Proof.
  intros Hwf Hu Hg Hna. unfold update_order_status. pass_gate.
  unfold update_order_status_body. py_run.
  destruct (orders db !! pk) as [o|] eqn:Ho; py_run; [|reflexivity].
  assert (Hl : load_crew db o = PyOk tt).
  { unfold load_crew, fetch. destruct (Order.delivery_crew o) as [d|] eqn:Hd; [|done].
    destruct (proj2 (wf_order_refs db Hwf pk o Ho) d Hd) as [x ->]. done. }
  rewrite Hl. py_run. rewrite Hu, bool_decide_eq_true_2; [reflexivity|].
  specialize (Hna o eq_refl). destruct (Order.delivery_crew o); simpl; congruence.
Qed.

(** C4: the assignee sending a status outside [0, 1] changes nothing and
    the view raises AttributeError (it reads [HTTP_400_BAD_REQUEST] off the
    request value) instead of answering 400. *)
Theorem update_order_status_invalid_status pk req db u o :
  req_user req = Authenticated u -> (u, "delivery-crew") ∈ user_groups db ->
  orders db !! pk = Some o -> Order.delivery_crew o = Some u -> is_Some (auth_user db !! u) ->
  py_in_ints (dict_get (req_data req) "status") [0; 1]%Z = false ->
  update_order_status pk req db =
    (db, PyRaise (AttributeError (py_type_name (dict_get (req_data req) "status")) "HTTP_400_BAD_REQUEST")).
Proof.
  intros Hu Hg Ho Hc [usr Husr] Hst.
  unfold update_order_status. pass_gate. unfold update_order_status_body. py_run.
  rewrite Ho. py_run. unfold load_crew. rewrite Hc. unfold fetch. rewrite Husr. py_run.
  rewrite Hu, bool_decide_eq_false_2 by congruence. by rewrite Hst.
Qed.

(** ** create_order *)

Section CreateOrder.
Context `{Validator}.

(** [create_order] never writes (used by the step relation below). *)
Lemma create_order_db req db : fst (create_order req db) = db.
Proof.
  unfold create_order. gate; [reflexivity|].
  unfold create_order_body. py_run. destruct (caller_pk _); py_run; [|reflexivity].
  case_bool_decide; reflexivity.
Qed.

(** C5: no request to [create_order] changes the database and none is
    answered 201 Created: the view never creates an order, never creates
    an order item and never drains a cart (it is refused, answers 400, or
    raises before its first write). *)
Theorem create_order_preserves_db req db :
  fst (create_order req db) = db /\
  forall rsp, snd (create_order req db) = PyOk rsp -> status_code rsp <> 201%Z.
Proof.
  split; [apply create_order_db|]. intros rsp.
  unfold create_order. gate.
  { simpl. intros [= <-]. rewrite (check_permissions_some _ _ _ _ Hperm), permission_denied_403. discriminate. }
  unfold create_order_body. py_run. destruct (caller_pk _); py_run; [|done].
  case_bool_decide; simpl; [by intros [= <-]|done].
Qed.

(** C6: an authenticated caller with an empty cart gets 400 "Cart is
    empty" and the database is unchanged. *)
Theorem create_order_empty_cart req db u :
  req_user req = Authenticated u -> carts_of u (carts db) = ∅ ->
  create_order req db = (db, PyOk (Resp 400 (BDetail "Cart is empty"))).
Proof.
  intros Hu He. unfold create_order. pass_gate. unfold create_order_body. py_run.
  rewrite Hu. py_run. by rewrite bool_decide_eq_true_2.
Qed.

(** C7: an authenticated caller with at least one cart line gets no
    order: the view raises the binding assertion of [OrderSerializer]
    in [is_valid], before any write. *)
Theorem create_order_nonempty_cart_raises req db u i c :
  req_user req = Authenticated u -> carts db !! i = Some c -> Cart.user c = u ->
  create_order req db = (db, PyRaise bind_assertion).
Proof.
  intros Hu Hi Hc. unfold create_order. pass_gate. unfold create_order_body. py_run.
  rewrite Hu. py_run. rewrite bool_decide_eq_false_2; [reflexivity|].
  intros He. apply carts_of_empty_iff with (i := i) (c := c) in He; auto.
Qed.
End CreateOrder.

(** ** Listing and reading *)

Lemma map_to_list_nil_iff {A} (m : gmap Z A) : map_to_list m = [] <-> m = ∅.
Proof. apply map_to_list_empty_iff. Qed.

(** Rendering a queryset of orders: [[]] when it is empty, the binding
    assertion otherwise. *)
Lemma ser_orders_rows db (m : gmap Z Order.t) :
  ser_data_many OrderSerializer order_repr db (map_to_list m) =
  if bool_decide (m = ∅) then PyOk (JList []) else PyRaise bind_assertion.
Proof.
  rewrite ser_data_many_order. case_bool_decide as He.
  - by rewrite (proj2 (map_to_list_nil_iff m) He).
  - destruct (map_to_list m) eqn:E; [|done]. by apply map_to_list_nil_iff in E.
Qed.

(** C8: [order_list] selects every order for a manager and the caller's
    own orders for anyone else; it answers [[]] when the selection is
    empty and raises (OrderSerializer) otherwise.  It never writes. *)
Theorem order_list_result req db u :
  req_user req = Authenticated u ->
  order_list req db =
    (db, let sel := if in_group db (req_user req) "manager" then orders db
                    else orders_of u (orders db) in
         if bool_decide (sel = ∅) then PyOk (Resp 200 (BData (JList [])))
         else PyRaise bind_assertion).
Proof.
  intros Hu. unfold order_list. pass_gate. unfold order_list_body. py_run.
  destruct (in_group db (req_user req) "manager"); py_run;
    [|rewrite Hu; py_run]; rewrite ser_orders_rows; by case_bool_decide.
Qed.

(** C9: [order_detail] answers 404 for a missing order (to any
    authenticated caller, before checking who asks), 403 to a caller who
    is neither a manager nor the owner, and raises (OrderSerializer) for
    the manager or the owner.  It never writes. *)
Theorem order_detail_result pk req db u :
  req_user req = Authenticated u ->
  order_detail pk req db =
    (db, match orders db !! pk with
         | None => PyOk (Resp 404 (BDetail "Not found"))
         | Some o => if in_group db (req_user req) "manager" || bool_decide (u = Order.user o)
                     then PyRaise bind_assertion
                     else PyOk (Resp 403 (BDetail "Not authorized"))
         end).
Proof.
  intros Hu. unfold order_detail. pass_gate. unfold order_detail_body. py_run.
  destruct (orders db !! pk) as [o|]; [|reflexivity]. rewrite Hu.
  destruct (in_group _ _ _); simpl; [reflexivity|].
  do 2 case_bool_decide; simplify_eq; done.
Qed.

(** C10: for a manager, [delete_order] removes exactly the order (no
    other table changes: no foreign key points at Order) and answers 204,
    or answers 404 and changes nothing when the order is missing. *)
Theorem delete_order_result pk req db u :
  req_user req = Authenticated u -> (u, "manager") ∈ user_groups db ->
  delete_order pk req db =
    match orders db !! pk with
    | Some _ => (order_delete pk db, PyOk (Resp 204 BEmpty))
    | None => (db, PyOk (Resp 404 (BDetail "Not found")))
    end.
Proof.
  intros Hu Hg. unfold delete_order. pass_gate. unfold delete_order_body. py_run.
  by destruct (orders db !! pk).
Qed.

(** C11: [delivery_crew_orders] selects the orders assigned to the
    calling crew member; it answers [[]] when there are none and raises
    (OrderSerializer) otherwise.  It never writes. *)
Theorem delivery_crew_orders_result req db u :
  req_user req = Authenticated u -> (u, "delivery-crew") ∈ user_groups db ->
  delivery_crew_orders req db =
    (db, if bool_decide (orders_assigned u (orders db) = ∅)
         then PyOk (Resp 200 (BData (JList []))) else PyRaise bind_assertion).
Proof.
  intros Hu Hg. unfold delivery_crew_orders. pass_gate. unfold delivery_crew_orders_body.
  py_run. rewrite Hu. py_run. rewrite ser_orders_rows. by case_bool_decide.
Qed.

Section UpdateOrder.
Context `{Validator}.

(** C12: for a manager, [update_order] answers 404 for a missing order
    and otherwise raises in [is_valid] (OrderSerializer); it never
    assigns a delivery crew nor changes a status. *)
Theorem update_order_result pk req db u :
  req_user req = Authenticated u -> (u, "manager") ∈ user_groups db ->
  update_order pk req db =
    (db, match orders db !! pk with
         | Some _ => PyRaise bind_assertion
         | None => PyOk (Resp 404 (BDetail "Not found"))
         end).
Proof.
  intros Hu Hg. unfold update_order. pass_gate. unfold update_order_body. py_run.
  by destruct (orders db !! pk).
Qed.
End UpdateOrder.

(** ** The order views as steps on the database *)

(** Every view of [urls.py] under [orders/]. *)
Inductive OrderCall :=
| CList | CCreate | CDetail (pk : Z) | CUpdate (pk : Z) | CDelete (pk : Z)
| CCrew | CStatus (pk : Z).

(** The ways one order view can change the database. *)
Inductive order_effect (db : Db) : Db -> Prop :=
| eff_none : order_effect db db
| eff_delete pk : order_effect db (order_delete pk db)
| eff_status pk o b :
    orders db !! pk = Some o -> order_effect db (set_orders (<[pk := with_status b o]>) db).

(** Run a view body that never writes to completion. *)
Ltac readonly_view :=
  gate; [reflexivity|];
  unfold order_list_body, order_detail_body, delivery_crew_orders_body, update_order_body;
  py_run;
  repeat (first [case_match | py_split]; py_run); reflexivity.

Lemma order_list_db req db : fst (order_list req db) = db.
Proof. unfold order_list. readonly_view. Qed.

Lemma order_detail_db pk req db : fst (order_detail pk req db) = db.
Proof. unfold order_detail. readonly_view. Qed.

Lemma delivery_crew_orders_db req db : fst (delivery_crew_orders req db) = db.
Proof. unfold delivery_crew_orders. readonly_view. Qed.

Lemma update_order_db `{Validator} pk req db : fst (update_order pk req db) = db.
Proof. unfold update_order. readonly_view. Qed.

Lemma delete_order_db pk req db :
  fst (delete_order pk req db) = db \/ fst (delete_order pk req db) = order_delete pk db.
Proof.
  unfold delete_order. gate; [by left|]. unfold delete_order_body. py_run.
  destruct (orders db !! pk); [right|left]; reflexivity.
Qed.

Section Calls.
Context `{Validator}.

Definition run_order_call (c : OrderCall) : Handler :=
  match c with
  | CList => order_list
  | CCreate => create_order
  | CDetail pk => order_detail pk
  | CUpdate pk => update_order pk
  | CDelete pk => delete_order pk
  | CCrew => delivery_crew_orders
  | CStatus pk => update_order_status pk
  end.

Lemma run_order_call_effect c req db : order_effect db (fst (run_order_call c req db)).
Proof.
  destruct c; simpl.
  - rewrite order_list_db. constructor.
  - rewrite create_order_db. constructor.
  - rewrite order_detail_db. constructor.
  - rewrite update_order_db. constructor.
  - destruct (delete_order_db pk req db) as [-> | ->]; constructor.
  - rewrite delivery_crew_orders_db. constructor.
  - rewrite update_order_status_db. destruct (orders db !! pk) eqn:Ho; [|constructor].
    destruct (status_guard _ _ _); [by econstructor | constructor].
Qed.

Lemma order_effect_wf db db' : order_effect db db' -> wf_db db -> wf_db db'.
Proof.
  intros [|pk|pk o b Ho]; [done| |]; apply wf_set_orders_sub.
  - intros i o Hi. apply lookup_delete_Some in Hi as [_ Hi]. eauto.
  - intros i o' Hi. destruct (decide (pk = i)) as [<-|Hne].
    + rewrite lookup_insert_eq in Hi. injection Hi as <-. eauto.
    + rewrite lookup_insert_ne in Hi by done. eauto.
Qed.

(** Every order view keeps the referential integrity of the
    database ([wf_db]). *)
Theorem order_call_preserves_wf c req db :
  wf_db db -> wf_db (fst (run_order_call c req db)).
Proof. apply order_effect_wf, run_order_call_effect. Qed.

(** The databases reachable from [db] by any sequence of order views. *)
Definition order_step (db db' : Db) : Prop :=
  exists c req, db' = fst (run_order_call c req db).

(** What survives of the orders of [db] in [db']: the rows of [db'] are
    rows of [db] with at most their status changed, and the cart and
    order-item tables are those of [db]. *)
Definition orders_only_restatused (db db' : Db) : Prop :=
  carts db' = carts db /\ orderitems db' = orderitems db /\
  forall pk o', orders db' !! pk = Some o' ->
    exists o, orders db !! pk = Some o /\ o' = with_status (Order.status o') o.

Lemma order_effect_restatused db db' : order_effect db db' -> orders_only_restatused db db'.
Proof.
  intros [|pk|pk o b Ho]; repeat split; try reflexivity.
  - intros k o' Hk. exists o'. split; [done|]. by destruct o'.
  - intros k o' Hk. simpl in Hk. apply lookup_delete_Some in Hk as [_ Hk].
    exists o'. by destruct o'.
  - intros k o' Hk. simpl in Hk. destruct (decide (pk = k)) as [<-|Hne].
    + rewrite lookup_insert_eq in Hk. injection Hk as <-. eauto.
    + rewrite lookup_insert_ne in Hk by done. exists o'. by destruct o'.
Qed.

Lemma orders_only_restatused_trans a b c :
  orders_only_restatused a b -> orders_only_restatused b c -> orders_only_restatused a c.
Proof.
  intros (Hc1 & Hi1 & Ho1) (Hc2 & Hi2 & Ho2). split; [congruence|]. split; [congruence|].
  intros pk o2 H2. destruct (Ho2 pk o2 H2) as (o1 & H1 & ->).
  destruct (Ho1 pk o1 H1) as (o0 & H0 & ->). eauto.
Qed.

(** Along any sequence of order views, no order, order item or
    cart line is ever created and no cart is drained: each order that
    exists at the end existed at the start, identical but for its
    status. *)
Theorem order_views_never_create db db' :
  rtc order_step db db' -> orders_only_restatused db db'.
Proof.
  induction 1 as [db|a b c [cl [req ->]] _ IH].
  - repeat split. intros pk o' H'. exists o'. split; [done|]. by destruct o'.
  - eapply orders_only_restatused_trans; [|exact IH].
    apply order_effect_restatused, run_order_call_effect.
Qed.
End Calls.

(** * Witnesses *)

Lemma update_order_status_commits_then_raises_witness :
  update_order_status 1 (demo_req 2 {["status" := VInt 1]}) demo_db =
    (set_orders (<[1%Z := with_status true (Order.mk 3 (Some 2%Z) false 0 100)]>) demo_db,
     PyRaise bind_assertion).
Proof.
  rewrite (update_order_status_commits_then_raises 1 (demo_req 2 {["status" := VInt 1]}) demo_db 2
             (Order.mk 3 (Some 2%Z) false 0 100)); concrete.
Defined.

Lemma update_order_status_always_raises_witness :
  exists e, snd (update_order_status 1 (demo_req 4 {["status" := VInt 1]}) demo_db) = PyRaise e.
Proof. apply update_order_status_always_raises. concrete. Defined.

Lemma update_order_status_refuses_non_assignee_witness :
  update_order_status 1 (demo_req 4 {["status" := VInt 1]}) demo_db =
    (demo_db, PyRaise (UnboundLocalError "status")).
Proof.
  apply (update_order_status_refuses_non_assignee 1 _ demo_db 4); [exact demo_db_wf|concrete|concrete|].
  intros o Ho. vm_compute in Ho. injection Ho as <-. discriminate.
Defined.

Lemma update_order_status_invalid_status_witness :
  update_order_status 1 (demo_req 2 {["status" := VInt 2]}) demo_db =
    (demo_db, PyRaise (AttributeError "int" "HTTP_400_BAD_REQUEST")).
Proof.
  rewrite (update_order_status_invalid_status 1 (demo_req 2 {["status" := VInt 2]}) demo_db 2
             (Order.mk 3 (Some 2%Z) false 0 100)); concrete.
Defined.

Lemma create_order_empty_cart_witness :
  create_order (demo_req 2 ∅) demo_db = (demo_db, PyOk (Resp 400 (BDetail "Cart is empty"))).
Proof. apply (create_order_empty_cart _ demo_db 2); [concrete | vm_compute; reflexivity]. Defined.

Lemma create_order_nonempty_cart_raises_witness :
  create_order (demo_req 3 ∅) demo_db = (demo_db, PyRaise bind_assertion).
Proof. apply (create_order_nonempty_cart_raises _ demo_db 3 1 (Cart.mk 3 1 2 0 0)); concrete. Defined.

Lemma order_list_result_witness :
  order_list (demo_req 1 ∅) demo_db = (demo_db, PyRaise bind_assertion).
Proof. rewrite (order_list_result _ demo_db 1); concrete. Defined.

Lemma order_detail_result_witness :
  order_detail 1 (demo_req 4 ∅) demo_db = (demo_db, PyOk (Resp 403 (BDetail "Not authorized"))).
Proof. rewrite (order_detail_result 1 _ demo_db 4); concrete. Defined.

Lemma delete_order_result_witness :
  delete_order 1 (demo_req 1 ∅) demo_db = (order_delete 1 demo_db, PyOk (Resp 204 BEmpty)).
Proof. rewrite (delete_order_result 1 _ demo_db 1); concrete. Defined.

Lemma delivery_crew_orders_result_witness :
  delivery_crew_orders (demo_req 4 ∅) demo_db = (demo_db, PyOk (Resp 200 (BData (JList [])))).
Proof. rewrite (delivery_crew_orders_result _ demo_db 4); concrete. Defined.

Lemma update_order_result_witness :
  update_order 1 (demo_req 1 {["status" := VInt 1]}) demo_db = (demo_db, PyRaise bind_assertion).
Proof. rewrite (update_order_result 1 _ demo_db 1); concrete. Defined.

