(* ===== verification/Cart.v ===== *)
(** * Cart: the cart views of [views.py] (lines 145-166)

    [cart_list] renders the caller's cart lines, [add_to_cart] validates
    a body with [CartSerializer] and saves it for the caller, [clear_cart]
    deletes the caller's lines.  Saving through [CartSerializer] trips
    DRF's nested-write assertion (its [menuitem] field is a nested
    serializer), so no request adds a line: the spec's merge-on-add
    semantics cannot be reached. *)

From Stdlib Require Import ZArith String List.
From stdpp Require Import base list strings gmap fin_maps.
From S2P Require Import Prelude Models Fixtures Serializers Permissions.
Open Scope py_scope.

(** ** cart_list (views.py 146-151) *)

Definition cart_list_body (req : Request) : Py Db Response :=
  db <- py_get ;;
  u <- py_lift (caller_pk (req_user req)) ;;
  j <- py_lift (ser_data_many CartSerializer cart_repr db (map_to_list (carts_of u (carts db)))) ;;
  py_ret (Resp 200 (BData j)).

Definition cart_list : Handler := api_view [IsAuthenticated] cart_list_body.

(** ** add_to_cart (views.py 153-160) *)

Section WithValidator.
Context `{Validator}.

(** [serializer.save(user=request.user)]: [ModelSerializer.create]
    checks nested writes first; past it, [Cart.objects.create] would be
    given the validated dict of [menuitem] for a foreign key and raise
    ValueError. *)
Definition add_to_cart_body (req : Request) : Py Db Response :=
  db <- py_get ;;
  match validate CartSerializer false db (req_data req) with
  | Some vd =>
    _ <- py_lift (nested_write_check "create" CartSerializer vd) ;;
    _ <- py_lift (caller_pk (req_user req)) ;;
    py_raise (ValueError "Cannot assign: Cart.menuitem must be a MenuItem instance")
  | None => py_ret (Resp 400 BErrors)
  end.

Definition add_to_cart : Handler := api_view [IsAuthenticated] add_to_cart_body.
End WithValidator.

(** ** clear_cart (views.py 162-166) *)

Definition clear_cart_body (req : Request) : Py Db Response :=
  u <- py_lift (caller_pk (req_user req)) ;;
  _ <- py_modify (set_carts (carts_delete_of u)) ;;
  py_ret (Resp 204 BEmpty).

Definition clear_cart : Handler := api_view [IsAuthenticated] clear_cart_body.

(** * Theorems *)

(** Under [wf_db], every cart line renders: its menu item and that
    item's category exist. *)
Lemma cart_repr_ok db i c :
  wf_db db -> carts db !! i = Some c -> exists j, cart_repr db i c = PyOk j.
Proof.
  intros Hwf Hc. destruct (wf_cart_refs db Hwf i c Hc) as [_ [mi Hmi]].
  destruct (wf_menuitem_refs db Hwf _ mi Hmi) as [cat Hcat].
  unfold cart_repr, menuitem_repr, fetch. simpl. rewrite Hmi. simpl. rewrite Hcat. simpl. eauto.
Qed.

(** C16: on a well-formed database, [cart_list] answers 200 with one
    rendered line for each cart line of the caller, and writes nothing. *)
Theorem cart_list_lists_own_lines req db u :
  wf_db db -> req_user req = Authenticated u ->
  exists js, cart_list req db = (db, PyOk (Resp 200 (BData (JList js)))) /\
             length js = size (carts_of u (carts db)).
Proof.
  intros Hwf Hu. unfold cart_list. pass_gate. unfold cart_list_body. py_run. rewrite Hu. py_run.
  rewrite <- length_map_to_list.
  destruct (res_map_ok (fun r => cart_repr db r.1 r.2) (map_to_list (carts_of u (carts db))))
    as (js & Hjs & Hlen).
  { intros [i c] Hin%list_elem_of_In%elem_of_map_to_list.
    apply carts_of_lookup in Hin as [Hin _]. exact (cart_repr_ok db i c Hwf Hin). }
  exists (match map_to_list (carts_of u (carts db)) with [] => [] | _ => js end).
  unfold ser_data_many. destruct (map_to_list _) eqn:E; simpl in *.
  - subst. auto.
  - rewrite Hjs. simpl. auto.
Qed.

(** C17: [clear_cart] deletes exactly the caller's cart lines (other
    users' lines and every other table are kept) and answers 204. *)
Theorem clear_cart_result req db u :
  req_user req = Authenticated u ->
  clear_cart req db = (set_carts (carts_delete_of u) db, PyOk (Resp 204 BEmpty)) /\
  carts_of u (carts (set_carts (carts_delete_of u) db)) = ∅.
Proof.
  intros Hu. split.
  - unfold clear_cart. pass_gate. unfold clear_cart_body. py_run. by rewrite Hu.
  - apply carts_of_empty_iff. intros i c Hi. simpl in Hi.
    by apply carts_delete_of_lookup in Hi as [_ ?].
Qed.

(** The effect of [clear_cart] on the database, in closed form. *)
Lemma clear_cart_db req db :
  fst (clear_cart req db) =
  match req_user req with Authenticated u => set_carts (carts_delete_of u) db | Anonymous => db end.
Proof.
  unfold clear_cart. destruct (req_user req) as [|u] eqn:Hu.
  - rewrite api_view_deny with (r := permission_denied req); [done|]. simpl. by rewrite Hu.
  - pass_gate. unfold clear_cart_body. py_run. by rewrite Hu.
Qed.

Section AddToCart.
Context `{Validator}.

(** C18: no request to [add_to_cart] changes the database: an invalid
    body answers 400, a valid one trips the nested-write assertion of
    [CartSerializer] before any row is written, so a cart line is never
    added nor merged. *)
Theorem add_to_cart_preserves_db req db : fst (add_to_cart req db) = db.
Proof.
  unfold add_to_cart. gate; [reflexivity|]. unfold add_to_cart_body. py_run.
  destruct (validate CartSerializer false db (req_data req)) as [vd|] eqn:Hv; py_run; [|reflexivity].
  destruct (cart_nested_write db (req_data req) vd Hv) as [e ->]. reflexivity.
Qed.
End AddToCart.

(** * Witnesses *)

Lemma cart_list_lists_own_lines_witness :
  exists js, cart_list (demo_req 3 ∅) demo_db = (demo_db, PyOk (Resp 200 (BData (JList js)))) /\
             length js = size (carts_of 3 (carts demo_db)).
Proof. apply cart_list_lists_own_lines; [exact demo_db_wf | concrete]. Defined.

Lemma clear_cart_result_witness :
  clear_cart (demo_req 3 ∅) demo_db = (set_carts (carts_delete_of 3) demo_db, PyOk (Resp 204 BEmpty)) /\
  carts_of 3 (carts (set_carts (carts_delete_of 3) demo_db)) = ∅.
Proof. apply clear_cart_result. concrete. Defined.
