(* ===== verification/Groups.v ===== *)
(** * Groups: the role-directory views of [views.py] (lines 80-143)

    Six views, three per group ("manager", "delivery-crew"), all behind
    [IsManager]: list the members, add the user named by [user_id] in the
    body, remove the user named in the path.  The two groups' views are
    the same code with another group name and message, so each triple is
    one body parameterised by the name.

    Every one of the six names [User] (the list views also
    [UserSerializer]), and [views.py] binds neither: its imports (lines
    3-8) bring [Group] from [django.contrib.auth.models] but not [User],
    and [serializers.py] declares no [UserSerializer].  The bodies are
    therefore written over the module namespace [ns] they run in: a name
    is looked up when the statement naming it runs ([py_global]).  With
    [ns = views_globals], the namespace of the source, a manager's
    request raises NameError before any read or write; the closed forms
    of the views' effects ([group_assign_view_db], [group_remove_view_db])
    hold in every namespace and feed the whole-API invariant of Api.v. *)

From Stdlib Require Import ZArith String List.
From stdpp Require Import base list strings gmap fin_maps gmap sets.
From S2P Require Import Prelude PyStr Models Fixtures Serializers Permissions.
Open Scope py_scope.

(** ** The namespace of views.py *)

(** The module-level names of [views.py]: its imports (lines 3-8), the
    two permission classes and the 21 views it defines. *)
Definition views_globals : list string :=
  ["api_view"; "permission_classes"; "Response"; "status"; "permissions"; "Group";
   "Category"; "MenuItem"; "Cart"; "Order"; "OrderItem";
   "CategorySerializer"; "MenuItemSerializer"; "CartSerializer"; "OrderSerializer";
   "OrderItemSerializer"; "IsManager"; "IsDeliveryCrew";
   "menu_item_list"; "menu_item_detail"; "create_menu_item"; "update_menu_item";
   "delete_menu_item"; "manager_list"; "assign_manager"; "remove_manager";
   "delivery_crew_list"; "assign_delivery_crew"; "remove_delivery_crew";
   "cart_list"; "add_to_cart"; "clear_cart"; "order_list"; "create_order";
   "order_detail"; "update_order"; "delete_order"; "delivery_crew_orders";
   "update_order_status"].

(** Evaluating a global name: NameError when the module does not bind it
    (none of the names used is a builtin). *)
Definition py_global (ns : list string) (x : string) : pyres unit :=
  if bool_decide (x ∈ ns) then PyOk tt else PyRaise (NameError x).

(** ** The views *)

Section RoleViews.
Variable ns : list string.
(** The rendering of a user by [UserSerializer], where [ns] binds it. *)
Variable user_repr : Z -> User.t -> Json.

(** [try: user = User.objects.get(pk=v) except User.DoesNotExist: 404]:
    other exceptions (a [user_id] that is not a number) propagate. *)
Definition get_user_or_404 (v : PyVal) (k : Z -> Py Db Response) : Py Db Response :=
  _ <- py_lift (py_global ns "User") ;;
  db <- py_get ;;
  match user_get db v with
  | PyOk (uid, _) => k uid
  | PyRaise (DoesNotExist m) =>
    if String.eqb m "User" then py_ret (Resp 404 (BDetail "User not found"))
    else py_raise (DoesNotExist m)
  | PyRaise e => py_raise e
  end.

(** [manager_list] / [delivery_crew_list] (lines 81-86, 113-118). *)
Definition group_list_body (g : string) (req : Request) : Py Db Response :=
  _ <- py_lift (py_global ns "User") ;;
  db <- py_get ;;
  let members := map_to_list (users_in_group g db) in
  _ <- py_lift (py_global ns "UserSerializer") ;;
  py_ret (Resp 200 (BData (JList (map (fun r => user_repr r.1 r.2) members)))).

(** [assign_manager] / [assign_delivery_crew] (lines 88-99, 120-131):
    past the lookup of the user, [Group.objects.get(name=g)] (an uncaught
    DoesNotExist when the group is missing) and [user.groups.add(group)],
    which adds the pair and is a no-op when it is present. *)
Definition group_add (g msg : string) (uid : Z) : Py Db Response :=
  db <- py_get ;;
  grp <- py_lift (group_get db g) ;;
  _ <- py_modify (set_user_groups (fun s => {[(uid, grp)]} ∪ s)) ;;
  py_ret (Resp 201 (BDetail msg)).

Definition group_assign_body (g msg : string) (req : Request) : Py Db Response :=
  let user_id := dict_get (req_data req) "user_id" in
  get_user_or_404 user_id (group_add g msg).

(** [remove_manager] / [remove_delivery_crew] (lines 101-111, 133-143):
    [user_id] comes from the path converter; [user.groups.remove(group)]
    is a no-op for a pair that is absent. *)
Definition group_discard (g msg : string) (uid : Z) : Py Db Response :=
  db <- py_get ;;
  grp <- py_lift (group_get db g) ;;
  _ <- py_modify (set_user_groups (fun s => s ∖ {[(uid, grp)]})) ;;
  py_ret (Resp 200 (BDetail msg)).

Definition group_remove_body (g msg : string) (user_id : Z) (req : Request) : Py Db Response :=
  get_user_or_404 (VInt user_id) (group_discard g msg).

Definition manager_list : Handler := api_view [IsManager] (group_list_body "manager").

Definition assign_manager : Handler :=
  api_view [IsManager] (group_assign_body "manager" "User assigned as manager").

Definition remove_manager (user_id : Z) : Handler :=
  api_view [IsManager] (group_remove_body "manager" "User removed from manager group" user_id).

Definition delivery_crew_list : Handler :=
  api_view [IsManager] (group_list_body "delivery-crew").

Definition assign_delivery_crew : Handler :=
  api_view [IsManager] (group_assign_body "delivery-crew" "User assigned as delivery crew").

Definition remove_delivery_crew (user_id : Z) : Handler :=
  api_view [IsManager]
    (group_remove_body "delivery-crew" "User removed from delivery crew group" user_id).

(** The six views, as calls. *)
Inductive RoleCall :=
| RManagerList | RAssignManager | RRemoveManager (user_id : Z)
| RCrewList | RAssignCrew | RRemoveCrew (user_id : Z).

Definition run_role_call (c : RoleCall) : Handler :=
  match c with
  | RManagerList => manager_list
  | RAssignManager => assign_manager
  | RRemoveManager u => remove_manager u
  | RCrewList => delivery_crew_list
  | RAssignCrew => assign_delivery_crew
  | RRemoveCrew u => remove_delivery_crew u
  end.
End RoleViews.

(** * Theorems *)

(** ** Lemmas on the namespace, the lookup and the group updates *)

Lemma py_global_bound ns x : x ∈ ns -> py_global ns x = PyOk tt.
Proof. intros H. unfold py_global. by rewrite bool_decide_eq_true_2. Qed.

Lemma py_global_unbound ns x : x ∉ ns -> py_global ns x = PyRaise (NameError x).
Proof. intros H. unfold py_global. by rewrite bool_decide_eq_false_2. Qed.

Lemma user_not_in_views_globals : "User" ∉ views_globals.
Proof. unfold views_globals. intros H. repeat (apply elem_of_cons in H as [H|H]; [discriminate|]). by apply elem_of_nil in H. Qed.

Lemma get_user_or_404_unbound ns v k db :
  "User" ∉ ns -> get_user_or_404 ns v k db = (db, PyRaise (NameError "User")).
Proof. intros Hns. unfold get_user_or_404. rewrite py_global_unbound by done. by py_run. Qed.


Lemma user_get_pk db v u :
  pk_prep_value v = PyOk (Some u) ->
  user_get db v = match auth_user db !! u with
                  | Some x => PyOk (u, x) | None => PyRaise (DoesNotExist "User") end.
Proof. intros Hv. unfold user_get. by rewrite Hv. Qed.

(** With [User] bound and a lookup value that is a number, the view goes
    on with the user when it exists and answers 404 otherwise. *)
Lemma get_user_or_404_pk ns v u k db :
  "User" ∈ ns -> pk_prep_value v = PyOk (Some u) ->
  get_user_or_404 ns v k db =
  match auth_user db !! u with
  | Some _ => k u db
  | None => (db, PyOk (Resp 404 (BDetail "User not found")))
  end.
Proof.
  intros Hns Hv. unfold get_user_or_404. rewrite py_global_bound by done. py_run.
  rewrite (user_get_pk _ _ _ Hv). by destruct (auth_user db !! u).
Qed.

(** The effect on the database of an assign view, in closed form. *)
Lemma group_assign_view_db ns g msg req db :
  fst (api_view [IsManager] (group_assign_body ns g msg) req db) =
  if has_permission IsManager db req && bool_decide ("User" ∈ ns) && bool_decide (g ∈ auth_group db)
  then match user_get db (dict_get (req_data req) "user_id") with
       | PyOk (uid, _) => set_user_groups (union {[(uid, g)]}) db
       | PyRaise _ => db
       end
  else db.
Proof.
  rewrite api_view_single. destruct (has_permission IsManager db req); [|reflexivity]. simpl.
  unfold group_assign_body, get_user_or_404, py_global.
  destruct (bool_decide ("User" ∈ ns)); py_run; [|reflexivity].
  destruct (user_get db _) as [[uid x]|e]; py_run.
  - unfold group_add, group_get. py_run. case_decide; case_bool_decide; try contradiction; reflexivity.
  - destruct e; repeat case_match; destruct (bool_decide _); reflexivity.
Qed.

(** The effect on the database of a remove view, in closed form. *)
Lemma group_remove_view_db ns g msg u req db :
  fst (api_view [IsManager] (group_remove_body ns g msg u) req db) =
  if has_permission IsManager db req && bool_decide ("User" ∈ ns) && bool_decide (g ∈ auth_group db)
     && bool_decide (is_Some (auth_user db !! u))
  then set_user_groups (fun s => s ∖ {[(u, g)]}) db
  else db.
Proof.
  rewrite api_view_single. destruct (has_permission IsManager db req); [|reflexivity]. simpl.
  unfold group_remove_body. destruct (decide ("User" ∈ ns)) as [Hns|Hns].
  - rewrite (get_user_or_404_pk _ _ u) by done. rewrite (bool_decide_eq_true_2 _ Hns). simpl.
    destruct (auth_user db !! u) eqn:Hu.
    + unfold group_discard, group_get. py_run.
      repeat case_decide; repeat case_bool_decide; simpl; try reflexivity; exfalso; eauto.
    + simpl. by destruct (bool_decide _).
  - rewrite get_user_or_404_unbound by done. by rewrite bool_decide_eq_false_2.
Qed.

(** ** The source namespace *)

(** C19: in the namespace of [views.py], every role-directory view
    raises NameError on [User] for a manager and answers 403 to anyone
    else, and none of them changes the database: no request adds or
    removes a group member. *)
Theorem role_views_raise_name_error user_repr c req db :
  run_role_call views_globals user_repr c req db =
  (db, if has_permission IsManager db req then PyRaise (NameError "User")
       else PyOk (permission_denied req)).
Proof.
  destruct c; cbn [run_role_call];
    unfold manager_list, assign_manager, remove_manager, delivery_crew_list,
      assign_delivery_crew, remove_delivery_crew;
    rewrite api_view_single; destruct (has_permission IsManager db req); try reflexivity;
    unfold group_list_body, group_assign_body, group_remove_body;
    rewrite ?get_user_or_404_unbound by apply user_not_in_views_globals; try reflexivity.
  all: unfold py_global; rewrite bool_decide_eq_false_2 by apply user_not_in_views_globals;
    reflexivity.
Qed.

Lemma user_get_exists db v uid x : user_get db v = PyOk (uid, x) -> auth_user db !! uid = Some x.
Proof.
  unfold user_get. destruct (pk_prep_value v) as [[z|]|]; simpl; try discriminate.
  destruct (auth_user db !! z) eqn:E; intros; simplify_eq; done.
Qed.

Lemma group_list_view_db ns user_repr g req db :
  fst (api_view [IsManager] (group_list_body ns user_repr g) req db) = db.
Proof.
  rewrite api_view_single. destruct (has_permission _ _ _); [|done].
  unfold group_list_body, py_global. by repeat (case_bool_decide; py_run).
Qed.

(** * Witnesses

    Manager 1 of [demo_db] acts on customer 3, in the namespace of
    [views.py] with the missing names bound. *)

