(* ===== verification/Menu.v ===== *)
(** * Menu: the catalog views of [views.py] (lines 19-78)

    [menu_item_list] and [menu_item_detail] carry no
    [@permission_classes], so DRF's default permission ([AllowAny]; the
    project settings are not part of the sources) lets every request in
    and the body checks the caller's groups itself; the detail view
    looks the item up first, so a missing item is answered 404 before
    the role check.  [create_menu_item], [update_menu_item] and
    [delete_menu_item] are behind [IsManager].  Creating validates the
    body with [MenuItemSerializer], whose [category] is a nested
    serializer: saving trips DRF's nested-write assertion, so no item is
    ever created.  A partial update without [category] sets the given
    fields on the row; one with [category] trips the same assertion.
    Deleting follows the CASCADE of [Cart.menuitem] and
    [OrderItem.menuitem] ([menuitem_delete]). *)

From Stdlib Require Import ZArith String List.
From stdpp Require Import base list strings gmap fin_maps.
From S2P Require Import Prelude Models Fixtures Serializers Permissions.
Open Scope py_scope.

(** ** menu_item_list (views.py 20-31) *)

(** [MenuItemSerializer(MenuItem.objects.all(), many=True).data] *)
Definition render_menu (db : Db) : pyres Json :=
  ser_data_many MenuItemSerializer menuitem_repr db (map_to_list (menuitems db)).

Definition menu_item_list_body (req : Request) : Py Db Response :=
  db <- py_get ;;
  if in_group db (req_user req) "manager" then
    j <- py_lift (render_menu db) ;; py_ret (Resp 200 (BData j))
  else if in_group db (req_user req) "delivery-crew" then
    j <- py_lift (render_menu db) ;; py_ret (Resp 200 (BData j))
  else py_ret (Resp 403 (BDetail "Not authorized")).

Definition menu_item_list : Handler := api_view [] menu_item_list_body.

(** ** menu_item_detail (views.py 33-44) *)

Definition menu_item_detail_body (pk : Z) (req : Request) : Py Db Response :=
  db <- py_get ;;
  match menuitems db !! pk with
  | None => py_ret (Resp 404 (BDetail "Not found"))
  | Some mi =>
    if in_group db (req_user req) "manager" || in_group db (req_user req) "delivery-crew" then
      j <- py_lift (ser_data MenuItemSerializer menuitem_repr db pk mi) ;;
      py_ret (Resp 200 (BData j))
    else py_ret (Resp 403 (BDetail "Not authorized"))
  end.

Definition menu_item_detail (pk : Z) : Handler := api_view [] (menu_item_detail_body pk).

(** [serializer.save()] with [partial=True] on a menu item: each
    validated model field is set on the instance; [featured] goes
    through [BooleanField.to_python] when the row is saved. *)
Definition menuitem_update_validated (mi : MenuItem.t) (vd : Dict) : pyres MenuItem.t :=
  ft <-- (match vd !! "featured" with Some v => bool_to_python v | None => PyOk (MenuItem.featured mi) end) ;;
  let title := match dict_get vd "title" with VStr t => t | _ => MenuItem.title mi end in
  let price := match dict_get vd "price" with VInt p => p | _ => MenuItem.price mi end in
  PyOk (MenuItem.mk title price ft (MenuItem.category mi)).

Section WithValidator.
Context `{Validator}.

(** ** create_menu_item (views.py 46-53) *)

(** Past the nested-write assertion, [MenuItem.objects.create] would be
    given the validated dict of [category] for a foreign key and raise
    ValueError. *)
Definition create_menu_item_body (req : Request) : Py Db Response :=
  db <- py_get ;;
  _ <- py_lift (ser_bind MenuItemSerializer) ;;
  match validate MenuItemSerializer false db (req_data req) with
  | Some vd =>
    _ <- py_lift (nested_write_check "create" MenuItemSerializer vd) ;;
    py_raise (ValueError "Cannot assign: MenuItem.category must be a Category instance")
  | None => py_ret (Resp 400 BErrors)
  end.

Definition create_menu_item : Handler := api_view [IsManager] create_menu_item_body.

(** ** update_menu_item (views.py 55-67) *)

Definition update_menu_item_body (pk : Z) (req : Request) : Py Db Response :=
  db <- py_get ;;
  match menuitems db !! pk with
  | None => py_ret (Resp 404 (BDetail "Not found"))
  | Some mi =>
    _ <- py_lift (ser_bind MenuItemSerializer) ;;
    match validate MenuItemSerializer true db (req_data req) with
    | None => py_ret (Resp 400 BErrors)
    | Some vd =>
      _ <- py_lift (nested_write_check "update" MenuItemSerializer vd) ;;
      mi' <- py_lift (menuitem_update_validated mi vd) ;;
      _ <- py_modify (set_menuitems (<[pk := mi']>)) ;;
      db' <- py_get ;;
      j <- py_lift (ser_data MenuItemSerializer menuitem_repr db' pk mi') ;;
      py_ret (Resp 200 (BData j))
    end
  end.

Definition update_menu_item (pk : Z) : Handler := api_view [IsManager] (update_menu_item_body pk).
End WithValidator.

(** ** delete_menu_item (views.py 69-78) *)

Definition delete_menu_item_body (pk : Z) (req : Request) : Py Db Response :=
  db <- py_get ;;
  match menuitems db !! pk with
  | None => py_ret (Resp 404 (BDetail "Not found"))
  | Some _ =>
    _ <- py_modify (menuitem_delete pk) ;;
    py_ret (Resp 204 BEmpty)
  end.

Definition delete_menu_item (pk : Z) : Handler := api_view [IsManager] (delete_menu_item_body pk).

(** The five views, as calls. *)
Inductive MenuCall :=
| MList | MDetail (pk : Z) | MCreate | MUpdate (pk : Z) | MDelete (pk : Z).

Definition run_menu_call `{Validator} (c : MenuCall) : Handler :=
  match c with
  | MList => menu_item_list
  | MDetail pk => menu_item_detail pk
  | MCreate => create_menu_item
  | MUpdate pk => update_menu_item pk
  | MDelete pk => delete_menu_item pk
  end.

(** * Theorems *)

(** ** Rendering *)

Lemma menuitem_repr_ok db i mi :
  is_Some (categories db !! MenuItem.category mi) -> exists j, menuitem_repr db i mi = PyOk j.
Proof. intros [c Hc]. unfold menuitem_repr, fetch. simpl. rewrite Hc. simpl. eauto. Qed.

(** On a well-formed database the whole menu renders, one entry per item. *)
Lemma render_menu_ok db :
  wf_db db -> exists js, render_menu db = PyOk (JList js) /\ length js = size (menuitems db).
Proof.
  intros Hwf. rewrite <- length_map_to_list. apply ser_data_many_ok; [done|].
  intros [i mi] Hin%list_elem_of_In%elem_of_map_to_list. apply menuitem_repr_ok.
  by apply (wf_menuitem_refs db Hwf i).
Qed.

Lemma ser_data_menuitem db pk mi :
  ser_data MenuItemSerializer menuitem_repr db pk mi = menuitem_repr db pk mi.
Proof. reflexivity. Qed.

Lemma api_view_nil h req db : api_view [] h req db = h req db.
Proof. unfold api_view. by rewrite py_bind_get. Qed.

(** C22: [menu_item_list] answers 200 with one entry per menu item to a
    manager or a delivery-crew member and 403 "Not authorized" to
    everyone else, customers and anonymous callers included (spec
    section 9 flags this as a likely defect); it never writes. *)
Theorem menu_item_list_result req db :
  wf_db db ->
  exists js,
    menu_item_list req db =
      (db, PyOk (if in_group db (req_user req) "manager" || in_group db (req_user req) "delivery-crew"
                 then Resp 200 (BData (JList js)) else Resp 403 (BDetail "Not authorized"))) /\
    length js = size (menuitems db).
Proof.
  intros Hwf. destruct (render_menu_ok db Hwf) as (js & Hjs & Hlen). exists js. split; [|done].
  unfold menu_item_list. rewrite api_view_nil. unfold menu_item_list_body. py_run.
  destruct (in_group db _ "manager"), (in_group db _ "delivery-crew"); simpl;
    rewrite ?Hjs; by py_run.
Qed.

(** C23: [menu_item_detail] looks the item up before it checks the
    caller's groups: a missing item is answered 404 to anyone, anonymous
    callers included, an existing one is rendered for a manager or a
    delivery-crew member and refused with 403 to everyone else; it never
    writes. *)
Theorem menu_item_detail_result pk req db :
  menu_item_detail pk req db =
  (db, match menuitems db !! pk with
       | None => PyOk (Resp 404 (BDetail "Not found"))
       | Some mi =>
         if in_group db (req_user req) "manager" || in_group db (req_user req) "delivery-crew"
         then j <-- menuitem_repr db pk mi ;; PyOk (Resp 200 (BData j))
         else PyOk (Resp 403 (BDetail "Not authorized"))
       end).
Proof.
  unfold menu_item_detail. rewrite api_view_nil. unfold menu_item_detail_body.
  rewrite py_bind_get. destruct (menuitems db !! pk) as [mi|]; [|done].
  destruct (_ || _); [|done]. rewrite ser_data_menuitem.
  destruct (menuitem_repr db pk mi); by py_run.
Qed.

(** ** Writes *)

Definition category_field : DeclaredField := DF "category" (Nested "CategorySerializer") false None.

Lemma category_field_declared : In category_field (sd_declared MenuItemSerializer).
Proof. left. reflexivity. Qed.

Section Writes.
Context `{Validator}.

(** C24: no request to [create_menu_item] changes the database or is
    answered 201: a valid body carries the nested [category] dict, which
    trips the nested-write assertion of [.create()] before any row is
    written. *)
Theorem create_menu_item_preserves_db req db :
  fst (create_menu_item req db) = db /\ http_status (snd (create_menu_item req db)) <> 201%Z.
Proof.
  unfold create_menu_item. rewrite api_view_single.
  destruct (has_permission IsManager db req); [|simpl; by rewrite permission_denied_403].
  unfold create_menu_item_body. py_run.
  destruct (validate MenuItemSerializer false db (req_data req)) as [vd|] eqn:Hv; py_run; [|done].
  destruct (validate_nested_present _ _ _ _ category_field menuitem_serializer_class Hv category_field_declared eq_refl)
    as [kvs Hk].
  rewrite (nested_write_check_raise _ _ _ category_field kvs category_field_declared eq_refl Hk).
  by py_run.
Qed.

(** A partial update's nested-write check: it fails exactly when the
    validated data carry [category]. *)
Lemma update_nested_check db d vd :
  validate MenuItemSerializer true db d = Some vd ->
  nested_write_check "update" MenuItemSerializer vd =
  match vd !! "category" with Some _ => PyRaise (nested_write_error "update") | None => PyOk tt end.
Proof.
  intros Hv. destruct (vd !! "category") as [v|] eqn:Hc.
  - destruct (validate_nested_dict _ _ _ _ _ category_field v menuitem_serializer_class Hv category_field_declared eq_refl Hc)
      as [kvs ->].
    exact (nested_write_check_raise _ _ _ category_field kvs category_field_declared eq_refl Hc).
  - apply nested_write_check_ok. intros f [<-|[]] _. done.
Qed.

(** C25: [update_menu_item] by a manager on an existing item whose body
    validates: with [category] in the validated data it raises the
    nested-write assertion of [.update()] and writes nothing; otherwise
    it stores the item with the validated title, price and featured
    flag (its category kept) and answers 200 with the item rendered
    from the updated database. *)
Theorem update_menu_item_result pk req db mi vd :
  has_permission IsManager db req = true -> menuitems db !! pk = Some mi ->
  validate MenuItemSerializer true db (req_data req) = Some vd ->
  update_menu_item pk req db =
  match vd !! "category" with
  | Some _ => (db, PyRaise (nested_write_error "update"))
  | None =>
    match menuitem_update_validated mi vd with
    | PyOk mi' =>
      let db' := set_menuitems (<[pk := mi']>) db in
      (db', j <-- menuitem_repr db' pk mi' ;; PyOk (Resp 200 (BData j)))
    | PyRaise e => (db, PyRaise e)
    end
  end.
Proof.
  intros Hperm Hmi Hv. unfold update_menu_item. rewrite api_view_single, Hperm.
  unfold update_menu_item_body. rewrite py_bind_get, Hmi. py_run. rewrite Hv.
  rewrite (update_nested_check _ _ _ Hv). destruct (vd !! "category"); py_run; [done|].
  destruct (menuitem_update_validated mi vd) as [mi'|e]; py_run; [|done].
  destruct (fetch "Category" (categories db) (MenuItem.category mi')); by py_run.
Qed.
End Writes.

(** C27: [delete_menu_item] by a manager on an existing item deletes it
    and, by the CASCADE of [Cart.menuitem] and [OrderItem.menuitem], every
    cart line and every order item that refers to it, keeping all other
    rows, and answers 204: order lines of past orders disappear with the
    menu item. *)
Theorem delete_menu_item_cascade pk req db :
  has_permission IsManager db req = true -> is_Some (menuitems db !! pk) ->
  delete_menu_item pk req db = (menuitem_delete pk db, PyOk (Resp 204 BEmpty)) /\
  menuitems (menuitem_delete pk db) = delete pk (menuitems db) /\
  (forall i c, carts (menuitem_delete pk db) !! i = Some c <->
               carts db !! i = Some c /\ Cart.menuitem c <> pk) /\
  (forall i x, orderitems (menuitem_delete pk db) !! i = Some x <->
               orderitems db !! i = Some x /\ OrderItem.menuitem x <> pk).
Proof.
  intros Hperm [mi Hmi]. split; [|split; [done|split]].
  - unfold delete_menu_item. rewrite api_view_single, Hperm.
    unfold delete_menu_item_body. rewrite py_bind_get, Hmi. by py_run.
  - intros i c. simpl. apply map_lookup_filter_Some.
  - intros i x. simpl. apply map_lookup_filter_Some.
Qed.

(** ** The catalog views as steps on the database *)

(** What a catalog view can do to the database: nothing, rewrite the
    fields of an existing item other than its category (its price then
    being a validated price or the old one), or delete an item with its
    cascade. *)
Inductive menu_effect (db : Db) : Db -> Prop :=
| ME_none : menu_effect db db
| ME_update pk mi mi' :
    menuitems db !! pk = Some mi -> MenuItem.category mi' = MenuItem.category mi ->
    decimal_fits 6 (MenuItem.price mi') = true \/ MenuItem.price mi' = MenuItem.price mi ->
    menu_effect db (set_menuitems (<[pk := mi']>) db)
| ME_delete pk : menu_effect db (menuitem_delete pk db).

Lemma menuitem_update_validated_spec mi vd mi' :
  menuitem_update_validated mi vd = PyOk mi' ->
  MenuItem.category mi' = MenuItem.category mi /\
  (MenuItem.price mi' = MenuItem.price mi \/ vd !! "price" = Some (VInt (MenuItem.price mi'))).
Proof.
  unfold menuitem_update_validated.
  destruct (match vd !! "featured" with
            | Some v => bool_to_python v | None => PyOk (MenuItem.featured mi) end); simpl;
    [|discriminate].
  intros [= <-]. simpl. split; [done|]. unfold dict_get.
  destruct (vd !! "price") as [[]|]; auto.
Qed.

Lemma menu_item_list_db req db : fst (menu_item_list req db) = db.
Proof.
  unfold menu_item_list. rewrite api_view_nil. unfold menu_item_list_body. py_run.
  repeat (case_match; py_run); try py_split; by py_run.
Qed.

Lemma menu_item_detail_db pk req db : fst (menu_item_detail pk req db) = db.
Proof.
  unfold menu_item_detail. rewrite api_view_nil. unfold menu_item_detail_body.
  rewrite py_bind_get. repeat case_match; py_run; try py_split; by py_run.
Qed.

Lemma delete_menu_item_db pk req db :
  fst (delete_menu_item pk req db) = db \/ fst (delete_menu_item pk req db) = menuitem_delete pk db.
Proof.
  unfold delete_menu_item. rewrite api_view_single. destruct (has_permission _ _ _); [|by left].
  unfold delete_menu_item_body. rewrite py_bind_get. destruct (menuitems db !! pk); py_run; auto.
Qed.

Section Effects.
Context `{Validator}.

Lemma create_menu_item_db req db : fst (create_menu_item req db) = db.
Proof.
  unfold create_menu_item. rewrite api_view_single. destruct (has_permission _ _ _); [|done].
  unfold create_menu_item_body. py_run.
  destruct (validate MenuItemSerializer false db (req_data req)); py_run; [|done].
  by destruct (nested_write_check _ _ _); py_run.
Qed.

Lemma update_menu_item_effect pk req db : menu_effect db (fst (update_menu_item pk req db)).
Proof.
  unfold update_menu_item. rewrite api_view_single. destruct (has_permission _ _ _); [|constructor].
  unfold update_menu_item_body. rewrite py_bind_get.
  destruct (menuitems db !! pk) as [mi|] eqn:Hmi; py_run; [|constructor].
  destruct (validate MenuItemSerializer true db (req_data req)) as [vd|] eqn:Hv; py_run; [|constructor].
  destruct (nested_write_check _ _ _); py_run; [|constructor].
  destruct (menuitem_update_validated mi vd) as [mi'|] eqn:Hu; py_run; [|constructor].
  replace (fst _) with (set_menuitems (<[pk := mi']>) db) by (by py_split; py_run).
  destruct (menuitem_update_validated_spec _ _ _ Hu) as [Hc [Hp | Hp]];
    econstructor; eauto.
  left. eapply (validate_decimal_fits MenuItemSerializer); [exact menuitem_serializer_class | exact Hv | left; reflexivity | exact Hp].
Qed.

Lemma run_menu_call_effect c req db : menu_effect db (fst (run_menu_call c req db)).
Proof.
  destruct c; cbn [run_menu_call].
  - rewrite menu_item_list_db. constructor.
  - rewrite menu_item_detail_db. constructor.
  - rewrite create_menu_item_db. constructor.
  - apply update_menu_item_effect.
  - destruct (delete_menu_item_db pk req db) as [-> | ->]; constructor.
Qed.
End Effects.

(** Rewriting an item without changing its category keeps [wf_db]. *)
Lemma wf_set_menuitems_update db pk mi mi' :
  wf_db db -> menuitems db !! pk = Some mi -> MenuItem.category mi' = MenuItem.category mi ->
  wf_db (set_menuitems (<[pk := mi']>) db).
Proof.
  intros [Hr Hu Hs Or Os Ir Iu Is Mr G] Hmi Hc; split; simpl; eauto.
  - intros i c Hi. destruct (Hr i c Hi). split; [done|]. apply lookup_insert_is_Some'. auto.
  - intros i x Hi. destruct (Ir i x Hi). split; [done|]. apply lookup_insert_is_Some'. auto.
  - intros i m Hi. apply lookup_insert_Some in Hi as [[<- <-]|[_ Hi]]; [rewrite Hc|]; eauto.
Qed.

Lemma menu_effect_wf db db' : menu_effect db db' -> wf_db db -> wf_db db'.
Proof.
  intros [| pk mi mi' Hmi Hc _ | pk] Hwf; eauto using wf_set_menuitems_update with ll.
Qed.

Lemma map_Forall_filter_sub {A} (P : Z -> A -> Prop) (Q : Z * A -> Prop) `{!forall x, Decision (Q x)} (m : gmap Z A) :
  map_Forall P m -> map_Forall P (filter Q m).
Proof. intros HP i x (Hi & _)%map_lookup_filter_Some. by apply HP. Qed.

Lemma menu_effect_fit db db' : menu_effect db db' -> decimals_fit db -> decimals_fit db'.
Proof.
  intros [| pk mi mi' Hmi _ Hp | pk] (Hm & Hc & Ho & Hx); [done| |].
  - repeat split; simpl; try done. apply map_Forall_insert_2; [|done].
    destruct Hp as [Hp | ->]; [done|]. exact (Hm pk mi Hmi).
  - repeat split; simpl; try done; try by apply map_Forall_filter_sub.
    by apply map_Forall_delete.
Qed.

(** Every catalog view keeps the referential invariant [wf_db]:
    an update keeps the item's category, and a deletion takes the cart
    lines and order items of the item with it. *)
Theorem menu_call_preserves_wf `{Validator} c req db :
  wf_db db -> wf_db (fst (run_menu_call c req db)).
Proof. apply menu_effect_wf, run_menu_call_effect. Qed.

(** Every catalog view keeps every stored decimal within the
    [max_digits] of its field ([decimals_fit]): the only decimal a
    catalog view writes is a menu item's price, and it comes from
    validated data, which [MenuItemSerializer]'s [DecimalField] bounds. *)
Theorem menu_call_keeps_decimals_fit `{Validator} c req db :
  decimals_fit db -> decimals_fit (fst (run_menu_call c req db)).
Proof. apply menu_effect_fit, run_menu_call_effect. Qed.

(** * Witnesses

    Manager 1 of [demo_db] edits and deletes the Pasta (item 1), which
    customer 3 has in the cart. *)

Lemma menu_item_list_result_witness :
  exists js,
    menu_item_list (demo_req 2 ∅) demo_db =
      (demo_db, PyOk (if in_group demo_db (Authenticated 2) "manager" ||
                         in_group demo_db (Authenticated 2) "delivery-crew"
                      then Resp 200 (BData (JList js)) else Resp 403 (BDetail "Not authorized"))) /\
    length js = size (menuitems demo_db).
Proof. apply menu_item_list_result. exact demo_db_wf. Defined.

Lemma update_menu_item_result_witness :
  let req := demo_req 1 {["price" := VInt 1000; "title" := VStr "Penne"]} in
  update_menu_item 1 req demo_db =
  match ({["price" := VInt 1000; "title" := VStr "Penne"]} : Dict) !! "category" with
  | Some _ => (demo_db, PyRaise (nested_write_error "update"))
  | None =>
    match menuitem_update_validated (MenuItem.mk "Pasta" 950 false 1)
            {["price" := VInt 1000; "title" := VStr "Penne"]} with
    | PyOk mi' =>
      let db' := set_menuitems (<[1 := mi']>) demo_db in
      (db', j <-- menuitem_repr db' 1 mi' ;; PyOk (Resp 200 (BData j)))
    | PyRaise e => (demo_db, PyRaise e)
    end
  end.
Proof. apply update_menu_item_result; concrete. Defined.

Lemma delete_menu_item_cascade_witness :
  delete_menu_item 1 (demo_req 1 ∅) demo_db = (menuitem_delete 1 demo_db, PyOk (Resp 204 BEmpty)) /\
  menuitems (menuitem_delete 1 demo_db) = delete 1 (menuitems demo_db) /\
  (forall i c, carts (menuitem_delete 1 demo_db) !! i = Some c <->
               carts demo_db !! i = Some c /\ Cart.menuitem c <> 1%Z) /\
  (forall i x, orderitems (menuitem_delete 1 demo_db) !! i = Some x <->
               orderitems demo_db !! i = Some x /\ OrderItem.menuitem x <> 1%Z).
Proof. apply delete_menu_item_cascade; concrete. Defined.




