(* ===== verification/Urls.v ===== *)
(** * Urls: the routing table of [urls.py]

    [urlpatterns] is the list of [path(route, view, name=...)] entries of
    the source, routes as the source writes them.  Django turns a route
    into a regular expression ([django.urls.resolvers._route_to_regex]):
    the text between [<...>] becomes a converter group, the rest is
    matched literally, and an endpoint is anchored at both ends.
    [parse_route] is that segmentation, [match_segs] the match of the
    resulting pattern against a path (an [int] converter is [[0-9]+],
    its value [int(text)]), [resolve] the first pattern that matches, as
    [URLResolver.resolve] tries them in order, and [reverse] the inverse
    direction ([str] of each value substituted into the route, refused
    when the result would not match, as for a negative number).

    Paths are those the app sees, after the project's [include] prefix
    (the project [urls.py] is not part of the sources).

    The theorems: every pattern's route splits into literals and [int]
    converters of the expected shape; no path matches two patterns, so
    the order of [urlpatterns] does not matter; and [resolve] inverts
    [reverse] on every name and every non-negative argument. *)

From Stdlib Require Import ZArith String List Ascii.
From stdpp Require Import base list strings.
From S2P Require Import Prelude PyStr.
Open Scope py_scope.

(** ** The table *)

(** The views [urls.py] imports from [views.py] (lines 4-9). *)
Inductive ViewName :=
| VMenuItemList | VMenuItemDetail | VCreateMenuItem | VUpdateMenuItem | VDeleteMenuItem
| VManagerList | VAssignManager | VRemoveManager
| VDeliveryCrewList | VAssignDeliveryCrew | VRemoveDeliveryCrew
| VCartList | VAddToCart | VClearCart
| VOrderList | VCreateOrder | VOrderDetail | VUpdateOrder | VDeleteOrder
| VDeliveryCrewOrders | VUpdateOrderStatus.

#[export] Instance ViewName_eq_dec : EqDecision ViewName.
Proof. solve_decision. Defined.

Record UrlPattern := Path { up_route : string; up_view : ViewName; up_name : string }.

Definition urlpatterns : list UrlPattern := [
  Path "menu-items/" VMenuItemList "menu-item-list";
  Path "menu-items/<int:pk>/" VMenuItemDetail "menu-item-detail";
  Path "menu-items/create/" VCreateMenuItem "create-menu-item";
  Path "menu-items/<int:pk>/update/" VUpdateMenuItem "update-menu-item";
  Path "menu-items/<int:pk>/delete/" VDeleteMenuItem "delete-menu-item";
  Path "groups/manager/users/" VManagerList "manager-list";
  Path "groups/manager/users/assign/" VAssignManager "assign-manager";
  Path "groups/manager/users/<int:user_id>/remove/" VRemoveManager "remove-manager";
  Path "groups/delivery-crew/users/" VDeliveryCrewList "delivery-crew-list";
  Path "groups/delivery-crew/users/assign/" VAssignDeliveryCrew "assign-delivery-crew";
  Path "groups/delivery-crew/users/<int:user_id>/remove/" VRemoveDeliveryCrew "remove-delivery-crew";
  Path "cart/menu-items/" VCartList "cart-list";
  Path "cart/menu-items/add/" VAddToCart "add-to-cart";
  Path "cart/menu-items/clear/" VClearCart "clear-cart";
  Path "orders/" VOrderList "order-list";
  Path "orders/create/" VCreateOrder "create-order";
  Path "orders/<int:pk>/" VOrderDetail "order-detail";
  Path "orders/<int:pk>/update/" VUpdateOrder "update-order";
  Path "orders/<int:pk>/delete/" VDeleteOrder "delete-order";
  Path "orders/delivery-crew/" VDeliveryCrewOrders "delivery-crew-orders";
  Path "orders/<int:pk>/status/" VUpdateOrderStatus "update-order-status"
].

(** ** Routes *)

Inductive RouteSeg := RLit (s : string) | RConv (converter parameter : string).

(** The regular expression [<(?:(?P<converter>[^>:]+):)?(?P<parameter>[^>]+)>]
    on the text between the brackets: a converter is named only when a
    non-empty name precedes the first colon and something follows it. *)
Fixpoint split_colon (s : string) : option (string * string) :=
  match s with
  | EmptyString => None
  | String c s' =>
    if Ascii.eqb c ":" then Some (EmptyString, s')
    else (fun '(a, b) => (String c a, b)) <$> split_colon s'
  end.

Definition converter_and_parameter (content : string) : string * string :=
  match split_colon content with
  | Some (cv, prm) => if negb (String.eqb cv "") && negb (String.eqb prm "") then (cv, prm)
                      else ("str", content)
  | None => ("str", content)
  end.

Definition lit_seg (l : string) : list RouteSeg := if String.eqb l "" then [] else [RLit l].

(** [_route_to_regex], one character at a time: [angle] holds the text
    read since an opening bracket.  A bracket pair with nothing inside,
    or an opening bracket never closed, is literal text. *)
Fixpoint parse_route_go (s lit : string) (angle : option string) : list RouteSeg :=
  match s, angle with
  | EmptyString, None => lit_seg lit
  | EmptyString, Some cnt => lit_seg (lit +:+ "<" +:+ cnt)
  | String c s', None =>
    if Ascii.eqb c "<" then parse_route_go s' lit (Some "")
    else parse_route_go s' (lit +:+ String c "") None
  | String c s', Some cnt =>
    if Ascii.eqb c ">" then
      if String.eqb cnt "" then parse_route_go s' (lit +:+ "<>") None
      else let '(cv, prm) := converter_and_parameter cnt in
           lit_seg lit ++ RConv cv prm :: parse_route_go s' "" None
    else parse_route_go s' lit (Some (cnt +:+ String c ""))
  end.

Definition parse_route (route : string) : list RouteSeg := parse_route_go route "" None.

(** ** Matching *)

(** [s] without the prefix [p], if it starts with it. *)
Fixpoint strip_prefix (p s : string) : option string :=
  match p, s with
  | EmptyString, _ => Some s
  | String a p', String b s' => if Ascii.eqb a b then strip_prefix p' s' else None
  | String _ _, EmptyString => None
  end.

(** The keyword arguments a match passes to the view, in route order. *)
Abbreviation Kwargs := (list (string * Z)).

(** The anchored pattern against a path: literals match themselves, an
    [int] converter the longest run of digits ([[0-9]+] is greedy, and
    backtracking cannot help when the next literal does not start with
    a digit, which [segs_ok] checks for every route), converted
    by [int()]; the pattern must consume the whole path.  Only the [int]
    converter occurs in [urls.py]. *)
Fixpoint match_segs (segs : list RouteSeg) (s : string) : option Kwargs :=
  match segs with
  | [] => if String.eqb s "" then Some [] else None
  | RLit l :: segs' => strip_prefix l s ≫= match_segs segs'
  | RConv cv prm :: segs' =>
    if String.eqb cv "int" then
      let '(d, r) := span_digits s in
      if String.eqb d "" then None
      else n ← digits_value d; kw ← match_segs segs' r; Some ((prm, n) :: kw)
    else None
  end.

(** [URLResolver.resolve] over the app's patterns: the first match. *)
Fixpoint resolve_in (ps : list UrlPattern) (path : string) : option (ViewName * Kwargs) :=
  match ps with
  | [] => None
  | p :: ps' =>
    match match_segs (parse_route (up_route p)) path with
    | Some kw => Some (up_view p, kw)
    | None => resolve_in ps' path
    end
  end.

Definition resolve (path : string) : option (ViewName * Kwargs) := resolve_in urlpatterns path.

(** ** Reversing *)

Definition route_params (segs : list RouteSeg) : list string :=
  omap (fun sg => match sg with RConv _ p => Some p | RLit _ => None end) segs.

Fixpoint kw_lookup (k : string) (kw : Kwargs) : option Z :=
  match kw with
  | [] => None
  | (k', v) :: kw' => if String.eqb k k' then Some v else kw_lookup k kw'
  end.

(** The candidate path: [str(value)] of each argument in its converter's
    place, refused when it would not match [[0-9]+]. *)
Fixpoint render (segs : list RouteSeg) (kw : Kwargs) : option string :=
  match segs with
  | [] => Some ""
  | RLit l :: segs' => (fun r => l +:+ r) <$> render segs' kw
  | RConv _ p :: segs' =>
    n ← kw_lookup p kw;
    if Z.leb 0 n then (fun r => py_str_of_nat n +:+ r) <$> render segs' kw else None
  end.

(** [reverse(name, kwargs=kw)]: the pattern of that name, provided the
    arguments name exactly its parameters. *)
Definition reverse (name : string) (kw : Kwargs) : option string :=
  p ← find (fun p => String.eqb (up_name p) name) urlpatterns;
  let segs := parse_route (up_route p) in
  let params := route_params segs in
  if forallb (fun q => bool_decide (q ∈ fst <$> kw)) params &&
     forallb (fun kv => bool_decide (kv.1 ∈ params)) kw
  then render segs kw else None.

(** ** Well-formed routes *)

Definition no_digits (l : string) : bool := forallb (fun c => negb (is_digit c)) (list_ascii_of_string l).

(** Literals are non-empty and hold no digit, every converter is [int]
    and follows a literal. *)
Fixpoint segs_ok (prev_conv : bool) (segs : list RouteSeg) : bool :=
  match segs with
  | [] => true
  | RLit l :: r => negb (String.eqb l "") && no_digits l && segs_ok false r
  | RConv cv _ :: r => negb prev_conv && String.eqb cv "int" && segs_ok true r
  end.

(** ** Skeletons: each run of digits of a path replaced by one [#] *)

Fixpoint skel (in_digits : bool) (s : string) : string :=
  match s with
  | EmptyString => EmptyString
  | String c s' =>
    if is_digit c then (if in_digits then skel true s' else String "#" (skel true s'))
    else String c (skel false s')
  end.

Fixpoint route_skel (segs : list RouteSeg) : string :=
  match segs with
  | [] => EmptyString
  | RLit l :: r => l +:+ route_skel r
  | RConv _ _ :: r => "#" +:+ route_skel r
  end.

(** * Theorems *)

(** ** Strings *)

Lemma strip_prefix_Some p s r : strip_prefix p s = Some r -> s = (p +:+ r)%string.
Proof.
  revert s. induction p as [|a p IH]; intros [|b s] H; simpl in H.
  - by injection H as <-.
  - by injection H as <-.
  - discriminate.
  - destruct (Ascii.eqb_spec a b) as [->|]; [|discriminate].
    rewrite string_append_cons. by rewrite (IH s H).
Qed.

Lemma strip_prefix_app p r : strip_prefix p (p +:+ r) = Some r.
Proof. induction p as [|a p IH]; [done|]. rewrite string_append_cons. simpl. by rewrite Ascii.eqb_refl. Qed.

Lemma skel_lit b l s :
  l <> ""%string -> no_digits l = true -> skel b (l +:+ s) = (l +:+ skel false s)%string.
Proof.
  revert b. induction l as [|c l IH]; intros b Hne Hl; [done|].
  unfold no_digits in Hl. simpl in Hl. apply andb_true_iff in Hl as [Hc Hl].
  rewrite string_append_cons. simpl. apply negb_true_iff in Hc. rewrite Hc.
  rewrite string_append_cons. f_equal. destruct l as [|c' l'].
  - reflexivity.
  - apply IH; [discriminate | exact Hl].
Qed.

Lemma skel_digits b d s :
  Forall (fun c => is_digit c = true) (list_ascii_of_string d) ->
  skel b (d +:+ s) = if String.eqb d "" then skel b s
                     else ((if b then "" else "#") +:+ skel true s)%string.
Proof.
  revert b. induction d as [|c d IH]; intros b Hd; [done|].
  apply Forall_cons in Hd as [Hc Hd]. rewrite string_append_cons. simpl. rewrite Hc.
  rewrite (IH true Hd). destruct b, (String.eqb d ""); reflexivity.
Qed.

Lemma span_digits_spec s :
  s = ((span_digits s).1 +:+ (span_digits s).2)%string /\
  Forall (fun c => is_digit c = true) (list_ascii_of_string (span_digits s).1) /\
  skel true (span_digits s).2 = skel false (span_digits s).2.
Proof.
  induction s as [|c s (IH1 & IH2 & IH3)]; [repeat constructor|].
  simpl. destruct (is_digit c) eqn:Hc.
  - destruct (span_digits s) as [d r]. simpl in *. rewrite string_append_cons.
    split; [by f_equal|]. split; [by constructor|done].
  - simpl. repeat split; [constructor|]. by rewrite Hc.
Qed.

Lemma segs_ok_weaken segs : segs_ok true segs = true -> segs_ok false segs = true.
Proof. by destruct segs as [|[]]. Qed.

(** A match fixes the skeleton of the path: it is the route's. *)
Lemma match_segs_skel segs s kw :
  segs_ok false segs = true -> match_segs segs s = Some kw -> skel false s = route_skel segs.
Proof.
  revert s kw. induction segs as [|[l|cv prm] segs IH]; intros s kw Hok Hm; simpl in *.
  - destruct (String.eqb_spec s ""); [by subst|discriminate].
  - apply andb_true_iff in Hok as [[Hne%negb_true_iff Hl]%andb_true_iff Hok].
    destruct (strip_prefix l s) as [r|] eqn:Hp; [|discriminate]. simpl in Hm.
    apply strip_prefix_Some in Hp as ->. rewrite skel_lit by (by apply String.eqb_neq || done).
    f_equal. eauto.
  - apply andb_true_iff in Hok as [_ Hok].
    destruct (String.eqb cv "int"); [|discriminate].
    destruct (span_digits_spec s) as (Hs & Hd & Ht).
    destruct (span_digits s) as [d r]. simpl in *.
    destruct (String.eqb_spec d ""); [discriminate|].
    destruct (digits_value d); [|discriminate]. simpl in Hm.
    destruct (match_segs segs r) as [kw'|] eqn:Hm'; [|discriminate].
    rewrite Hs, skel_digits by done. apply String.eqb_neq in n. rewrite n.
    simpl. rewrite Ht. f_equal. eauto using segs_ok_weaken.
Qed.

Lemma render_head segs kw s :
  segs_ok true segs = true -> render segs kw = Some s ->
  s = ""%string \/ exists c s', s = String c s' /\ is_digit c = false.
Proof.
  destruct segs as [|[l|cv prm] segs]; simpl.
  - intros _ [= <-]. by left.
  - intros [[Hne%negb_true_iff Hl]%andb_true_iff _]%andb_true_iff Hr.
    destruct (render segs kw) as [r|]; [|discriminate]. injection Hr as <-. right.
    destruct l as [|c l]; [discriminate|]. exists c, (l +:+ r)%string.
    rewrite string_append_cons. unfold no_digits in Hl. simpl in Hl.
    apply andb_true_iff in Hl as [Hc _]. by apply negb_true_iff in Hc.
  - discriminate.
Qed.

Lemma span_digits_str_before n s :
  (s = ""%string \/ exists c s', s = String c s' /\ is_digit c = false) ->
  span_digits (py_str_of_nat n +:+ s) = (py_str_of_nat n, s).
Proof.
  intros [-> | (c & s' & -> & Hc)].
  - rewrite string_append_nil_r. apply span_digits_str_end.
  - by apply span_digits_str.
Qed.

(** Rendering a well-formed route with arguments for exactly its
    parameters, in route order and non-negative, gives a path the route
    matches with the same arguments. *)
Lemma render_match segs b kw0 kw :
  segs_ok b segs = true -> NoDup (route_params segs) -> fst <$> kw = route_params segs ->
  Forall (fun kv => 0 <= kv.2)%Z kw ->
  (forall k, k ∈ route_params segs -> kw_lookup k kw0 = kw_lookup k kw) ->
  exists s, render segs kw0 = Some s /\ match_segs segs s = Some kw.
Proof.
  revert b kw. induction segs as [|[l|cv prm] segs IH]; intros b kw Hok Hnd Hkw Hpos Hlk; simpl in *.
  - destruct kw; [|discriminate]. by exists ""%string.
  - apply andb_true_iff in Hok as [_ Hok].
    destruct (IH false kw Hok Hnd Hkw Hpos Hlk) as (s & Hr & Hm).
    exists (l +:+ s)%string. rewrite Hr. simpl. split; [done|].
    by rewrite strip_prefix_app.
  - apply andb_true_iff in Hok as [[_ Hcv]%andb_true_iff Hok].
    apply String.eqb_eq in Hcv as ->.
    destruct kw as [|[k n] kw']; [discriminate|]. simpl in Hkw. injection Hkw as -> Hkw.
    apply Forall_cons in Hpos as [Hn Hpos]. apply NoDup_cons in Hnd as [Hnin Hnd].
    assert (Hlk' : forall k, k ∈ route_params segs -> kw_lookup k kw0 = kw_lookup k kw').
    { intros k Hk. rewrite Hlk by (by right). simpl.
      destruct (String.eqb_spec k prm) as [->|]; [contradiction|done]. }
    destruct (IH true kw' Hok Hnd Hkw Hpos Hlk') as (s & Hr & Hm).
    rewrite (Hlk prm) by left. simpl. rewrite String.eqb_refl. simpl.
    simpl in Hn. rewrite (proj2 (Z.leb_le 0 n) Hn), Hr. simpl.
    exists (py_str_of_nat n +:+ s)%string. split; [done|].
    rewrite span_digits_str_before by (eapply render_head; [apply Hok|apply Hr]).
    destruct (String.eqb_spec (py_str_of_nat n) ""); [by apply py_str_of_nat_nonempty in e|].
    rewrite digits_value_str by exact Hn. simpl. by rewrite Hm.
Qed.

(** ** Facts of the table, by evaluation *)

Lemma urlpatterns_segs_ok :
  Forall (fun p => segs_ok false (parse_route (up_route p)) = true /\
                   NoDup (route_params (parse_route (up_route p)))) urlpatterns.
Proof. apply (bool_decide_unpack _). vm_compute. exact I. Qed.

Lemma urlpatterns_skel_nodup :
  NoDup ((fun p => route_skel (parse_route (up_route p))) <$> urlpatterns).
Proof. apply (bool_decide_unpack _). vm_compute. exact I. Qed.

Lemma urlpatterns_names_nodup : NoDup (up_name <$> urlpatterns).
Proof. apply (bool_decide_unpack _). vm_compute. exact I. Qed.

Lemma urlpatterns_lookup_ok i p :
  urlpatterns !! i = Some p ->
  segs_ok false (parse_route (up_route p)) = true /\ NoDup (route_params (parse_route (up_route p))).
Proof.
  intros Hi. pose proof urlpatterns_segs_ok as H. rewrite Forall_lookup in H. eauto.
Qed.

(** ** Resolution *)

(** No path matches two entries of [urlpatterns]: matching fixes the
    path's skeleton, and the skeletons of the routes are distinct. *)
Lemma urlpatterns_match_unique i j p q path kw1 kw2 :
  urlpatterns !! i = Some p -> urlpatterns !! j = Some q ->
  match_segs (parse_route (up_route p)) path = Some kw1 ->
  match_segs (parse_route (up_route q)) path = Some kw2 ->
  i = j.
Proof.
  intros Hi Hj Hp Hq.
  apply (NoDup_lookup _ _ _ (route_skel (parse_route (up_route p))) urlpatterns_skel_nodup).
  - by rewrite list_lookup_fmap, Hi.
  - rewrite list_lookup_fmap, Hj. simpl. f_equal.
    rewrite <- (match_segs_skel _ _ _ (proj1 (urlpatterns_lookup_ok _ _ Hi)) Hp).
    by rewrite <- (match_segs_skel _ _ _ (proj1 (urlpatterns_lookup_ok _ _ Hj)) Hq).
Qed.

(** [resolve_in] finds a matching pattern when no earlier one matches. *)
Lemma resolve_in_unique ps i p path kw :
  ps !! i = Some p -> match_segs (parse_route (up_route p)) path = Some kw ->
  (forall j q kw', (j < i)%nat -> ps !! j = Some q ->
     match_segs (parse_route (up_route q)) path <> Some kw') ->
  resolve_in ps path = Some (up_view p, kw).
Proof.
  revert i. induction ps as [|p0 ps IH]; intros i Hi Hm Hearlier; [done|].
  destruct i as [|i]; simpl in Hi.
  - injection Hi as ->. simpl. by rewrite Hm.
  - simpl. destruct (match_segs (parse_route (up_route p0)) path) as [kw0|] eqn:E.
    + exfalso. apply (Hearlier 0%nat p0 kw0); [lia|done|done].
    + apply (IH i); [done|done|]. intros j q kw' Hj Hq. apply (Hearlier (S j)); [lia|done].
Qed.

Lemma find_name ps i p :
  NoDup (up_name <$> ps) -> ps !! i = Some p ->
  find (fun q => String.eqb (up_name q) (up_name p)) ps = Some p.
Proof.
  revert i. induction ps as [|q ps IH]; intros i Hnd Hi; [done|].
  simpl in Hnd. apply NoDup_cons in Hnd as [Hnin Hnd]. simpl.
  destruct (String.eqb_spec (up_name q) (up_name p)) as [E|E].
  - destruct i as [|i]; simpl in Hi; [by injection Hi as ->|].
    exfalso. apply Hnin. rewrite E. apply list_elem_of_fmap. exists p. split; [done|].
    by eapply list_elem_of_lookup_2.
  - destruct i as [|i]; simpl in Hi; [by injection Hi as ->|]. eauto.
Qed.

(** The path [render] builds from an entry of [urlpatterns] and
    non-negative arguments for its parameters resolves to that entry's
    view with those arguments. *)
Lemma render_resolve i p kw :
  urlpatterns !! i = Some p ->
  fst <$> kw = route_params (parse_route (up_route p)) -> Forall (fun kv => 0 <= kv.2)%Z kw ->
  exists path, render (parse_route (up_route p)) kw = Some path /\ resolve path = Some (up_view p, kw).
Proof.
  intros Hi Hkw Hpos. destruct (urlpatterns_lookup_ok _ _ Hi) as [Hok Hnd].
  destruct (render_match _ false kw kw Hok Hnd Hkw Hpos (fun _ _ => eq_refl)) as (path & Hr & Hm).
  exists path. split; [done|]. apply (resolve_in_unique _ i); [done|done|].
  intros j q kw' Hj Hq Hm'. pose proof (urlpatterns_match_unique _ _ _ _ _ _ _ Hi Hq Hm Hm'). lia.
Qed.

(** C30: [resolve] inverts [reverse]: for every entry of [urlpatterns]
    and arguments naming exactly its parameters (in route order) with
    non-negative values, [reverse] by the entry's name gives a path, and
    resolving that path selects the entry's view with the same
    arguments. *)
Theorem reverse_resolve_roundtrip i p kw :
  urlpatterns !! i = Some p ->
  fst <$> kw = route_params (parse_route (up_route p)) -> Forall (fun kv => 0 <= kv.2)%Z kw ->
  exists path, reverse (up_name p) kw = Some path /\ resolve path = Some (up_view p, kw).
Proof.
  intros Hi Hkw Hpos. destruct (urlpatterns_lookup_ok _ _ Hi) as [Hok Hnd].
  destruct (render_match _ false kw kw Hok Hnd Hkw Hpos (fun _ _ => eq_refl)) as (path & Hr & Hm).
  exists path. split.
  - unfold reverse. rewrite (find_name _ i p urlpatterns_names_nodup Hi). simpl.
    rewrite Hr. replace (forallb _ _ && forallb _ _) with true; [done|]. symmetry.
    apply andb_true_iff. rewrite !forallb_forall. rewrite Hkw. split.
    + intros q Hq. apply bool_decide_eq_true. by apply list_elem_of_In.
    + intros kv Hin. apply bool_decide_eq_true. rewrite <- Hkw.
      apply list_elem_of_fmap. exists kv. split; [done|]. by apply list_elem_of_In.
  - apply (resolve_in_unique _ i); [done|done|].
    intros j q kw' Hj Hq Hm'. pose proof (urlpatterns_match_unique _ _ _ _ _ _ _ Hi Hq Hm Hm'). lia.
Qed.

(** What [resolve_in] returns is a matching pattern of the list. *)
Lemma resolve_in_sound ps path v kw :
  resolve_in ps path = Some (v, kw) ->
  exists i p, ps !! i = Some p /\ up_view p = v /\ match_segs (parse_route (up_route p)) path = Some kw.
Proof.
  induction ps as [|p ps IH]; simpl; [discriminate|].
  destruct (match_segs _ path) as [kw0|] eqn:E.
  - intros [= <- <-]. by exists 0%nat, p.
  - intros (i & q & Hq & Hv & Hm)%IH. by exists (S i), q.
Qed.

(** C29: [resolve] picks the one entry of [urlpatterns] that matches the
    path, whatever its position: it answers [(v, kw)] exactly when some
    entry for view [v] matches the path with arguments [kw].  No path
    matches two entries (the [int]-converter routes such as
    [menu-items/<int:pk>/] and the literal routes such as
    [menu-items/create/] never compete), so the order of [urlpatterns]
    never decides which view runs. *)
Theorem resolve_spec path v kw :
  resolve path = Some (v, kw) <->
  exists i p, urlpatterns !! i = Some p /\ up_view p = v /\
              match_segs (parse_route (up_route p)) path = Some kw.
Proof.
  split; [apply resolve_in_sound|].
  intros (i & p & Hi & <- & Hm). apply (resolve_in_unique _ i); [done|done|].
  intros j q kw' Hj Hq Hm'. pose proof (urlpatterns_match_unique _ _ _ _ _ _ _ Hi Hq Hm Hm'). lia.
Qed.

(** * Witnesses *)

(** [reverse('order-detail', kwargs={'pk': 5})] and back. *)
Lemma reverse_resolve_roundtrip_witness :
  exists path, reverse "order-detail" [("pk", 5%Z)] = Some path /\
               resolve path = Some (VOrderDetail, [("pk", 5%Z)]).
Proof.
  apply (reverse_resolve_roundtrip 16 (Path "orders/<int:pk>/" VOrderDetail "order-detail"));
    [reflexivity | reflexivity | repeat constructor; simpl; lia].
Defined.

