(* ===== verification/Api.v ===== *)
(** * Api: the whole application, one request at a time

    [dispatch] is what serves a request: [urls.py] resolves the path to
    a view and its keyword arguments ([Urls.resolve]); DRF's
    [APIView.dispatch] then runs [initial()] (the permission classes of
    the view) before it looks the method up among those of
    [@api_view([...])] (405 for another method); the view body runs.  A
    path that does not resolve is Django's 404.  [api_step] relates two
    databases when some request turns the first into the second; the
    theorems hold along every sequence of requests ([rtc api_step]) in
    the namespace [views_globals] of the source.  [returns_in] bounds the
    status codes a handler can produce, composed through [py_bind], so
    that [dispatch] is shown to answer only 200, 201, 204, 400, 403,
    404, 405 or 500.  The progress theorems build the requests that
    reach a state (an order delivered, the orders emptied), and with
    DRF's validation ([Validation.drf_validator]) a cart line priced at
    1 or more is refused with 400. *)

From Stdlib Require Import ZArith String List.
From stdpp Require Import base list strings gmap fin_maps sets relations.
From S2P Require Import Prelude PyStr Models Fixtures Serializers Validation Permissions Orders Cart Groups Menu Urls.
Open Scope py_scope.

(** ** Methods and views *)

(** The methods a request can carry.  OPTIONS, which every DRF view
    answers with metadata about itself, is not modelled. *)
Inductive Method := GET | POST | PUT | PATCH | DELETE | HEAD.

#[export] Instance Method_eq_dec : EqDecision Method.
Proof. solve_decision. Defined.

(** [@api_view([...])] of each view. *)
Definition view_methods (v : ViewName) : list Method :=
  match v with
  | VMenuItemList | VMenuItemDetail | VManagerList | VDeliveryCrewList | VCartList
  | VOrderList | VOrderDetail | VDeliveryCrewOrders => [GET]
  | VCreateMenuItem | VAssignManager | VAssignDeliveryCrew | VAddToCart | VCreateOrder => [POST]
  | VUpdateMenuItem | VUpdateOrder => [PUT; PATCH]
  | VDeleteMenuItem | VRemoveManager | VRemoveDeliveryCrew | VClearCart | VDeleteOrder => [DELETE]
  | VUpdateOrderStatus => [PATCH]
  end.

(** [@permission_classes([...])] of each view. *)
Definition view_perms (v : ViewName) : list Permission :=
  match v with
  | VMenuItemList | VMenuItemDetail => []
  | VCartList | VAddToCart | VClearCart | VOrderList | VCreateOrder | VOrderDetail => [IsAuthenticated]
  | VDeliveryCrewOrders | VUpdateOrderStatus => [IsDeliveryCrew]
  | _ => [IsManager]
  end.

Definition method_name (m : Method) : string :=
  match m with
  | GET => "GET" | POST => "POST" | PUT => "PUT" | PATCH => "PATCH" | DELETE => "DELETE"
  | HEAD => "HEAD"
  end.

Definition dquote : string := String (Ascii.ascii_of_nat 34) EmptyString.

(** [APIView.http_method_not_allowed]: [Method "<m>" not allowed.] *)
Definition method_not_allowed (m : Method) : Response :=
  Resp 405 (BDetail ("Method " +:+ dquote +:+ method_name m +:+ dquote +:+ " not allowed.")).

(** ** Dispatch *)

Section Dispatch.
Context `{Validator}.
(** The namespace the role views run in, and [UserSerializer]'s
    rendering where it is bound (see [Groups]). *)
Variable ns : list string.
Variable user_repr : Z -> User.t -> Json.

(** A view called with the keyword argument [k] of the match. *)
Definition with_kwarg (k : string) (kw : Kwargs) (f : Z -> Handler) : Handler :=
  fun req => match kw_lookup k kw with
             | Some n => f n req
             | None => py_raise (TypeError "missing required argument")
             end.

(** The body of each view of [views.py], given the keyword arguments. *)
Definition view_body (v : ViewName) (kw : Kwargs) : Handler :=
  match v with
  | VMenuItemList => menu_item_list_body
  | VMenuItemDetail => with_kwarg "pk" kw menu_item_detail_body
  | VCreateMenuItem => create_menu_item_body
  | VUpdateMenuItem => with_kwarg "pk" kw update_menu_item_body
  | VDeleteMenuItem => with_kwarg "pk" kw delete_menu_item_body
  | VManagerList => group_list_body ns user_repr "manager"
  | VAssignManager => group_assign_body ns "manager" "User assigned as manager"
  | VRemoveManager =>
    with_kwarg "user_id" kw (group_remove_body ns "manager" "User removed from manager group")
  | VDeliveryCrewList => group_list_body ns user_repr "delivery-crew"
  | VAssignDeliveryCrew => group_assign_body ns "delivery-crew" "User assigned as delivery crew"
  | VRemoveDeliveryCrew =>
    with_kwarg "user_id" kw
      (group_remove_body ns "delivery-crew" "User removed from delivery crew group")
  | VCartList => cart_list_body
  | VAddToCart => add_to_cart_body
  | VClearCart => clear_cart_body
  | VOrderList => order_list_body
  | VCreateOrder => create_order_body
  | VOrderDetail => with_kwarg "pk" kw order_detail_body
  | VUpdateOrder => with_kwarg "pk" kw update_order_body
  | VDeleteOrder => with_kwarg "pk" kw delete_order_body
  | VDeliveryCrewOrders => delivery_crew_orders_body
  | VUpdateOrderStatus => with_kwarg "pk" kw update_order_status_body
  end.

(** [APIView.dispatch] after [initial()]: the handler of the method, or
    [http_method_not_allowed]. *)
Definition method_gate (m : Method) (allowed : list Method) (h : Handler) : Handler :=
  fun req => if bool_decide (m ∈ allowed) then h req else py_ret (method_not_allowed m).

(** Serving a request: resolve, then the view behind its permission
    classes and its method check. *)
Definition dispatch (m : Method) (path : string) : Handler :=
  fun req =>
    match resolve path with
    | None => py_ret (Resp 404 BEmpty)
    | Some (v, kw) => api_view (view_perms v) (method_gate m (view_methods v) (view_body v kw)) req
    end.

(** One request, from any caller, with any body. *)
Definition api_step (db db' : Db) : Prop :=
  exists m path req, db' = fst (dispatch m path req db).
End Dispatch.

(** * Theorems *)

(** ** The gate *)

(** C15: the access-control gate of the application.  A request to a
    view behind [IsManager] from a caller outside the group "manager",
    to a view behind [IsDeliveryCrew] from a caller outside
    "delivery-crew", or to a view behind [IsAuthenticated] from an
    anonymous caller is answered 403 with the database unchanged,
    whatever the method and the body: the permission classes run before
    the method check and before the view reads or writes anything. *)
Theorem gated_views_refuse_outsiders `{Validator} ns user_repr m path v kw req db :
  resolve path = Some (v, kw) ->
  (view_perms v = [IsManager] /\ in_group db (req_user req) "manager" = false) \/
  (view_perms v = [IsDeliveryCrew] /\ in_group db (req_user req) "delivery-crew" = false) \/
  (view_perms v = [IsAuthenticated] /\ req_user req = Anonymous) ->
  dispatch ns user_repr m path req db = (db, PyOk (permission_denied req)).
Proof.
  intros Hr Hout. unfold dispatch. rewrite Hr. apply api_view_deny.
  destruct Hout as [[-> Hg] | [[-> Hg] | [-> Hu]]]; simpl; [by rewrite Hg | by rewrite Hg | by rewrite Hu].
Qed.

Lemma gated_views_refuse_outsiders_witness :
  dispatch (H := presence_validator) views_globals (fun i _ => JInt i) GET "orders/1/delete/"
    (demo_req 3 ∅) demo_db = (demo_db, PyOk (permission_denied (demo_req 3 ∅))).
Proof.
  apply (gated_views_refuse_outsiders _ _ _ _ VDeleteOrder [("pk", 1%Z)]); [reflexivity|].
  left. split; reflexivity.
Defined.

(** ** What one request does to the database *)

(** The ways a request can change the database: an order view's or a
    catalog view's effect, the deletion of a caller's cart lines, or, in
    a namespace that binds [User], the addition of an existing user to
    an existing group or the removal of a membership. *)
Inductive api_effect (ns : list string) (db : Db) : Db -> Prop :=
| AE_order db' : order_effect db db' -> api_effect ns db db'
| AE_menu db' : menu_effect db db' -> api_effect ns db db'
| AE_clear u : api_effect ns db (set_carts (carts_delete_of u) db)
| AE_assign uid g :
    "User" ∈ ns -> is_Some (auth_user db !! uid) -> g ∈ auth_group db ->
    api_effect ns db (set_user_groups (union {[(uid, g)]}) db)
| AE_remove uid g :
    "User" ∈ ns -> api_effect ns db (set_user_groups (fun s => s ∖ {[(uid, g)]}) db).

Lemma api_effect_none ns db : api_effect ns db db.
Proof. apply AE_order. constructor. Qed.

#[local] Hint Resolve api_effect_none : core.

Lemma cart_list_body_db req db : fst (cart_list_body req db) = db.
Proof. unfold cart_list_body. py_run. repeat (py_split; py_run); done. Qed.

Lemma group_assign_effect ns g msg req db :
  api_effect ns db (fst (api_view [IsManager] (group_assign_body ns g msg) req db)).
Proof.
  rewrite group_assign_view_db.
  destruct (_ && _ && _) eqn:E; [|done].
  apply andb_true_iff in E as [[_ Hns%bool_decide_eq_true]%andb_true_iff Hg%bool_decide_eq_true].
  destruct (user_get db _) as [[uid x]|] eqn:Hu; [|done].
  apply AE_assign; [done| |done]. apply user_get_exists in Hu. eauto.
Qed.

Lemma group_remove_effect ns g msg u req db :
  api_effect ns db (fst (api_view [IsManager] (group_remove_body ns g msg u) req db)).
Proof.
  rewrite group_remove_view_db. destruct (_ && _) eqn:E; [|done].
  apply andb_true_iff in E as [[[_ Hns%bool_decide_eq_true]%andb_true_iff _]%andb_true_iff _].
  by apply AE_remove.
Qed.

(** Replace the body run by its view (the permissions passed), then
    close with an effect lemma of that view. *)
Ltac as_view Hp :=
  lazymatch goal with |- api_effect _ _ (fst (?h ?req ?db)) =>
    rewrite <- (api_view_pass _ h req db Hp) end.

Ltac by_eq L :=
  lazymatch type of L with _ = ?rhs =>
    lazymatch goal with |- api_effect _ _ (fst ?x) =>
      replace (fst x) with rhs by (symmetry; exact L) end end.

Ltac unchanged L := by_eq L; apply api_effect_none.

Section Effects.
Context `{Validator}.

Lemma view_body_effect ns user_repr v kw req db :
  check_permissions (view_perms v) db req = None ->
  api_effect ns db (fst (view_body ns user_repr v kw req db)).
Proof.
  intros Hp. destruct v; cbn [view_body]; unfold with_kwarg;
    try (destruct (kw_lookup _ kw) as [n|]; [|done]); as_view Hp.
  - unchanged (menu_item_list_db req db).
  - unchanged (menu_item_detail_db n req db).
  - unchanged (create_menu_item_db req db).
  - apply AE_menu. exact (update_menu_item_effect n req db).
  - destruct (delete_menu_item_db n req db) as [E|E];
      [unchanged E | by_eq E; apply AE_menu; constructor].
  - unchanged (group_list_view_db ns user_repr "manager" req db).
  - apply group_assign_effect.
  - apply group_remove_effect.
  - unchanged (group_list_view_db ns user_repr "delivery-crew" req db).
  - apply group_assign_effect.
  - apply group_remove_effect.
  - rewrite api_view_pass by done. unchanged (cart_list_body_db req db).
  - rewrite api_view_pass by done. unfold add_to_cart_body. py_run.
    destruct (validate CartSerializer false db (req_data req)) as [vd|] eqn:Hv; py_run; [|done].
    destruct (cart_nested_write db (req_data req) vd Hv) as [e ->]. done.
  - by_eq (clear_cart_db req db). destruct (req_user req); [done|apply AE_clear].
  - unchanged (order_list_db req db).
  - unchanged (create_order_db req db).
  - unchanged (order_detail_db n req db).
  - unchanged (update_order_db n req db).
  - destruct (delete_order_db n req db) as [E|E];
      [unchanged E | by_eq E; apply AE_order; constructor].
  - unchanged (delivery_crew_orders_db req db).
  - by_eq (update_order_status_db n req db). apply AE_order.
    destruct (orders db !! n) eqn:Ho; [|constructor].
    destruct (status_guard _ _ _); [by econstructor | constructor].
Qed.
End Effects.

Lemma dispatch_effect `{Validator} ns user_repr m path req db :
  api_effect ns db (fst (dispatch ns user_repr m path req db)).
Proof.
  unfold dispatch. destruct (resolve path) as [[v kw]|]; [|done].
  destruct (check_permissions (view_perms v) db req) eqn:Hp.
  - by rewrite (api_view_deny _ _ _ _ _ Hp).
  - rewrite (api_view_pass _ _ _ _ Hp). unfold method_gate.
    case_bool_decide; [by apply view_body_effect | done].
Qed.

(** ** Invariants of the effects *)

Lemma order_effect_fit db db' : order_effect db db' -> decimals_fit db -> decimals_fit db'.
Proof.
  intros [|pk|pk o b Ho] (Hm & Hc & Hor & Hx); [done| |].
  - repeat split; try done. simpl. by apply map_Forall_delete.
  - repeat split; try done. simpl. apply map_Forall_insert_2; [|done]. exact (Hor pk o Ho).
Qed.

Lemma api_effect_wf ns db db' : api_effect ns db db' -> wf_db db -> wf_db db'.
Proof.
  intros [db1 E|db1 E|u|uid g _ Hu Hg|uid g _] Hwf.
  - by apply (order_effect_wf db).
  - by apply (menu_effect_wf db).
  - apply wf_set_carts_sub; [|done]. intros i c Hi. by apply carts_delete_of_lookup in Hi as [? _].
  - apply wf_set_user_groups; [|done]. intros v h [Hvh%elem_of_singleton|Hin]%elem_of_union; [|by left].
    injection Hvh as -> ->. by right.
  - apply wf_set_user_groups; [|done]. intros v h Hin. left. set_solver.
Qed.

Lemma api_effect_fit ns db db' : api_effect ns db db' -> decimals_fit db -> decimals_fit db'.
Proof.
  intros [db1 E|db1 E|u|uid g|uid g] Hfit; try done.
  - by apply (order_effect_fit db).
  - by apply (menu_effect_fit db).
  - destruct Hfit as (Hm & Hc & Ho & Hx). repeat split; try done.
    intros i c (Hi & _)%map_lookup_filter_Some. exact (Hc i c Hi).
Qed.

(** What survives any request in the namespace of [views.py]: the users,
    groups, memberships, categories and id counters are unchanged, and
    no row of the other tables appears. *)
Definition api_shrinks (db db' : Db) : Prop :=
  auth_user db' = auth_user db /\ auth_group db' = auth_group db /\
  user_groups db' = user_groups db /\ categories db' = categories db /\
  dom (menuitems db') ⊆ dom (menuitems db) /\ dom (carts db') ⊆ dom (carts db) /\
  dom (orders db') ⊆ dom (orders db) /\ dom (orderitems db') ⊆ dom (orderitems db) /\
  seq_cart db' = seq_cart db /\ seq_order db' = seq_order db /\
  seq_orderitem db' = seq_orderitem db.

Lemma api_shrinks_refl db : api_shrinks db db.
Proof. repeat split; done. Qed.

Lemma api_shrinks_trans a b c : api_shrinks a b -> api_shrinks b c -> api_shrinks a c.
Proof.
  intros (A1 & A2 & A3 & A4 & A5 & A6 & A7 & A8 & A9 & A10 & A11)
         (B1 & B2 & B3 & B4 & B5 & B6 & B7 & B8 & B9 & B10 & B11).
  repeat split; try congruence; etrans; eauto.
Qed.

Lemma dom_filter_sub {A} (P : Z * A -> Prop) `{!forall x, Decision (P x)} (m : gmap Z A) :
  dom (filter P m) ⊆ dom m.
Proof. intros i [x (Hx & _)%map_lookup_filter_Some]%elem_of_dom. by apply elem_of_dom. Qed.

Lemma api_effect_shrinks db db' : api_effect views_globals db db' -> api_shrinks db db'.
Proof.
  intros [db1 E|db1 E|u|uid g Hns|uid g Hns];
    try (exfalso; by apply user_not_in_views_globals).
  - destruct E as [|pk|pk o b Ho]; [apply api_shrinks_refl| |];
      repeat split; simpl; try done.
    + rewrite dom_delete_L. set_solver.
    + rewrite dom_insert_L. apply elem_of_dom_2 in Ho. set_solver.
  - destruct E as [|pk mi mi' Hmi _ _|pk]; [apply api_shrinks_refl| |];
      repeat split; simpl; try done; try apply dom_filter_sub.
    + rewrite dom_insert_L. apply elem_of_dom_2 in Hmi. set_solver.
    + rewrite dom_delete_L. set_solver.
  - repeat split; simpl; try done. apply dom_filter_sub.
Qed.

(** ** Along any sequence of requests *)

Section Sequences.
Context `{Validator}.

(** C31: in every namespace, every sequence of requests (any method, any
    path, any caller, any body) keeps the referential invariant [wf_db]
    and keeps every stored decimal within its field's [max_digits]. *)
Theorem api_preserves_invariants ns user_repr db db' :
  rtc (api_step ns user_repr) db db' -> wf_db db -> decimals_fit db ->
  wf_db db' /\ decimals_fit db'.
Proof.
  induction 1 as [|a b c (m & path & req & ->) _ IH]; [done|]. intros Hwf Hfit.
  apply IH; [eapply api_effect_wf | eapply api_effect_fit]; eauto using dispatch_effect.
Qed.

(** C32: the program as written (namespace [views_globals]) never grows
    its data: along every sequence of requests no user, group
    membership, category, menu item, cart line, order or order item is
    created and no id is handed out; rows only disappear or have fields
    rewritten. *)
Theorem api_never_creates user_repr db db' :
  rtc (api_step views_globals user_repr) db db' -> api_shrinks db db'.
Proof.
  induction 1 as [db|a b c (m & path & req & ->) _ IH]; [apply api_shrinks_refl|].
  eapply api_shrinks_trans; [|exact IH]. apply api_effect_shrinks, dispatch_effect.
Qed.
End Sequences.

(** ** Dispatch, view by view *)

(** With an allowed method, a resolved path runs its view. *)
Lemma dispatch_allowed `{Validator} ns user_repr m path v kw req db :
  resolve path = Some (v, kw) -> m ∈ view_methods v ->
  dispatch ns user_repr m path req db =
  api_view (view_perms v) (view_body ns user_repr v kw) req db.
Proof.
  intros Hr Hm. unfold dispatch. rewrite Hr.
  destruct (check_permissions (view_perms v) db req) eqn:Hp.
  - by rewrite !(api_view_deny _ _ _ _ _ Hp).
  - rewrite !(api_view_pass _ _ _ _ Hp). unfold method_gate. by rewrite bool_decide_eq_true_2.
Qed.


(** * Witnesses *)

Lemma api_preserves_invariants_witness :
  wf_db (fst (dispatch views_globals (fun i _ => JInt i) DELETE "menu-items/1/delete/"
                (demo_req 1 ∅) demo_db)) /\
  decimals_fit (fst (dispatch views_globals (fun i _ => JInt i) DELETE "menu-items/1/delete/"
                      (demo_req 1 ∅) demo_db)).
Proof.
  apply (api_preserves_invariants views_globals (fun i _ => JInt i) demo_db).
  - apply rtc_once. by exists DELETE, "menu-items/1/delete/"%string, (demo_req 1 ∅).
  - exact demo_db_wf.
  - unfold decimals_fit. apply (bool_decide_unpack _). vm_compute. exact I.
Defined.

Lemma api_never_creates_witness :
  api_shrinks demo_db (fst (dispatch views_globals (fun i _ => JInt i) POST "orders/create/"
                              (demo_req 3 ∅) demo_db)).
Proof.
  apply (api_never_creates (fun i _ => JInt i)). apply rtc_once.
  by exists POST, "orders/create/"%string, (demo_req 3 ∅).
Defined.

(** ** The status codes of the answers *)

(** Every answer a computation gives, when it gives one, satisfies [P]. *)
Definition returns_in {A} (P : A -> Prop) (m : Py Db A) : Prop :=
  forall db, match snd (m db) with PyOk a => P a | PyRaise _ => True end.

Section ReturnsIn.
Context {A B : Type} (P : B -> Prop).

Lemma returns_in_bind (m : Py Db A) (k : A -> Py Db B) :
  (forall a, returns_in P (k a)) -> returns_in P (py_bind m k).
Proof. intros Hk db. unfold py_bind. destruct (m db) as [db1 [a|e]]; [apply Hk|done]. Qed.

Lemma returns_in_ret (b : B) : P b -> returns_in P (py_ret b).
Proof. by intros Hb db. Qed.

Lemma returns_in_raise e : returns_in P (py_raise e).
Proof. by intros db. Qed.
End ReturnsIn.

Definition status_ok (r : Response) : Prop :=
  status_code r ∈ [200; 201; 204; 400; 403; 404; 405; 500]%Z.

Lemma status_ok_denied req : status_ok (permission_denied req).
Proof.
  unfold permission_denied. destruct (req_user req); apply (bool_decide_unpack _); vm_compute; exact I.
Qed.

(** One step of the proof that a body answers with an allowed code. *)
Ltac status_step :=
  first [ apply returns_in_raise
        | apply returns_in_bind; intros
        | apply returns_in_ret; first [ apply status_ok_denied
                                      | apply (bool_decide_unpack _); vm_compute; exact I ]
        | case_match ].

Lemma api_view_status perms h req :
  (forall req, returns_in status_ok (h req)) -> returns_in status_ok (api_view perms h req).
Proof.
  intros Hh. unfold api_view. apply returns_in_bind. intros db.
  destruct (check_permissions perms db req) as [r|] eqn:Hp; [|apply Hh].
  apply check_permissions_some in Hp as ->. apply returns_in_ret, status_ok_denied.
Qed.

Lemma view_body_status `{Validator} ns user_repr v kw req :
  returns_in status_ok (view_body ns user_repr v kw req).
Proof.
  destruct v; cbn [view_body]; unfold with_kwarg; repeat case_match;
    unfold menu_item_list_body, menu_item_detail_body, create_menu_item_body,
      update_menu_item_body, delete_menu_item_body, group_list_body, group_assign_body,
      group_remove_body, get_user_or_404, group_add, group_discard, cart_list_body,
      add_to_cart_body, clear_cart_body, order_list_body, create_order_body, order_detail_body,
      update_order_body, delete_order_body, delivery_crew_orders_body, update_order_status_body;
    repeat status_step.
Qed.

(** C28: whatever the method, path, caller, body and database, the
    application answers with one of the codes 200, 201, 204, 400, 403,
    404, 405 or an uncaught exception's 500; the specification's list
    (section 6) has neither 405 nor 500. *)
Theorem dispatch_status_codes `{Validator} ns user_repr m path req db :
  http_status (snd (dispatch ns user_repr m path req db)) ∈ [200; 201; 204; 400; 403; 404; 405; 500]%Z.
Proof.
  assert (Hr : returns_in status_ok (dispatch ns user_repr m path req)).
  { unfold dispatch. destruct (resolve path) as [[v kw]|]; [|repeat status_step].
    apply api_view_status. intros req'. unfold method_gate.
    case_bool_decide; [apply view_body_status | repeat status_step]. }
  specialize (Hr db). destruct (snd _) as [r|e]; [exact Hr|].
  apply (bool_decide_unpack _). vm_compute. exact I.
Qed.

(** ** Progress *)

Section Progress.
Context `{Validator}.
Variable ns : list string.
Variable user_repr : Z -> User.t -> Json.

(** The path of the entry [i] of [urlpatterns] with argument [pk]. *)
Lemma pk_route i p pk :
  urlpatterns !! i = Some p -> route_params (parse_route (up_route p)) = ["pk"] -> (0 <= pk)%Z ->
  exists path, resolve path = Some (up_view p, [("pk", pk)]).
Proof.
  intros Hi Hprm Hpk.
  destruct (render_resolve i p [("pk", pk)] Hi (eq_sym Hprm) ltac:(repeat constructor; simpl; lia))
    as (path & _ & Hr).
  eauto.
Qed.

(** A manager deletes an existing order in one request. *)
Lemma delete_order_step db m pk :
  (m, "manager") ∈ user_groups db -> is_Some (orders db !! pk) -> (0 <= pk)%Z ->
  api_step ns user_repr db (order_delete pk db).
Proof.
  intros Hm [o Ho] Hpk. destruct (pk_route 18 _ pk eq_refl eq_refl Hpk) as [path Hr].
  exists DELETE, path, {| req_user := Authenticated m; req_data := ∅ |}.
  rewrite (dispatch_allowed _ _ _ _ _ _ _ _ Hr) by (simpl; set_solver). cbn [up_view view_body view_perms].
  unfold with_kwarg. simpl kw_lookup.
  rewrite api_view_single. simpl. rewrite bool_decide_eq_true_2 by done.
  unfold delete_order_body. py_run. by rewrite Ho.
Qed.

Lemma set_orders_id db : set_orders (fun _ => orders db) db = db.
Proof. by destruct db. Qed.

Lemma set_orders_set_orders f g db : set_orders f (set_orders g db) = set_orders (fun m => f (g m)) db.
Proof. reflexivity. Qed.

(** Deleting the orders of [os] one by one. *)
Lemma delete_orders_reach db m os :
  (m, "manager") ∈ user_groups db -> map_Forall (fun pk _ => 0 <= pk)%Z os ->
  rtc (api_step ns user_repr) (set_orders (fun _ => os) db) (set_orders (fun _ => ∅) db).
Proof.
  intros Hm. induction os as [|pk o os Hnone IH] using map_ind; intros Hpos; [done|].
  apply map_Forall_insert in Hpos as [Hpk Hpos]; [|done].
  eapply rtc_l; [|exact (IH Hpos)].
  replace (set_orders (fun _ => os) db)
    with (order_delete pk (set_orders (fun _ => <[pk := o]> os) db)).
  - apply delete_order_step with m; [done| |done]. simpl. rewrite lookup_insert_eq. eauto.
  - unfold order_delete. rewrite set_orders_set_orders. by rewrite delete_insert_id.
Qed.

(** C13: the delivery of an assigned order can always happen.  When an
    order is assigned to a user of the delivery crew, one request of that
    user ([PATCH orders/<pk>/status/] with status 1) reaches the database
    where the order is marked delivered, whatever else the database
    holds; the write is committed although the client is answered 500
    (see C1). *)
Theorem order_delivery_reachable db pk o u :
  orders db !! pk = Some o -> Order.delivery_crew o = Some u ->
  (u, "delivery-crew") ∈ user_groups db -> is_Some (auth_user db !! u) -> (0 <= pk)%Z ->
  api_step ns user_repr db (set_orders (<[pk := with_status true o]>) db).
Proof.
  intros Ho Hc Hg Hu Hpk. destruct (pk_route 20 _ pk eq_refl eq_refl Hpk) as [path Hr].
  exists PATCH, path, {| req_user := Authenticated u; req_data := {["status" := VInt 1]} |}.
  rewrite (dispatch_allowed _ _ _ _ _ _ _ _ Hr) by (simpl; set_solver). cbn [up_view view_body view_perms].
  unfold with_kwarg. simpl kw_lookup. cbv beta iota.
  change (api_view [IsDeliveryCrew] (fun req => update_order_status_body pk req) ?r ?d)
    with (update_order_status pk r d).
  rewrite update_order_status_db, Ho. unfold status_guard, load_crew. simpl. rewrite Hc.
  destruct Hu as [x Hx]. unfold fetch. simpl. rewrite Hx. simpl.
  rewrite bool_decide_eq_true_2 by done. rewrite bool_decide_eq_true_2 by done. reflexivity.
Qed.

(** C14: a manager can always empty the orders: from any database with a
    member of the manager group and non-negative order ids (as
    AutoField hands out), some sequence of requests ([DELETE
    orders/<pk>/delete/], one per order) reaches the database with no
    order and every other table as it was (order items stay: their
    [order] field points to User, so nothing cascades). *)
Theorem manager_can_clear_orders db m :
  (m, "manager") ∈ user_groups db -> map_Forall (fun pk _ => 0 <= pk)%Z (orders db) ->
  rtc (api_step ns user_repr) db (set_orders (fun _ => ∅) db).
Proof.
  intros Hm Hpos. rewrite <- (set_orders_id db) at 1. by apply delete_orders_reach with m.
Qed.
End Progress.

(** ** The cart under DRF's validation *)

(** C21: with DRF's field validation ([drf_validator], any database
    range for SmallIntegerField and any date parsing), a request of an
    authenticated user to [POST cart/menu-items/add/] whose [unit_price]
    its [DecimalField(max_digits=6, decimal_places=6)] refuses, such as
    any price of 1 or more, is answered 400 and changes nothing. *)
Theorem add_to_cart_refuses_price r pd ns user_repr u d v db :
  d !! "unit_price" = Some v -> decimal_to_internal 6 6 v = None ->
  @dispatch (drf_validator r pd) ns user_repr POST "cart/menu-items/add/"
    {| req_user := Authenticated u; req_data := d |} db = (db, PyOk (Resp 400 BErrors)).
Proof.
  intros Hd Hv. unfold dispatch. replace (resolve _) with (Some (VAddToCart, @nil (string * Z)))
    by reflexivity.
  cbn [view_perms view_methods view_body]. rewrite api_view_single. simpl.
  unfold method_gate. rewrite bool_decide_eq_true_2 by set_solver.
  unfold add_to_cart_body. py_run. cbn [validate drf_validator req_data].
  erewrite (drf_field_error_invalid r pd CartSerializer false db d
              (WF "unit_price" "unit_price" (DDecimal 6 6) true false)); [done| |].
  - vm_compute. tauto.
  - eapply run_field_decimal_error; [reflexivity | reflexivity | exact Hd | exact Hv].
Qed.

Lemma add_to_cart_refuses_price_witness :
  @dispatch (drf_validator (-32768, 32767)%Z (fun _ => None)) views_globals (fun i _ => JInt i)
    POST "cart/menu-items/add/" {| req_user := Authenticated 3; req_data := demo_cart_body "9.50" |}
    demo_db = (demo_db, PyOk (Resp 400 BErrors)).
Proof. apply (add_to_cart_refuses_price _ _ _ _ 3 _ (VStr "9.50")); reflexivity. Defined.

Lemma order_delivery_reachable_witness :
  api_step (H := presence_validator) views_globals (fun i _ => JInt i) demo_db
    (set_orders (<[1 := with_status true (Order.mk 3 (Some 2) false 0 100)]>) demo_db).
Proof.
  apply (order_delivery_reachable views_globals (fun i _ => JInt i) demo_db 1 _ 2);
    [reflexivity | reflexivity | set_solver | by eexists | lia].
Defined.

Lemma manager_can_clear_orders_witness :
  rtc (api_step (H := presence_validator) views_globals (fun i _ => JInt i)) demo_db
    (set_orders (fun _ => ∅) demo_db).
Proof.
  apply (manager_can_clear_orders views_globals (fun i _ => JInt i) demo_db 1); [set_solver|].
  apply (bool_decide_unpack _). vm_compute. exact I.
Defined.
